(** * Trademark-Automation: extraction orchestration and variant resolution

    A shallow embedding of the scraping core of the repository
    (src/app.py and src/platforms/*.py) together with the properties the
    specification states about it.

    Python strings are lists of Unicode code points; a dictionary value that
    may be [None] is an [option]; an awaited browser call that may raise is
    an [outcome]. *)

From Stdlib Require Import List NArith ZArith Bool String Ascii Lia PeanoNat
  Permutation.
Import ListNotations.

(* ================================================================== *)
(** ** Python strings *)
(* ================================================================== *)

Module PyStr.

Definition pystr := list N.

(** An ASCII literal of the source as a Python string. *)
Definition py (s : string) : pystr := map N_of_ascii (list_ascii_of_string s).

(** The rupee sign U+20B9, a single code point of a Python [str]. *)
Definition rupee : N := 8377%N.

Definition pystr_eqb (a b : pystr) : bool :=
  if list_eq_dec N.eq_dec a b then true else false.

(** Truth value of a string: [if s:]. *)
Definition nonempty (s : pystr) : bool :=
  match s with [] => false | _ :: _ => true end.

(** [str.isspace] on one code point (the whitespace set of CPython). *)
Definition is_space (c : N) : bool :=
  (((9 <=? c) && (c <=? 13)) || ((28 <=? c) && (c <=? 32)) || (c =? 133)
   || (c =? 160) || (c =? 5760) || ((8192 <=? c) && (c <=? 8202))
   || (c =? 8232) || (c =? 8233) || (c =? 8239) || (c =? 8287)
   || (c =? 12288))%N.

(** [s.lstrip(chars)], [s.rstrip(chars)] and [s.strip(chars)] for a set of
    characters given by its membership test. *)
Fixpoint lstrip_by (sp : N -> bool) (s : pystr) : pystr :=
  match s with
  | [] => []
  | c :: r => if sp c then lstrip_by sp r else s
  end.

Fixpoint rstrip_by (sp : N -> bool) (s : pystr) : pystr :=
  match s with
  | [] => []
  | c :: r =>
      match rstrip_by sp r with
      | [] => if sp c then [] else [c]
      | r' => c :: r'
      end
  end.

Definition strip_by (sp : N -> bool) (s : pystr) : pystr :=
  rstrip_by sp (lstrip_by sp s).

(** [s.strip()] *)
Definition strip (s : pystr) : pystr := strip_by is_space s.

(** Truth value of a string that may be [None]. *)
Definition truthy (v : option pystr) : bool :=
  match v with
  | Some s => nonempty s
  | None => false
  end.

(** [a or b] on strings that may be [None]. *)
Definition py_or (a b : option pystr) : option pystr :=
  if truthy a then a else b.

(** [s.split()]: the maximal runs of non-whitespace, in order.  [cur] holds
    the run being read, reversed. *)
Fixpoint split_ws_from (cur : pystr) (s : pystr) : list pystr :=
  match s with
  | [] => match cur with [] => [] | _ => [rev cur] end
  | c :: r =>
      if is_space c
      then match cur with
           | [] => split_ws_from [] r
           | _ => rev cur :: split_ws_from [] r
           end
      else split_ws_from (c :: cur) r
  end.

Definition split_ws (s : pystr) : list pystr := split_ws_from [] s.

(** [sep.join(ws)] *)
Fixpoint join (sep : pystr) (ws : list pystr) : pystr :=
  match ws with
  | [] => []
  | w :: rest =>
      match rest with
      | [] => w
      | _ => w ++ sep ++ join sep rest
      end
  end.

(** [" ".join(s.split())] *)
Definition normalize_ws (s : pystr) : pystr := join [32%N] (split_ws s).

(** [s.startswith(p)] *)
Fixpoint startswith (p s : pystr) : bool :=
  match p, s with
  | [], _ => true
  | _ :: _, [] => false
  | a :: p', b :: s' => (a =? b)%N && startswith p' s'
  end.

(** [p in s] *)
Fixpoint contains (p s : pystr) : bool :=
  startswith p s
  || match s with
     | [] => false
     | _ :: s' => contains p s'
     end.

(** [s.split(sep)[0]] for a non-empty separator: the text before the first
    occurrence of [sep], the whole of [s] when there is none. *)
Fixpoint before (sep s : pystr) : pystr :=
  if startswith sep s then []
  else match s with
       | [] => []
       | c :: r => c :: before sep r
       end.

(** [x in seen] for a set or list of strings. *)
Definition mem (x : pystr) (seen : list pystr) : bool :=
  existsb (pystr_eqb x) seen.

(** [any(pat in h for pat in patterns)] *)
Definition any_in (patterns : list pystr) (h : pystr) : bool :=
  existsb (fun pat => contains pat h) patterns.

(** The elements of a list in the order of their first occurrence, those of
    [seen] left out. *)
Fixpoint dedup_first (seen l : list pystr) : list pystr :=
  match l with
  | [] => []
  | x :: r =>
      if mem x seen then dedup_first seen r
      else x :: dedup_first (x :: seen) r
  end.

(** A URL without its query string and fragment:
    [u.split("?")[0].split("#")[0]]. *)
Definition strip_query_fragment (u : pystr) : pystr :=
  before (py "#") (before (py "?") u).

(** JavaScript [s.replace(pat, rep)] with a string pattern: the first
    occurrence only. *)
Fixpoint replace_first (pat rep s : pystr) : pystr :=
  if startswith pat s then rep ++ skipn (List.length pat) s
  else match s with
       | [] => []
       | c :: r => c :: replace_first pat rep r
       end.

(** The white space and line terminators of JavaScript, for [s.trim()]. *)
Definition is_js_space (c : N) : bool :=
  (((9 <=? c) && (c <=? 13)) || (c =? 32) || (c =? 160) || (c =? 5760)
   || ((8192 <=? c) && (c <=? 8202)) || (c =? 8232) || (c =? 8233)
   || (c =? 8239) || (c =? 8287) || (c =? 12288) || (c =? 65279))%N.

Definition js_trim (s : pystr) : pystr := strip_by is_js_space s.

(** The ASCII digits, a part of what [\d] matches. *)
Definition is_ascii_digit (c : N) : bool := ((48 <=? c) && (c <=? 57))%N.

(** [str.lower] on the ASCII letters; the other code points are kept. *)
Definition ascii_lower_cp (c : N) : N :=
  if ((65 <=? c) && (c <=? 90))%N then (c + 32)%N else c.

Definition ascii_lower (s : pystr) : pystr := map ascii_lower_cp s.

(** A word: a non-empty run without whitespace. *)
Definition word (w : pystr) : Prop :=
  w <> [] /\ forallb (fun c => negb (is_space c)) w = true.

(** Whitespace-normalized text: words separated by exactly one space, with
    no whitespace at either end. *)
Inductive ws_normalized : pystr -> Prop :=
| wn_word : forall w, word w -> ws_normalized w
| wn_more : forall w r, word w -> ws_normalized r ->
                        ws_normalized (w ++ 32%N :: r).

End PyStr.

Import PyStr.

(* ================================================================== *)
(** ** Awaited calls that may raise *)
(* ================================================================== *)

(** The exceptions the code meets; all of them are subclasses of
    [Exception]. *)
Inductive exn : Type :=
| PlaywrightError   (* a locator, navigation or evaluation failure *)
| OSError           (* the sink: disk or permission failure *)
| TypeError.

Inductive outcome (A : Type) : Type :=
| Ok (a : A)
| Raise (e : exn).

Arguments Ok {A} a.
Arguments Raise {A} e.

(* ================================================================== *)
(** ** The parts of a product page the variant detection script reads *)
(* ================================================================== *)

Module Dom.

(** An [li[data-asin]] of a twister row.  A text is [None] when the element
    that would carry it is missing. *)
Record swatch : Type := {
  data_asin : pystr;
  data_initiallyUnavailable : option pystr;
  swatch_title : option pystr;     (* .swatch-title-text-display textContent *)
  img_alt : option pystr;          (* img alt *)
  button_text : option pystr       (* .a-button-text textContent *)
}.

(** A [div] whose id contains "inline-twister-row-". *)
Record twister_row : Type := {
  row_id : pystr;
  swatches : list swatch
}.

Record select_option : Type := {
  opt_value : pystr;
  opt_text : pystr;
  opt_data_asin : option pystr
}.

(** A [select] whose name contains "dropdown_selected". *)
Record select_element : Type := {
  select_name : pystr;
  select_options : list select_option
}.

End Dom.

(* ================================================================== *)
(** ** platforms/base.py *)
(* ================================================================== *)

Module Base.

(** What a page answers to the read operations the extractors use.  A value
    of this type is the page in one state. *)
Record Page : Type := {
  url : pystr;                                   (* page.url *)
  count : pystr -> outcome nat;                  (* await page.locator(sel).count() *)
  inner_text : pystr -> outcome pystr;           (* await loc.first.inner_text() *)
  get_attribute : pystr -> pystr -> outcome (option pystr);
                                                 (* await loc.first.get_attribute(a) *)
  og_image : outcome (option pystr);             (* the og:image evaluate script *)
  page_title : outcome pystr;                    (* await page.title() *)
  hrefs : outcome (list pystr);                  (* the a[href] evaluate script *)
  twister : outcome (list Dom.twister_row * list Dom.select_element);
                                                 (* what the variant script reads *)
  card_hrefs : outcome (pystr -> list pystr)
    (* what the product-card scripts read: for a selector, the [href] of
       every element of [querySelectorAll], the empty string when the
       element has none; the evaluation may raise *)
}.

(** The dictionary an extractor returns.  A value may be [None]. *)
Record product_data : Type := {
  product_url : pystr;
  title : option pystr;
  price : option pystr;
  seller_name : option pystr;
  manufacturer_name : option pystr;
  image_url : option pystr
}.

(** The dictionary of [extract_common_data]: no "product_url" key yet. *)
Record common_data : Type := {
  c_title : option pystr;
  c_price : option pystr;
  c_seller_name : option pystr;
  c_manufacturer_name : option pystr;
  c_image_url : option pystr
}.

(** [BaseExtractor.first_text] *)
Fixpoint first_text (page : Page) (selectors : list pystr) : option pystr :=
  match selectors with
  | [] => None
  | sel :: rest =>
      match count page sel with
      | Ok n =>
          if 0 <? n
          then match inner_text page sel with
               | Ok raw =>
                   let text := strip raw in
                   if nonempty text then Some (normalize_ws text)
                   else first_text page rest
               | Raise _ => first_text page rest
               end
          else first_text page rest
      | Raise _ => first_text page rest
      end
  end.

(** [BaseExtractor.text_by_xpath] *)
Fixpoint text_by_xpath (page : Page) (xpaths : list pystr) : option pystr :=
  match xpaths with
  | [] => None
  | xp :: rest =>
      match count page (py "xpath=" ++ xp) with
      | Ok n =>
          if 0 <? n
          then match inner_text page (py "xpath=" ++ xp) with
               | Ok raw =>
                   let txt := strip raw in
                   if nonempty txt then Some (normalize_ws txt)
                   else text_by_xpath page rest
               | Raise _ => text_by_xpath page rest
               end
          else text_by_xpath page rest
      | Raise _ => text_by_xpath page rest
      end
  end.

(** The dictionary of one variant: the product as extracted after the
    selection, and what [_extract_amazon_variant_data] adds to it. *)
Record variant_data : Type := {
  v_product : product_data;
  variant_product_url : pystr;
  main_product_url : pystr;
  variant_price : option pystr;
  variant_type : pystr;
  variant_option : pystr;
  variant_asin : pystr
}.

(** A live page: its states, what each state answers to the read
    operations, and how the awaited calls of the extractors change the
    state.  A call gives the new state and whether it raised; the page may
    change while a wait runs. *)
Record Browser : Type := {
  dom : Type;
  view : dom -> Page;
  wait_for_timeout : dom -> N -> dom * outcome unit;
                                     (* await page.wait_for_timeout(ms) *)
  wait_for_selector : dom -> pystr -> N -> dom * outcome unit;
                                     (* await page.wait_for_selector(sel, timeout=ms) *)
  tag_name : dom -> pystr -> outcome pystr;
                                     (* el => el.tagName.toLowerCase() *)
  click : dom -> pystr -> dom * outcome unit;
                                     (* await page.locator(sel).click() *)
  select_option : dom -> pystr -> pystr -> dom * outcome unit
                                     (* await locator.select_option(v) *)
}.

(** [u.startswith(("http", "//"))] *)
Definition http_like (u : pystr) : bool :=
  startswith (py "http") u || startswith (py "//") u.

(** The test and the result shared by both parts of [get_image_url]: a
    usable address, protocol-relative ones completed, trimmed. *)
Definition usable_image (v : option pystr) : option pystr :=
  match v with
  | Some u =>
      if nonempty u && nonempty (strip u) && http_like u
      then Some (strip (if startswith (py "//") u then py "https:" ++ u
                        else u))
      else None
  | None => None
  end.

(** The body of the [try] for one selector of [get_image_url]: "src", then
    "data-src", then "data-lazy-src". *)
Definition image_of_selector (page : Page) (sel : pystr) : option pystr :=
  match count page sel with
  | Ok n =>
      if 0 <? n
      then match get_attribute page sel (py "src") with
           | Raise _ => None
           | Ok a1 =>
               match (if truthy a1 then Ok a1
                      else get_attribute page sel (py "data-src")) with
               | Raise _ => None
               | Ok a2 =>
                   match (if truthy a2 then Ok a2
                          else get_attribute page sel (py "data-lazy-src")) with
                   | Raise _ => None
                   | Ok a3 => usable_image a3
                   end
               end
           end
      else None
  | Raise _ => None
  end.

Fixpoint image_of_selectors (page : Page) (selectors : list pystr)
  : option pystr :=
  match selectors with
  | [] => None
  | sel :: rest =>
      match image_of_selector page sel with
      | Some u => Some u
      | None => image_of_selectors page rest
      end
  end.

(** [BaseExtractor.get_image_url] *)
Definition get_image_url (page : Page) (selectors : list pystr)
           (use_og_meta : bool) : option pystr :=
  let from_meta :=
    if use_og_meta
    then match og_image page with
         | Ok v => usable_image v
         | Raise _ => None
         end
    else None in
  match from_meta with
  | Some u => Some u
  | None => image_of_selectors page selectors
  end.

(** [x or ""] *)
Definition or_empty (v : option pystr) : option pystr :=
  py_or v (Some []).

(** [BaseExtractor.extract_common_data].  None of the calls of its body
    raises, so its [except] branch is never taken. *)
Definition extract_common_data (page : Page) : common_data :=
  let title := first_text page
    [py "h1[id='title']"; py "h1[data-automation-id='product-title']";
     py "h1.product-title"; py "h1"; py ".product-title";
     py "[data-testid='product-title']"] in
  let price := first_text page
    [py ".a-price-whole"; py ".a-price .a-offscreen"; py ".price";
     py ".product-price"; py "[data-testid='price']"; py ".a-price-range"] in
  let seller_name := first_text page
    [py "#sellerProfileTriggerId"; py ".a-size-small.a-color-secondary";
     py ".seller-name"; py "[data-testid='seller-name']"] in
  let manufacturer_name := first_text page
    [py "#bylineInfo"; py ".a-size-small.a-color-secondary";
     py ".manufacturer-name"; py "[data-testid='manufacturer-name']"] in
  let image_url := get_image_url page
    [py "#landingImage"; py ".a-dynamic-image"; py "img[data-old-hires]";
     py "img[data-src]"; py "img[src]"] true in
  {| c_title := or_empty title;
     c_price := or_empty price;
     c_seller_name := or_empty seller_name;
     c_manufacturer_name := or_empty manufacturer_name;
     c_image_url := or_empty image_url |}.

(** Every one of the five fields is a string. *)
Definition all_strings (d : product_data) : Prop :=
  title d <> None /\ price d <> None /\ seller_name d <> None
  /\ manufacturer_name d <> None /\ image_url d <> None.

(** The selector finds an element whose text, trimmed, is [text] and is not
    empty. *)
Definition yields (page : Page) (sel : pystr) (text : pystr) : Prop :=
  exists n raw, count page sel = Ok n /\ 0 < n /\
                inner_text page sel = Ok raw /\
                text = strip raw /\ text <> [].

(** The selector gives no result: a call raised, nothing matched, or the
    text is empty once trimmed. *)
Definition no_result (page : Page) (sel : pystr) : Prop :=
  (exists e, count page sel = Raise e)
  \/ count page sel = Ok 0
  \/ (exists n, count page sel = Ok n /\ 0 < n /\
       ((exists e, inner_text page sel = Raise e)
        \/ exists raw, inner_text page sel = Ok raw /\ strip raw = [])).

End Base.

(* ================================================================== *)
(** ** platforms/__init__.py: the registry and the extractor classes *)
(* ================================================================== *)

Module Registry.

Local Open Scope string_scope.

(** A [def] of a class body is concrete or carries [@abstractmethod]. *)
Inductive method_kind : Type := Concrete | Abstract.

(** A class statement: its name, its base class and the methods its body
    defines, in the order of the source. *)
Inductive pyclass : Type :=
| Root (name : string) (body : list (string * method_kind))
| Sub (name : string) (base : pyclass) (body : list (string * method_kind)).

Definition class_name (c : pyclass) : string :=
  match c with Root n _ | Sub n _ _ => n end.

Fixpoint assoc {A : Type} (k : string) (l : list (string * A)) : option A :=
  match l with
  | [] => None
  | (k', v) :: r => if String.eqb k k' then Some v else assoc k r
  end.

Definition is_abstract (e : string * method_kind) : bool :=
  match snd e with Abstract => true | Concrete => false end.

Definition defines (body : list (string * method_kind)) (m : string) : bool :=
  match assoc m body with Some _ => true | None => false end.

(** [getattr(cls, m)]: the body first, then the base. *)
Fixpoint find_method (c : pyclass) (m : string) : option method_kind :=
  match c with
  | Root _ body => assoc m body
  | Sub _ base body =>
      match assoc m body with
      | Some k => Some k
      | None => find_method base m
      end
  end.

(** [cls.__abstractmethods__] as [ABCMeta] computes it: the abstract methods
    of the body, and those of the base that the body does not override. *)
Fixpoint abstractmethods (c : pyclass) : list string :=
  match c with
  | Root _ body => map fst (filter is_abstract body)
  | Sub _ base body =>
      map fst (filter is_abstract body)
      ++ filter (fun m => negb (defines body m)) (abstractmethods base)
  end.

(** [cls()]: a class with abstract methods left cannot be instantiated. *)
Definition instantiate (c : pyclass) : outcome pyclass :=
  match abstractmethods c with
  | [] => Ok c
  | _ :: _ => Raise TypeError
  end.

Definition BaseExtractor : pyclass :=
  Root "BaseExtractor"
    [("__init__", Concrete); ("first_text", Concrete);
     ("text_by_xpath", Concrete); ("get_attribute_by_xpath", Concrete);
     ("get_image_url", Concrete); ("extract_common_data", Concrete);
     ("extract_product_data", Abstract); ("get_product_links", Abstract);
     ("go_to_next_page", Abstract); ("extract_variants", Abstract)].

Definition extractor (name : string) (methods : list string) : pyclass :=
  Sub name BaseExtractor (map (fun m => (m, Concrete)) methods).

Definition AmazonExtractor : pyclass :=
  extractor "AmazonExtractor"
    ["__init__"; "get_product_links"; "extract_product_data";
     "go_to_next_page"; "extract_variants"; "_detect_amazon_variants";
     "_select_amazon_variant"; "_extract_amazon_variant_data"].

Definition FlipkartExtractor : pyclass :=
  extractor "FlipkartExtractor" ["get_product_links"; "extract_product_data"].

Definition MyntraExtractor : pyclass :=
  extractor "MyntraExtractor" ["get_product_links"; "extract_product_data"].

Definition MeeshoExtractor : pyclass :=
  extractor "MeeshoExtractor" ["get_product_links"; "extract_product_data"].

Definition AjioExtractor : pyclass :=
  extractor "AjioExtractor"
    ["canonical_ajio_link"; "get_product_links"; "extract_product_data"].

Definition EbayExtractor : pyclass :=
  extractor "EbayExtractor"
    ["get_product_links"; "wait_for_products"; "extract_product_data"].

Definition RedbubbleExtractor : pyclass :=
  extractor "RedbubbleExtractor"
    ["get_product_links"; "wait_for_products"; "extract_product_data"].

Definition SnapdealExtractor : pyclass :=
  extractor "SnapdealExtractor" ["get_product_links"; "extract_product_data"].

Definition ShopsyExtractor : pyclass :=
  extractor "ShopsyExtractor" ["get_product_links"; "extract_product_data"].

Definition NykaaExtractor : pyclass :=
  extractor "NykaaExtractor" ["get_product_links"; "extract_product_data"].

Definition TataCliqExtractor : pyclass :=
  extractor "TataCliqExtractor"
    ["get_product_links"; "wait_for_products"; "extract_json_ld_data";
     "extract_more_product_info"; "extract_field_with_config";
     "extract_seller_with_enhanced_logic";
     "extract_manufacturer_with_details"; "extract_product_data"].

Definition IndiaMARTExtractor : pyclass :=
  extractor "IndiaMARTExtractor"
    ["get_product_links"; "wait_for_products"; "_extract_field";
     "_extract_manufacturer_with_labels"; "extract_product_data";
     "update_selectors"; "add_selector"; "get_current_config";
     "print_config"].

Definition WalmartExtractor : pyclass :=
  extractor "WalmartExtractor"
    ["canonical_walmart_link"; "get_product_links"; "parse_json_ld";
     "extract_product_data"].

Definition GenericExtractor : pyclass :=
  extractor "GenericExtractor" ["get_product_links"; "extract_product_data"].

Definition PLATFORM_EXTRACTORS : list (string * pyclass) :=
  [("amazon", AmazonExtractor); ("flipkart", FlipkartExtractor);
   ("myntra", MyntraExtractor); ("meesho", MeeshoExtractor);
   ("ajio", AjioExtractor); ("ebay", EbayExtractor);
   ("redbubble", RedbubbleExtractor); ("snapdeal", SnapdealExtractor);
   ("shopsy", ShopsyExtractor); ("nykaa", NykaaExtractor);
   ("tatacliq", TataCliqExtractor); ("indiamart", IndiaMARTExtractor);
   ("walmart", WalmartExtractor); ("generic", GenericExtractor)].

(** [get_extractor]: [PLATFORM_EXTRACTORS.get(platform, GenericExtractor)] *)
Definition get_extractor (platform : string) : pyclass :=
  match assoc platform PLATFORM_EXTRACTORS with
  | Some c => c
  | None => GenericExtractor
  end.

(** The four capabilities of an adapter. *)
Definition capabilities : list string :=
  ["get_product_links"; "extract_product_data"; "go_to_next_page";
   "extract_variants"].

(** The object provides a capability when the attribute resolves to a
    concrete method. *)
Definition provides (c : pyclass) (m : string) : bool :=
  match find_method c m with
  | Some Concrete => true
  | _ => false
  end.

End Registry.

(* ================================================================== *)
(** ** app.py: the whitelist classifier *)
(* ================================================================== *)

Module Whitelist.

(** [s.split(",")]: the fields between the separators, empty ones kept. *)
Fixpoint split_on (sep : N) (s : pystr) : list pystr :=
  match s with
  | [] => [[]]
  | c :: r =>
      if (c =? sep)%N then [] :: split_on sep r
      else match split_on sep r with
           | w :: ws => (c :: w) :: ws
           | [] => [[c]]
           end
  end.

(** [load_whitelisted_sellers], from the value of WHITELISTED_SELLERS. *)
Definition load_whitelisted_sellers (whitelisted_str : pystr) : list pystr :=
  if nonempty whitelisted_str
  then map strip
         (filter (fun seller => nonempty (strip seller))
                 (split_on 44%N whitelisted_str))
  else [].

Section Classifier.

(** [str.lower]; the classifier is the same whatever the case table. *)
Variable lower : pystr -> pystr.

Definition names_to_check (seller_name manufacturer_name : option pystr)
  : list pystr :=
  (match seller_name with
   | Some s => if nonempty s then [strip s] else []
   | None => []
   end)
  ++ (match manufacturer_name with
      | Some m => if nonempty m then [strip m] else []
      | None => []
      end).

(** The test of the inner loop for one name and one entry. *)
Definition name_matches (name whitelisted : pystr) : bool :=
  pystr_eqb (lower name) (lower whitelisted)
  || contains (lower whitelisted) (lower name)
  || contains (lower name) (lower whitelisted).

Fixpoint check_names (whitelisted_sellers names : list pystr) : pystr :=
  match names with
  | [] => py "False"
  | name :: rest =>
      if nonempty name
      then if existsb (name_matches name) whitelisted_sellers
           then py "Whitelisted"
           else check_names whitelisted_sellers rest
      else check_names whitelisted_sellers rest
  end.

(** [check_whitelisted_seller] *)
Definition check_whitelisted_seller (whitelisted_sellers : list pystr)
           (seller_name manufacturer_name : option pystr) : pystr :=
  match whitelisted_sellers with
  | [] => py "False"
  | _ :: _ =>
      check_names whitelisted_sellers
                  (names_to_check seller_name manufacturer_name)
  end.

(** One string contains the other. *)
Definition either_contains (a b : pystr) : Prop :=
  contains a b = true \/ contains b a = true.

(** The condition of the specification, as it is worded: some non-empty name
    among the two and some entry, both case-folded and trimmed, of which one
    contains the other. *)
Definition spec_match (L : list pystr) (s m : pystr) : Prop :=
  exists name w, In name [s; m] /\ name <> [] /\ In w L /\
                 either_contains (lower (strip name)) (lower (strip w)).

(** The condition the code tests: the name is non-empty once trimmed, and
    the entry is taken as it is stored. *)
Definition code_match (L : list pystr) (s m : pystr) : Prop :=
  exists name w, In name [s; m] /\ strip name <> [] /\ In w L /\
                 either_contains (lower (strip name)) (lower w).

End Classifier.

End Whitelist.

(* ================================================================== *)
(** ** platforms/amazon.py *)
(* ================================================================== *)

Module Amazon.
Import Base.

Definition sponsored_patterns : list pystr :=
  [py "aax-eu-zaz.amazon.in"; py "amazon.in/x/c/"; py "amazon.in/s?k=";
   py "amazon.in/s?ie="; py "amazon.in/ref="].

(** The class [[A-Z0-9]] of the product-id pattern. *)
Definition is_asin_char (c : N) : bool :=
  (((65 <=? c) && (c <=? 90)) || ((48 <=? c) && (c <=? 57)))%N.

(** [re.match(r'/dp/[A-Z0-9]{10}', s)]: the pattern at the start of [s]. *)
Definition match_dp_here (s : pystr) : bool :=
  startswith (py "/dp/") s
  && (10 <=? List.length (skipn 4 s))
  && forallb is_asin_char (firstn 10 (skipn 4 s)).

(** [re.search(r'/dp/[A-Z0-9]{10}', s)]: the pattern anywhere in [s]. *)
Fixpoint search_dp (s : pystr) : bool :=
  match_dp_here s
  || match s with
     | [] => false
     | _ :: r => search_dp r
     end.

(** The [for h in hrefs] loop of [get_product_links], from the values of
    [urls] and [seen] at the start of an iteration. *)
Fixpoint links_loop (limit : Z) (hrefs urls seen : list pystr) : list pystr :=
  match hrefs with
  | [] => urls
  | h :: rest =>
      if any_in sponsored_patterns h then links_loop limit rest urls seen
      else if search_dp h then
        let clean_url := before (py "#") (before (py "?") h) in
        if negb (mem clean_url seen) && contains (py "amazon.in") clean_url
        then
          let urls' := urls ++ [clean_url] in
          if (limit <=? Z.of_nat (List.length urls'))%Z then urls'
          else links_loop limit rest urls' (clean_url :: seen)
        else links_loop limit rest urls seen
      else links_loop limit rest urls seen
  end.

(** [AmazonExtractor.get_product_links] *)
Definition get_product_links (page : Page) (limit : Z)
  : outcome (list pystr) :=
  match hrefs page with
  | Raise e => Raise e
  | Ok hs => Ok (links_loop limit hs [] [])
  end.

(** The links the loop takes into account. *)
Definition is_product_link (h : pystr) : bool :=
  negb (any_in sponsored_patterns h)
  && search_dp h
  && contains (py "amazon.in") (strip_query_fragment h).

Section Extract.

(** Two tables of the Python runtime: [str.lower], and the decimal digits
    that [\d] matches in a [str] pattern. *)
Variable lower : pystr -> pystr.
Variable is_digit : N -> bool.

(** The class [[\d.,₹]]. *)
Definition keep_price_char (c : N) : bool :=
  (is_digit c || (c =? 46) || (c =? 44) || (c =? rupee))%N.

(** The price cleaning of [extract_product_data], for a non-empty price. *)
Definition clean_price (price : pystr) : pystr :=
  let price := filter (fun c => keep_price_char c) price in
  if negb (existsb (N.eqb rupee) price) && negb (startswith (py "$") price)
  then rupee :: price
  else price.

(** [re.sub(r'^(Brand:|Manufacturer:)\s*', '', manufacturer)] *)
Definition drop_label (m : pystr) : pystr :=
  if startswith (py "Brand:") m then lstrip_by is_space (skipn 6 m)
  else if startswith (py "Manufacturer:") m
       then lstrip_by is_space (skipn 13 m)
       else m.

Definition clean_manufacturer (manufacturer : pystr) : pystr :=
  let m := drop_label manufacturer in
  let m := strip (strip_by (N.eqb 58) (strip m)) in
  let m := strip (before (py "Packer") m) in
  let m := strip (before (py "Seller") m) in
  let m := strip (before (py "Imported by") m) in
  let m := strip (before (py "Brand:") m) in
  strip (before (py "Manufacturer:") m).

(** The price after the cleaning step and the out-of-stock step. *)
Definition stored_price (common_price out_of_stock : option pystr)
  : option pystr :=
  let price :=
    match common_price with
    | Some p => if nonempty p then Some (clean_price p) else common_price
    | None => None
    end in
  match out_of_stock with
  | Some t =>
      if nonempty t && contains (py "out of stock") (lower t)
      then Some (py "Out of stock")
      else price
  | None => price
  end.

(** [AmazonExtractor.extract_product_data].  A failed
    [wait_for_selector] is only logged, and none of the calls of the body
    raises, so the [except] branch of the method is never taken. *)
Definition extract_product_data (page : Page) : product_data :=
  let common := extract_common_data page in
  let out_of_stock := first_text page
    [py "div#availability span"; py "div#outOfStock"; py "div#unavailable";
     py "span.a-size-medium.a-color-state"] in
  let price := stored_price (c_price common) out_of_stock in
  let seller_name :=
    if negb (truthy (c_seller_name common))
    then
      let seller := first_text page
        [py "span#bylineInfo"; py "a#bylineInfo"; py "a.a-link-normal";
         py "div#merchant-info"; py "div#sellerProfileTriggerId";
         py "div#sellerProfileTriggerId span"] in
      let seller :=
        if negb (truthy seller)
        then text_by_xpath page
          [py "//span[contains(text(),'Sold by')]/following-sibling::span[1]";
           py "//span[contains(text(),'Ships from')]/following-sibling::span[1]";
           py "//a[contains(@id, 'sellerProfileTriggerId')]";
           py "//div[contains(@id, 'merchant-info')]//a"]
        else seller in
      or_empty seller
    else c_seller_name common in
  let manufacturer_name :=
    if negb (truthy (c_manufacturer_name common))
    then
      let manufacturer := text_by_xpath page
        [py "//ul[@class='a-unordered-list a-nostyle a-vertical a-spacing-none detail-bullet-list']/li[contains(., 'Brand:')]";
         py "//ul[@class='a-unordered-list a-nostyle a-vertical a-spacing-none detail-bullet-list']/li[contains(., 'Manufacturer:')]";
         py "//div[@id='productDetails_detailBullets_sections1']//th[contains(text(), 'Brand')]/following-sibling::td";
         py "//div[@id='productDetails_detailBullets_sections1']//th[contains(text(), 'Manufacturer')]/following-sibling::td";
         py "//div[@id='productDetails']//th[contains(text(), 'Brand')]/following-sibling::td";
         py "//div[@id='productDetails']//th[contains(text(), 'Manufacturer')]/following-sibling::td";
         py "//div[@id='detailBulletsWrapper_feature_div']//span[contains(text(), 'Brand')]/following-sibling::span";
         py "//div[@id='detailBulletsWrapper_feature_div']//span[contains(text(), 'Manufacturer')]/following-sibling::span"] in
      match manufacturer with
      | Some m =>
          if nonempty m then or_empty (Some (clean_manufacturer m))
          else c_manufacturer_name common
      | None => c_manufacturer_name common
      end
    else c_manufacturer_name common in
  let image_url :=
    if negb (truthy (c_image_url common))
    then or_empty (get_image_url page
           [py "img#landingImage"; py "img#imgBlkFront"; py "img#main-image";
            py "img#imageBlockFront"; py "img#productImage"; py "img#acrImage"]
           true)
    else c_image_url common in
  {| product_url := url page;
     title := c_title common;
     price := price;
     seller_name := seller_name;
     manufacturer_name := manufacturer_name;
     image_url := image_url |}.

(** *** Variants *)

(** One option of a dimension: the dictionary with the keys "name", "asin"
    and "value" that the detection script builds. *)
Record choice : Type := {
  o_name : pystr;
  o_asin : pystr;
  o_value : pystr
}.

(** [a || b] of JavaScript on strings that may be missing. *)
Definition js_or (a : option pystr) (b : pystr) : pystr :=
  match a with
  | Some s => if nonempty s then s else b
  | None => b
  end.

Definition swatch_name (s : Dom.swatch) : pystr :=
  js_or (option_map js_trim (Dom.swatch_title s))
    (js_or (option_map js_trim (Dom.img_alt s))
       (js_or (option_map js_trim (Dom.button_text s)) (py "Unknown"))).

(** [option.getAttribute('data-initiallyUnavailable') !== 'true'] *)
Definition available (s : Dom.swatch) : bool :=
  match Dom.data_initiallyUnavailable s with
  | Some v => negb (pystr_eqb v (py "true"))
  | None => true
  end.

Definition choice_of_swatch (s : Dom.swatch) : choice :=
  {| o_name := swatch_name s;
     o_asin := Dom.data_asin s;
     o_value := Dom.data_asin s |}.

Definition row_choices (row : Dom.twister_row) : list choice :=
  map choice_of_swatch (filter available (Dom.swatches row)).

Definition row_dim_name (row : Dom.twister_row) : pystr :=
  replace_first (py "_name") []
    (replace_first (py "inline-twister-row-") [] (Dom.row_id row)).

(** [option.value && option.textContent.trim() !== 'Select'] *)
Definition selectable (o : Dom.select_option) : bool :=
  nonempty (Dom.opt_value o)
  && negb (pystr_eqb (js_trim (Dom.opt_text o)) (py "Select")).

Definition choice_of_select_option (o : Dom.select_option) : choice :=
  {| o_name := js_trim (Dom.opt_text o);
     o_asin := js_or (Dom.opt_data_asin o) (Dom.opt_value o);
     o_value := Dom.opt_value o |}.

Definition select_choices (sel : Dom.select_element) : list choice :=
  map choice_of_select_option (filter selectable (Dom.select_options sel)).

Definition select_dim_name (sel : Dom.select_element) : pystr :=
  replace_first (py "_name") []
    (replace_first (py "dropdown_selected_") [] (Dom.select_name sel)).

(** The dimensions: an object of JavaScript, then a [dict].  The list
    holds the keys in the order of their first assignment. *)
Definition dimensions : Type := list (pystr * list choice).

(** [dimensions[k] = v] *)
Fixpoint dict_set (k : pystr) (v : list choice) (d : dimensions)
  : dimensions :=
  match d with
  | [] => [(k, v)]
  | (k', v') :: r =>
      if pystr_eqb k k' then (k, v) :: r else (k', v') :: dict_set k v r
  end.

(** [if (options.length > 0) dimensions[name] = options] *)
Definition add_dimension (d : dimensions) (name : pystr) (options : list choice)
  : dimensions :=
  match options with
  | [] => d
  | _ :: _ => dict_set name options d
  end.

(** The script of [_detect_amazon_variants], up to its [return]. *)
Definition detect_script
           (found : list Dom.twister_row * list Dom.select_element)
  : dimensions :=
  let from_rows :=
    fold_left (fun d row => add_dimension d (row_dim_name row) (row_choices row))
              (fst found) [] in
  fold_left (fun d sel => add_dimension d (select_dim_name sel)
                                        (select_choices sel))
            (snd found) from_rows.

(** The number a string of decimal digits spells. *)
Definition decimal (s : pystr) : N :=
  fold_left (fun n c => (10 * n + (c - 48))%N) s 0%N.

(** A key that is an array index of JavaScript: the decimal spelling,
    without a leading zero, of a number below 2^32 - 1. *)
Definition array_index (k : pystr) : option N :=
  match k with
  | [] => None
  | c :: r =>
      if forallb is_ascii_digit k && (negb (c =? 48)%N || negb (nonempty r))
      then if (decimal k <? 4294967295)%N then Some (decimal k) else None
      else None
  end.

Definition named_key (e : pystr * list choice) : bool :=
  match array_index (fst e) with
  | Some _ => false
  | None => true
  end.

Fixpoint insert_index (n : N) (e : pystr * list choice)
         (sorted : list (N * (pystr * list choice)))
  : list (N * (pystr * list choice)) :=
  match sorted with
  | [] => [(n, e)]
  | (m, e') :: r =>
      if (n <? m)%N then (n, e) :: sorted else (m, e') :: insert_index n e r
  end.

(** The entries whose key is an array index, in ascending order. *)
Fixpoint indexed_entries (d : dimensions)
  : list (N * (pystr * list choice)) :=
  match d with
  | [] => []
  | e :: r =>
      match array_index (fst e) with
      | Some n => insert_index n e (indexed_entries r)
      | None => indexed_entries r
      end
  end.

(** The order in which the returned object lists its keys, which is the
    order of the [dict] that [page.evaluate] gives: the array indices in
    ascending order, then the other keys in the order of their first
    assignment. *)
Definition own_keys_order (d : dimensions) : dimensions :=
  map snd (indexed_entries d) ++ filter named_key d.

(** [_detect_amazon_variants]: an empty dictionary when the script raises. *)
Definition _detect_amazon_variants (page : Page) : dimensions :=
  match twister page with
  | Ok found => own_keys_order (detect_script found)
  | Raise _ => []
  end.

(** One call of [_select_amazon_variant] by the variant loop, and what
    became of it: whether a control was operated by a call that returned,
    and whether the delay after the selection returned. *)
Record attempt : Type := {
  a_dimension : pystr;
  a_option : choice;
  a_selected : bool;
  a_settled : bool
}.

Section Live.
Variable B : Browser.

(** The body of the inner [try] of [_select_amazon_variant] for one
    selector: the new state, and whether the method returns here. *)
Definition try_selector (d : dom B) (selector : pystr) (option : choice)
  : dom B * bool :=
  match count (view B d) selector with
  | Ok n =>
      if 0 <? n
      then match tag_name B d selector with
           | Ok tag =>
               let '(d', r) :=
                 if pystr_eqb tag (py "select")
                 then select_option B d selector (o_value option)
                 else click B d selector in
               match r with
               | Ok _ => (d', true)
               | Raise _ => (d', false)
               end
           | Raise _ => (d, false)
           end
      else (d, false)
  | Raise _ => (d, false)
  end.

Fixpoint try_selectors (d : dom B) (selectors : list pystr) (option : choice)
  : dom B * bool :=
  match selectors with
  | [] => (d, false)
  | selector :: rest =>
      let '(d', returned) := try_selector d selector option in
      if returned then (d', true) else try_selectors d' rest option
  end.

(** The four selectors of [_select_amazon_variant] and the selector by the
    text of the option.  The code point 34 is the double quote. *)
Definition variant_selectors (dim_name : pystr) (option : choice)
  : list pystr :=
  let q := [34%N] in
  [py "li[data-asin=" ++ q ++ o_asin option ++ q ++ py "]";
   py "select[name=" ++ q ++ py "dropdown_selected_" ++ dim_name
      ++ py "_name" ++ q ++ py "]";
   py "select[id=" ++ q ++ py "variation_" ++ dim_name ++ py "_name"
      ++ q ++ py "]";
   py "[data-asin=" ++ q ++ o_asin option ++ q ++ py "]"].

Definition text_selector (option : choice) : pystr :=
  py "li:has-text(" ++ [34%N] ++ o_name option ++ [34%N] ++ py ")".

(** [_select_amazon_variant].  The method returns nothing and never raises;
    the boolean says whether a control was operated without an exception. *)
Definition _select_amazon_variant (d : dom B) (dim_name : pystr)
           (option : choice) : dom B * bool :=
  let '(d1, returned) :=
    try_selectors d (variant_selectors dim_name option) option in
  if returned then (d1, true)
  else
    match count (view B d1) (text_selector option) with
    | Ok n =>
        if 0 <? n
        then let '(d2, r) := click B d1 (text_selector option) in
             match r with
             | Ok _ => (d2, true)
             | Raise _ => (d2, false)
             end
        else (d1, false)
    | Raise _ => (d1, false)
    end.

(** [extract_product_data] on the live page: the wait for the title, whose
    failure is only logged, then the reads of the body on the page as the
    wait leaves it. *)
Definition await_extract_product_data (d : dom B) : dom B * product_data :=
  let '(d', _) :=
    wait_for_selector B d (py "h1#title, span#productTitle") 10000 in
  (d', extract_product_data (view B d')).

(** [_extract_amazon_variant_data]: [page.url] is read before the awaited
    extraction, which reads it once more at its end.  Always a dictionary,
    since [extract_product_data] does not raise. *)
Definition _extract_amazon_variant_data (d : dom B) (main_url : pystr)
           (dim_name : pystr) (option : choice) : dom B * variant_data :=
  let variant_url := url (view B d) in
  let '(d', data) := await_extract_product_data d in
  (d', {| v_product := data;
          variant_product_url := variant_url;
          main_product_url := main_url;
          variant_price := price data;
          variant_type := dim_name;
          variant_option := o_name option;
          variant_asin := o_asin option |}).

(** What the variant loop has done so far: the state of the page, the
    records appended to [variants], and the calls of
    [_select_amazon_variant] in the order they were made. *)
Record loop_state : Type := {
  page_state : dom B;
  variants : list variant_data;
  attempts : list attempt
}.

(** The body of [for option in options] for one option.  The selection
    never raises; when the delay after it raises, the handler of the body
    prints and the loop goes on with the next option, nothing appended.
    The dictionary of the extraction is never empty. *)
Definition option_body (main_url dim_name : pystr) (option : choice)
           (st : loop_state) : loop_state :=
  let '(d1, selected) :=
    _select_amazon_variant (page_state st) dim_name option in
  let '(d2, waited) := wait_for_timeout B d1 3000 in
  match waited with
  | Ok _ =>
      let '(d3, variant) :=
        _extract_amazon_variant_data d2 main_url dim_name option in
      {| page_state := d3;
         variants := variants st ++ [variant];
         attempts := attempts st
                     ++ [{| a_dimension := dim_name; a_option := option;
                            a_selected := selected; a_settled := true |}] |}
  | Raise _ =>
      {| page_state := d2;
         variants := variants st;
         attempts := attempts st
                     ++ [{| a_dimension := dim_name; a_option := option;
                            a_selected := selected; a_settled := false |}] |}
  end.

(** [for option in options] *)
Fixpoint options_loop (main_url dim_name : pystr) (options : list choice)
         (st : loop_state) : loop_state :=
  match options with
  | [] => st
  | option :: rest =>
      options_loop main_url dim_name rest
                   (option_body main_url dim_name option st)
  end.

(** [for dim_name, options in variant_dimensions.items()] *)
Fixpoint dimensions_loop (main_url : pystr) (dims : dimensions)
         (st : loop_state) : loop_state :=
  match dims with
  | [] => st
  | (dim_name, options) :: rest =>
      dimensions_loop main_url rest (options_loop main_url dim_name options st)
  end.

(** Every option of every dimension, in the order of the dictionary. *)
Definition all_options (dims : dimensions) : list (pystr * choice) :=
  flat_map (fun entry => map (pair (fst entry)) (snd entry)) dims.

(** [AmazonExtractor.extract_variants]: the list returned is [variants].
    When the first wait raises, the handler of the method returns the empty
    list. *)
Definition extract_variants (d : dom B) (main_url : pystr) : loop_state :=
  let '(d0, waited) := wait_for_timeout B d 2000 in
  match waited with
  | Raise _ => {| page_state := d0; variants := []; attempts := [] |}
  | Ok _ =>
      match _detect_amazon_variants (view B d0) with
      | [] => {| page_state := d0; variants := []; attempts := [] |}
      | dims =>
          dimensions_loop main_url dims
            {| page_state := d0; variants := []; attempts := [] |}
      end
  end.

End Live.

End Extract.




Arguments page_state {B} _.
Arguments variants {B} _.
Arguments attempts {B} _.

(** The start of the loop: no record, no attempt. *)
Definition at_start (B : Browser) (d : dom B) : loop_state B :=
  {| page_state := d; variants := []; attempts := [] |}.


End Amazon.

(* ================================================================== *)
(** ** platforms/generic.py *)
(* ================================================================== *)

Module Generic.
Import Base.

Definition primary_patterns : list pystr :=
  [py "/product/"; py "/item/"; py "/p/"; py "/prod/"; py "/dp/"].

Definition secondary_patterns : list pystr :=
  [py "/sku/"; py "/goods/"; py "/detail/"; py "/view/"; py "/buy/"].

Definition tertiary_patterns : list pystr :=
  [py "/catalog/"; py "/shop/"; py "/store/"; py "-p-"; py "_p_"].

(** One [for h in hrefs] loop of [get_product_links]; it returns [urls] and
    [seen] as the loop leaves them. *)
Fixpoint tier_loop (patterns : list pystr) (limit : Z)
         (hrefs urls seen : list pystr) : list pystr * list pystr :=
  match hrefs with
  | [] => (urls, seen)
  | h :: rest =>
      if any_in patterns h && negb (mem h seen)
      then
        let urls' := urls ++ [h] in
        if (limit <=? Z.of_nat (List.length urls'))%Z then (urls', h :: seen)
        else tier_loop patterns limit rest urls' (h :: seen)
      else tier_loop patterns limit rest urls seen
  end.

(** The links one of the three loops takes into account. *)
Definition is_product_link (h : pystr) : bool :=
  any_in (primary_patterns ++ secondary_patterns ++ tertiary_patterns) h.

Definition title_selectors : list pystr :=
  [py "h1"; py "h1.product-title"; py "h1.title"; py ".product-name";
   py "[data-testid*='title']"; py "[data-test*='title']";
   py ".product-title"; py ".item-title"; py ".goods-title"].

Definition schema_title_selectors : list pystr :=
  [py "[itemprop='name']"; py "[itemtype*='Product'] h1";
   py "meta[property='og:title']"].

Definition title_suffixes : list pystr :=
  [py " | Buy Online"; py " - Buy Now"; py " | Shop"; py " - Price";
   py " | Best Price"].

(** The [for suffix in ...: ... else: ...] statement on the page title. *)
Definition title_of_page_title (page_title : pystr) : pystr :=
  match find (fun suffix => contains suffix page_title) title_suffixes with
  | Some suffix => strip (before suffix page_title)
  | None => page_title
  end.

Definition price_selectors : list pystr :=
  [py "[itemprop='price']"; py "[itemprop='lowPrice']";
   py "[itemprop='highPrice']"; py "[data-test*='price']";
   py "[data-testid*='price']"; py ".price"; py ".product-price";
   py ".current-price"; py ".sale-price"; py ".price-current";
   py ".price-now"; py ".final-price"].

(** The three selectors with a currency sign hold the code points of the
    rupee sign, the dollar sign and the euro sign. *)
Definition currency_selectors : list pystr :=
  [py "[class*='rupee']"; py "[class*='dollar']"; py "[class*='euro']";
   py "[class*='" ++ [rupee] ++ py "']"; py "[class*='$']";
   py "[class*='" ++ [8364%N] ++ py "']";
   py ".amount"; py ".cost"; py ".rate"; py ".value"].

Definition price_xpaths : list pystr :=
  [py "//*[contains(text(),'" ++ [rupee] ++ py "') or contains(text(),'$') or contains(text(),'"
      ++ [8364%N] ++ py "')][string-length(text()) < 20]";
   py "//*[contains(@class,'price') or contains(@id,'price')]"].

Definition seller_selectors : list pystr :=
  [py "[itemprop='brand']"; py "[itemprop='manufacturer']";
   py ".seller-name"; py ".brand-name"; py ".manufacturer";
   py "[data-testid*='seller']"; py "[data-testid*='brand']";
   py "a.seller"; py ".brand"; py ".company"].

Definition seller_xpaths : list pystr :=
  [py "//*[contains(normalize-space(),'Sold by')]/following-sibling::*[1]";
   py "//*[contains(normalize-space(),'Sold by')]/following::a[1]";
   py "//*[contains(normalize-space(),'Brand:')]/following-sibling::*[1]";
   py "//*[contains(normalize-space(),'Seller:')]/following-sibling::*[1]"].

Definition manufacturer_selectors : list pystr :=
  [py "[itemprop='manufacturer']"; py ".manufacturer-name";
   py "[data-testid*='manufacturer']"].

Definition manufacturer_xpaths : list pystr :=
  [py "//tr[td[contains(translate(text(),'ABCDEFGHIJKLMNOPQRSTUVWXYZ','abcdefghijklmnopqrstuvwxyz'),'manufacturer')]]/td[2]";
   py "//tr[th[contains(translate(text(),'ABCDEFGHIJKLMNOPQRSTUVWXYZ','abcdefghijklmnopqrstuvwxyz'),'manufacturer')]]/td[1]";
   py "//div[contains(translate(text(),'ABCDEFGHIJKLMNOPQRSTUVWXYZ','abcdefghijklmnopqrstuvwxyz'),'manufacturer')]/following-sibling::div[1]"].

Definition image_selectors : list pystr :=
  [py "img[alt*='product']"; py ".product-image img"; py ".main-image img";
   py "img.product"; py ".gallery img"; py ".item-image img";
   py "img[src*='product']"; py "[class*='image'] img"; py ".img img"].

(** [GenericExtractor.extract_product_data]: the values go into the
    dictionary as the resolver returned them. *)
Definition extract_product_data (page : Page) : product_data :=
  let title := first_text page title_selectors in
  let title :=
    if negb (truthy title) then first_text page schema_title_selectors
    else title in
  let title :=
    if negb (truthy title)
    then match page_title page with
         | Ok t => Some (title_of_page_title t)
         | Raise _ => None
         end
    else title in
  let price := first_text page price_selectors in
  let price :=
    if negb (truthy price) then first_text page currency_selectors
    else price in
  let price :=
    if negb (truthy price) then text_by_xpath page price_xpaths
    else price in
  let seller := first_text page seller_selectors in
  let seller :=
    if negb (truthy seller) then text_by_xpath page seller_xpaths
    else seller in
  let manufacturer := first_text page manufacturer_selectors in
  let manufacturer :=
    if negb (truthy manufacturer)
    then text_by_xpath page manufacturer_xpaths
    else manufacturer in
  let manufacturer :=
    if negb (truthy manufacturer) && truthy seller then seller
    else manufacturer in
  let image_url := get_image_url page image_selectors false in
  {| product_url := url page;
     title := title;
     price := price;
     seller_name := seller;
     manufacturer_name := manufacturer;
     image_url := image_url |}.

(** [GenericExtractor.get_product_links] *)
Definition get_product_links (page : Page) (limit : Z)
  : outcome (list pystr) :=
  match hrefs page with
  | Raise e => Raise e
  | Ok hs =>
      let '(urls1, seen1) := tier_loop primary_patterns limit hs [] [] in
      let '(urls2, seen2) :=
        if (Z.of_nat (List.length urls1) <? limit / 2)%Z
        then tier_loop secondary_patterns limit hs urls1 seen1
        else (urls1, seen1) in
      let '(urls3, _) :=
        if (Z.of_nat (List.length urls2) <? limit / 4)%Z
        then tier_loop tertiary_patterns limit hs urls2 seen2
        else (urls2, seen2) in
      Ok urls3
  end.

End Generic.

(* ================================================================== *)
(** ** The contract of link discovery, as the specification words it, and
       sample pages *)
(* ================================================================== *)

Module LinkSpec.

(** No two entries equal once query string and fragment are stripped, at
    most [limit] entries, and the entries in the order in which the
    document first shows them. *)
Definition discover_links_contract (product_link : pystr -> bool)
           (hrefs : list pystr) (limit : Z) (urls : list pystr) : Prop :=
  NoDup (map strip_query_fragment urls)
  /\ (Z.of_nat (List.length urls) <= limit)%Z
  /\ exists n, urls = firstn n (dedup_first []
                  (map strip_query_fragment (filter product_link hrefs))).

(** What one pass of the Generic extractor adds to [urls]: the links that
    hold one of [patterns] and are not in [urls] yet, in the order in which
    the document first shows them, as many as the limit leaves room for. *)
Definition tier (patterns : list pystr) (limit : Z) (hrefs urls : list pystr)
  : list pystr :=
  urls ++ firstn (Z.to_nat limit - List.length urls)
                 (dedup_first urls (filter (any_in patterns) hrefs)).

(** The result of the Generic extractor: the primary pass; the secondary
    pass when the primary one found fewer than [limit // 2] links; the
    tertiary pass when there are then fewer than [limit // 4]. *)
Definition tiers (limit : Z) (hrefs : list pystr) : list pystr :=
  let urls1 := tier Generic.primary_patterns limit hrefs [] in
  let urls2 :=
    if (Z.of_nat (List.length urls1) <? limit / 2)%Z
    then tier Generic.secondary_patterns limit hrefs urls1
    else urls1 in
  if (Z.of_nat (List.length urls2) <? limit / 4)%Z
  then tier Generic.tertiary_patterns limit hrefs urls2
  else urls2.

(** The first [limit] of the links [keep] admits, each taken once and as
    [norm] gives it, in the order in which the document first shows
    them. *)
Definition first_distinct (norm : pystr -> pystr) (keep : pystr -> bool)
           (hrefs : list pystr) (limit : Z) : list pystr :=
  firstn (Z.to_nat limit) (dedup_first [] (map norm (filter keep hrefs))).

(** Invariant of the loops: [urls] holds no entry twice and [seen] holds
    the same entries. *)
Definition seen_tracks (urls seen : list pystr) : Prop :=
  NoDup urls /\ forall x, In x urls <-> In x seen.

(** A product page on which one selector finds one text. *)
Definition page_with_text (sel text : pystr) : Base.Page :=
  {| Base.url := py "https://www.amazon.in/a/dp/B0ABCDEFGH";
     Base.count := fun s => if pystr_eqb s sel then Ok 1 else Ok 0;
     Base.inner_text := fun s => if pystr_eqb s sel then Ok text
                                 else Raise PlaywrightError;
     Base.get_attribute := fun _ _ => Ok None;
     Base.og_image := Ok None;
     Base.page_title := Ok [];
     Base.hrefs := Ok [];
     Base.twister := Ok ([], []);
     Base.card_hrefs := Ok (fun _ => []) |}.

(** A page of which only the anchors matter. *)
Definition page_with_links (hs : list pystr) : Base.Page :=
  {| Base.url := py "https://shop.example/list";
     Base.count := fun _ => Ok 0;
     Base.inner_text := fun _ => Raise PlaywrightError;
     Base.get_attribute := fun _ _ => Ok None;
     Base.og_image := Ok None;
     Base.page_title := Ok [];
     Base.hrefs := Ok hs;
     Base.twister := Ok ([], []);
     Base.card_hrefs := Ok (fun _ => []) |}.

End LinkSpec.

(* ================================================================== *)
(** ** app.py: the session *)
(* ================================================================== *)

Module App.
Import Base.

(** A row of a CSV file.  [csv.writer] writes [None] as the empty string. *)
Definition row : Type := list pystr.

Definition cell (v : option pystr) : pystr :=
  match v with
  | Some s => s
  | None => []
  end.

(** What one append leaves at the end of a file: the line of the row, or,
    when the call raised, the first [written] characters of that line. *)
Inductive chunk : Type :=
| Line (r : row)
| Fragment (r : row) (written : nat).

(** The row that was handed to the writer. *)
Definition chunk_row (c : chunk) : row :=
  match c with
  | Line r => r
  | Fragment r _ => r
  end.

Definition is_line (c : chunk) : bool :=
  match c with
  | Line _ => true
  | Fragment _ _ => false
  end.

(** The rows that were written in full. *)
Definition lines (f : list chunk) : list row :=
  map chunk_row (filter is_line f).

(** The calls of the session that the statements below speak of:
    [get_product_links] on the listing page [p], the start of the work on
    the [i]-th link of page [p], and [go_to_next_page] on page [p]. *)
Inductive event : Type :=
| GetLinks (p : nat)
| Visit (p i : nat) (u : pystr)
| NextPage (p : nat).

(** What the session has done so far: what the appends have left in the two
    files, the number of appends, the two counters of the code, and the
    calls above in the order they were made. *)
Record session : Type := {
  products_csv : list chunk;
  variants_csv : list chunk;
  appends : nat;
  total_products : nat;
  total_variants : nat;
  trace : list event
}.

(** The session once [initialize_csv_files] has written the headers. *)
Definition fresh : session :=
  {| products_csv := []; variants_csv := []; appends := 0;
     total_products := 0; total_variants := 0; trace := [] |}.

(** The pages on which [go_to_next_page] was called, in the order of the
    calls, and their number. *)
Definition next_pages (t : list event) : list nat :=
  flat_map (fun e => match e with NextPage p => [p] | _ => [] end) t.

Definition next_page_calls (s : session) : nat :=
  List.length (next_pages (trace s)).

(** What the browser gives for one product link: opening the tab
    ([new_page], [goto], the waits and the scrolls), the two calls of the
    extractor, and closing the tab. *)
Record visit : Type := {
  v_open : outcome unit;
  v_data : outcome product_data;
  v_variants : outcome (list variant_data);
  v_close : outcome unit
}.

(** What the disk does with an append: the line is written, or the call
    raises [OSError], at [open], at the write or at the flush of the
    closing [with], and the first [part] characters of the line are in the
    file. *)
Inductive write : Type :=
| Written
| Refused (part : nat).

(** The surroundings of a session: the disk, the start of the browser, what
    the extractor finds on each listing page, the waits and scrolls after
    an advance, and the closing of the browser. *)
Record world : Type := {
  disk : nat -> write;                      (* the n-th append *)
  start : outcome unit;                     (* launch, new_page, goto, waits *)
  links_on : nat -> outcome (list pystr);   (* get_product_links, page p *)
  visit_of : nat -> nat -> pystr -> visit;  (* the i-th link of page p *)
  next_page : nat -> outcome bool;          (* go_to_next_page on page p *)
  settle : nat -> outcome unit;             (* the waits and scrolls after the
                                               advance from page p *)
  close_browser : outcome unit              (* await browser.close() *)
}.

(** Does the n-th append succeed. *)
Definition disk_ok (w : world) (n : nat) : bool :=
  match disk w n with
  | Written => true
  | Refused _ => false
  end.

(** Code that reads and changes the session and may raise. *)
Definition M (A : Type) : Type := session -> outcome A * session.

Definition ret {A : Type} (a : A) : M A := fun s => (Ok a, s).

Definition bind {A B : Type} (m : M A) (f : A -> M B) : M B :=
  fun s =>
    match m s with
    | (Ok a, s') => f a s'
    | (Raise e, s') => (Raise e, s')
    end.

Definition lift {A : Type} (o : outcome A) : M A := fun s => (o, s).

(** [try: body except Exception: handler] *)
Definition try_except {A : Type} (body : M A) (handler : exn -> M A) : M A :=
  fun s =>
    match body s with
    | (Ok a, s') => (Ok a, s')
    | (Raise e, s') => handler e s'
    end.

Notation "x <- m ;; k" := (bind m (fun x => k))
  (at level 61, m at next level, right associativity).

Definition product_row (d : product_data) (is_whitelisted : pystr) : row :=
  [product_url d; cell (title d); cell (price d); cell (seller_name d);
   cell (manufacturer_name d); cell (image_url d); is_whitelisted].

Definition variant_row (v : variant_data) (is_whitelisted : pystr) : row :=
  [variant_product_url v; main_product_url v; cell (title (v_product v));
   cell (variant_price v); cell (seller_name (v_product v));
   cell (manufacturer_name (v_product v)); cell (image_url (v_product v));
   is_whitelisted].

(** The title or the price of a product row is not empty. *)
Definition product_row_ok (r : row) : bool :=
  nonempty (nth 1 r []) || nonempty (nth 2 r []).

(** The title or the price of a variant row is not empty. *)
Definition variant_row_ok (r : row) : bool :=
  nonempty (nth 2 r []) || nonempty (nth 3 r []).

(** The call is noted in the trace. *)
Definition record (e : event) (s : session) : session :=
  {| products_csv := products_csv s;
     variants_csv := variants_csv s;
     appends := appends s;
     total_products := total_products s;
     total_variants := total_variants s;
     trace := trace s ++ [e] |}.

Section Session.

Variable lower : pystr -> pystr.
Variable whitelisted_sellers : list pystr.
Variable w : world.

(** What an append of the row [r] leaves and returns. *)
Definition append (r : row) (n : nat) : chunk * outcome unit :=
  match disk w n with
  | Written => (Line r, Ok tt)
  | Refused part => (Fragment r part, Raise OSError)
  end.

(** [save_product_to_csv]: open for append, write one row, close. *)
Definition save_product_to_csv (d : product_data) (is_whitelisted : pystr)
  : M unit :=
  fun s =>
    let '(c, r) := append (product_row d is_whitelisted) (appends s) in
    (r, {| products_csv := products_csv s ++ [c];
           variants_csv := variants_csv s;
           appends := S (appends s);
           total_products := total_products s;
           total_variants := total_variants s;
           trace := trace s |}).

(** [save_variant_to_csv] *)
Definition save_variant_to_csv (v : variant_data) (is_whitelisted : pystr)
  : M unit :=
  fun s =>
    let '(c, r) := append (variant_row v is_whitelisted) (appends s) in
    (r, {| products_csv := products_csv s;
           variants_csv := variants_csv s ++ [c];
           appends := S (appends s);
           total_products := total_products s;
           total_variants := total_variants s;
           trace := trace s |}).

(** [total_products += 1] *)
Definition count_product : M unit :=
  fun s =>
    (Ok tt,
     {| products_csv := products_csv s;
        variants_csv := variants_csv s;
        appends := appends s;
        total_products := S (total_products s);
        total_variants := total_variants s;
        trace := trace s |}).

(** [total_variants += 1] *)
Definition count_variant : M unit :=
  fun s =>
    (Ok tt,
     {| products_csv := products_csv s;
        variants_csv := variants_csv s;
        appends := appends s;
        total_products := total_products s;
        total_variants := S (total_variants s);
        trace := trace s |}).

(** The message after a product is saved slices
    [product_data.get('title', 'Unknown')], which raises on [None]. *)
Definition print_saved (d : product_data) : M unit :=
  match title d with
  | Some _ => ret tt
  | None => lift (Raise TypeError)
  end.

Definition classify (seller manufacturer : option pystr) : pystr :=
  Whitelist.check_whitelisted_seller lower whitelisted_sellers
                                     seller manufacturer.

(** [if product_data.get('title') or product_data.get('price'): ...] *)
Definition save_product_if_any (d : product_data) : M unit :=
  if truthy (title d) || truthy (price d)
  then _ <- save_product_to_csv d
              (classify (seller_name d) (manufacturer_name d)) ;;
       _ <- count_product ;;
       print_saved d
  else ret tt.

(** [for variant in variants: ...] *)
Fixpoint save_variants (variants : list variant_data) : M unit :=
  match variants with
  | [] => ret tt
  | v :: rest =>
      _ <- save_variant_to_csv v
             (classify (seller_name (v_product v))
                       (manufacturer_name (v_product v))) ;;
      _ <- count_variant ;;
      save_variants rest
  end.

(** The body of the [try] for one product link. *)
Definition product_body (v : visit) : M unit :=
  _ <- lift (v_open v) ;;
  d <- lift (v_data v) ;;
  _ <- save_product_if_any d ;;
  variants <- lift (v_variants v) ;;
  _ <- save_variants variants ;;
  lift (v_close v).

(** One iteration of the loop over the links: the handler prints the error,
    tries to close the tab and goes on to the next link. *)
Definition process_product (v : visit) : M unit :=
  try_except (product_body v) (fun _ => ret tt).

(** [for i, product_url in enumerate(product_links)] *)
Fixpoint products_loop (p i : nat) (links : list pystr) : M unit :=
  match links with
  | [] => ret tt
  | product_url :: rest =>
      _ <- (fun s => (Ok tt, record (Visit p i product_url) s)) ;;
      _ <- process_product (visit_of w p i product_url) ;;
      products_loop p (S i) rest
  end.

(** The session after the discovery of the links of a page and the work on
    them. *)
Definition after_links (cp : nat) (links : list pystr) (s : session)
  : session :=
  snd (products_loop cp 0 links (record (GetLinks cp) s)).

(** The condition of the [while]. *)
Definition keep_going (max_pages current_page : nat) : bool :=
  (max_pages =? 0) || (current_page <=? max_pages).

(** The [while] loop over the listing pages.  [fuel] bounds the number of
    iterations; [None] means the bound was reached. *)
Fixpoint pages_loop (fuel max_pages current_page : nat) (s : session)
  : option (outcome unit * session) :=
  match fuel with
  | 0 => None
  | S fuel' =>
      if keep_going max_pages current_page
      then
        let s0 := record (GetLinks current_page) s in
        match links_on w current_page with
        | Raise e => Some (Raise e, s0)
        | Ok [] => Some (Ok tt, s0)
        | Ok product_links =>
            match products_loop current_page 0 product_links s0 with
            | (Raise e, s1) => Some (Raise e, s1)
            | (Ok _, s1) =>
                if (max_pages =? 0) || (current_page <? max_pages)
                then
                  let s2 := record (NextPage current_page) s1 in
                  match next_page w current_page with
                  | Raise e => Some (Raise e, s2)
                  | Ok false => Some (Ok tt, s2)
                  | Ok true =>
                      match settle w current_page with
                      | Raise e => Some (Raise e, s2)
                      | Ok _ => pages_loop fuel' max_pages (S current_page) s2
                      end
                  end
                else Some (Ok tt, s1)
            end
        end
      else Some (Ok tt, s)
  end.

(** [scrape_platform_products_with_browser]: the start of the browser, the
    loop, [browser.close()]; its [except] prints and raises again. *)
Definition scrape_platform_products_with_browser (fuel max_pages : nat)
  : option (outcome unit * session) :=
  match start w with
  | Raise e => Some (Raise e, fresh)
  | Ok _ =>
      match pages_loop fuel max_pages 1 fresh with
      | None => None
      | Some (Raise e, s) => Some (Raise e, s)
      | Some (Ok _, s) => Some (close_browser w, s)
      end
  end.

(** [scrape_single_product]: the extractor class of the platform is
    instantiated, then the same steps as for one link, without a handler
    around them; its [except] prints and raises again. *)
Definition scrape_single_product (url : pystr) (platform : string)
  : outcome unit * session :=
  match Registry.instantiate (Registry.get_extractor platform) with
  | Raise e => (Raise e, fresh)
  | Ok _ =>
      (_ <- lift (start w) ;;
       d <- lift (v_data (visit_of w 0 0 url)) ;;
       _ <- save_product_if_any d ;;
       variants <- lift (v_variants (visit_of w 0 0 url)) ;;
       _ <- save_variants variants ;;
       lift (close_browser w)) fresh
  end.

End Session.

(** A property of the session that a step keeps. *)
Definition stable {A : Type} (P : session -> Prop) (m : M A) : Prop :=
  forall s, P s -> P (snd (m s)).

(** Every row handed to the writer of the products file has a title or a
    price. *)
Definition products_ok (s : session) : Prop :=
  Forall (fun c => product_row_ok (chunk_row c) = true) (products_csv s).

(** The links of a listing page, none when the discovery raises. *)
Definition links_of (w : world) (p : nat) : list pystr :=
  match links_on w p with
  | Ok links => links
  | Raise _ => []
  end.

(** The work on the links of a page, from the index [i] on. *)
Fixpoint visits_from (p i : nat) (links : list pystr) : list event :=
  match links with
  | [] => []
  | u :: rest => Visit p i u :: visits_from p (S i) rest
  end.

(** What the loop does on a page that has links: the discovery, the work on
    every link, and, unless the page is the last one the cap allows, the
    call of [go_to_next_page]. *)
Definition page_events (w : world) (advance : bool) (p : nat) : list event :=
  GetLinks p :: visits_from p 0 (links_of w p)
  ++ (if advance then [NextPage p] else []).

(** The pages from [first] on, [k] of them, have links, and on each of them
    [go_to_next_page] returns true and the waits after it return. *)
Definition pages_follow (w : world) (first k : nat) : Prop :=
  forall p, first <= p < first + k ->
    (exists u l, links_on w p = Ok (u :: l))
    /\ next_page w p = Ok true
    /\ settle w p = Ok tt.

End App.

(* ================================================================== *)
(** ** A sample product page with two dimensions *)
(* ================================================================== *)

Module VariantSample.
Import Base.

Definition swatch_of (asin name : pystr) (unavailable : option pystr)
  : Dom.swatch :=
  {| Dom.data_asin := asin;
     Dom.data_initiallyUnavailable := unavailable;
     Dom.swatch_title := Some name;
     Dom.img_alt := None;
     Dom.button_text := None |}.

(** Red and Blue, and a Green marked unavailable; S and M. *)
Definition rows : list Dom.twister_row :=
  [{| Dom.row_id := py "inline-twister-row-Color_name";
      Dom.swatches := [swatch_of (py "B0000000R1") (py " Red ") None;
                       swatch_of (py "B0000000G1") (py "Green")
                                 (Some (py "true"));
                       swatch_of (py "B0000000B1") (py "Blue")
                                 (Some (py "false"))] |};
   {| Dom.row_id := py "inline-twister-row-Size_name";
      Dom.swatches := [swatch_of (py "B0000000S1") (py "S") None;
                       swatch_of (py "B0000000M1") (py "M") None] |}].

Definition product_page : Page :=
  {| url := py "https://www.amazon.in/a/dp/B0000000R1";
     count := fun _ => Ok 1;
     inner_text := fun _ => Raise PlaywrightError;
     get_attribute := fun _ _ => Ok None;
     og_image := Ok None;
     page_title := Ok [];
     hrefs := Ok [];
     twister := Ok (rows, []);
     card_hrefs := Ok (fun _ => []) |}.

(** A page on which every click fails. *)
Definition stubborn : Browser :=
  {| dom := unit;
     view := fun _ => product_page;
     wait_for_timeout := fun d _ => (d, Ok tt);
     wait_for_selector := fun d _ _ => (d, Ok tt);
     tag_name := fun _ _ => Ok (py "li");
     click := fun d _ => (d, Raise PlaywrightError);
     select_option := fun d _ _ => (d, Raise PlaywrightError) |}.

(** The page of the shirt while it shows the variant with the ASIN [asin]:
    a title, a price, and the swatches of [rows]. *)
Definition variant_page (asin : pystr) : Page :=
  {| url := py "https://www.amazon.in/a/dp/" ++ asin;
     count := fun s =>
       if pystr_eqb s (py "h1") || pystr_eqb s (py ".price")
          || startswith (py "li[data-asin=") s
       then Ok 1 else Ok 0;
     inner_text := fun s =>
       if pystr_eqb s (py "h1") then Ok (py "Shirt")
       else if pystr_eqb s (py ".price") then Ok (rupee :: py "499")
            else Raise PlaywrightError;
     get_attribute := fun _ _ => Ok None;
     og_image := Ok None;
     page_title := Ok [];
     hrefs := Ok [];
     twister := Ok (rows, []);
     card_hrefs := Ok (fun _ => []) |}.

(** The ASIN between the quotes of a selector [li[data-asin="..."]]. *)
Definition asin_of_swatch_selector (sel : pystr) : option pystr :=
  if startswith (py "li[data-asin=" ++ [34%N]) sel
  then Some (firstn 10 (skipn 14 sel))
  else None.

(** A shop whose page shows the variant of the swatch clicked last.  The
    state is the ASIN shown and the number of delays so far.  The swatches
    in [stuck] cannot be clicked, and the delays numbered in [broken]
    raise. *)
Definition shop (stuck : pystr -> bool) (broken : nat -> bool) : Browser :=
  {| dom := pystr * nat;
     view := fun d => variant_page (fst d);
     wait_for_timeout := fun d _ =>
       ((fst d, S (snd d)),
        if broken (snd d) then Raise PlaywrightError else Ok tt);
     wait_for_selector := fun d _ _ => (d, Ok tt);
     tag_name := fun _ _ => Ok (py "li");
     click := fun d sel =>
       match asin_of_swatch_selector sel with
       | Some a => if stuck a then (d, Raise PlaywrightError)
                   else ((a, snd d), Ok tt)
       | None => (d, Raise PlaywrightError)
       end;
     select_option := fun d _ _ => (d, Raise PlaywrightError) |}.

(** The swatch of Blue cannot be clicked; every delay returns. *)
Definition blue_stuck : Browser :=
  shop (pystr_eqb (py "B0000000B1")) (fun _ => false).


(** The page as the product link opens it. *)
Definition opened : pystr * nat := (py "B0000000R1", 0).





End VariantSample.

(* ================================================================== *)
(** ** Sample sessions *)
(* ================================================================== *)

Module SessionSample.
Import Base App.

Definition widget (u : pystr) : product_data :=
  {| product_url := u;
     title := Some (py "Widget");
     price := Some (rupee :: py "199");
     seller_name := Some [];
     manufacturer_name := Some [];
     image_url := Some [] |}.

Definition plain_visit (u : pystr) : visit :=
  {| v_open := Ok tt;
     v_data := Ok (widget u);
     v_variants := Ok [];
     v_close := Ok tt |}.

Definition two_links : list pystr :=
  [py "https://www.amazon.in/a/dp/B0000000R1";
   py "https://www.amazon.in/b/dp/B0000000B1"].

(** One listing page with two products; the first append to the disk fails,
    the later ones succeed. *)
Definition full_disk_once : world :=
  {| disk := fun n => if n =? 0 then Refused 10 else Written;
     start := Ok tt;
     links_on := fun p => if p =? 1 then Ok two_links else Ok [];
     visit_of := fun _ _ u => plain_visit u;
     next_page := fun _ => Ok false;
     settle := fun _ => Ok tt;
     close_browser := Ok tt |}.

(** The variants the Amazon extractor returns on the sample page of
    [VariantSample]: four records without title and without price. *)
Definition blank_variants : list variant_data :=
  Amazon.variants
    (Amazon.extract_variants ascii_lower is_ascii_digit
       VariantSample.stubborn tt (py "https://www.amazon.in/a/dp/B0000000R1")).

(** One listing page with one product, whose page gives the variants
    above. *)
Definition with_blank_variants : world :=
  {| disk := fun _ => Written;
     start := Ok tt;
     links_on := fun p => if p =? 1 then Ok [py "https://www.amazon.in/a/dp/B0000000R1"]
                          else Ok [];
     visit_of := fun _ _ u =>
       {| v_open := Ok tt;
          v_data := Ok (widget u);
          v_variants := Ok blank_variants;
          v_close := Ok tt |};
     next_page := fun _ => Ok false;
     settle := fun _ => Ok tt;
     close_browser := Ok tt |}.

(** Listing pages without end, each with one product; [go_to_next_page]
    succeeds on the first [k] pages and fails on the next. *)
Definition pages_until (k : nat) : world :=
  {| disk := fun _ => Written;
     start := Ok tt;
     links_on := fun _ => Ok [py "https://www.amazon.in/a/dp/B0000000R1"];
     visit_of := fun _ _ u => plain_visit u;
     next_page := fun p => Ok (p <=? k);
     settle := fun _ => Ok tt;
     close_browser := Ok tt |}.

(** Listing pages without end, each with one product, on which
    [go_to_next_page] always succeeds. *)
Definition endless : world :=
  {| disk := fun _ => Written;
     start := Ok tt;
     links_on := fun _ => Ok [py "https://www.amazon.in/a/dp/B0000000R1"];
     visit_of := fun _ _ u => plain_visit u;
     next_page := fun _ => Ok true;
     settle := fun _ => Ok tt;
     close_browser := Ok tt |}.

End SessionSample.

(* ================================================================== *)
(** ** platforms/__init__.py: detection and the two other tables *)
(* ================================================================== *)

Module Platforms.

Local Open Scope string_scope.

Section Detect.

(** [str.lower] *)
Variable lower : pystr -> pystr.

(** [detect_platform] *)
Definition detect_platform (host : pystr) : string :=
  let host := lower host in
  if contains (py "amazon.") host then "amazon"
  else if contains (py "flipkart.") host then "flipkart"
  else if contains (py "myntra.") host then "myntra"
  else if contains (py "meesho.") host then "meesho"
  else if contains (py "ajio.") host then "ajio"
  else if contains (py "ebay.") host then "ebay"
  else if contains (py "redbubble.") host then "redbubble"
  else if contains (py "snapdeal.") host then "snapdeal"
  else if contains (py "shopsy.") host then "shopsy"
  else if contains (py "nykaa.") host then "nykaa"
  else if contains (py "tatacliq.") host then "tatacliq"
  else if contains (py "indiamart.") host then "indiamart"
  else if contains (py "walmart.") host then "walmart"
  else "generic".

End Detect.

(** The substrings [detect_platform] looks for, in the order of its
    branches. *)
Definition markers : list pystr :=
  [py "amazon."; py "flipkart."; py "myntra."; py "meesho."; py "ajio.";
   py "ebay."; py "redbubble."; py "snapdeal."; py "shopsy."; py "nykaa.";
   py "tatacliq."; py "indiamart."; py "walmart."].

Definition PLATFORM_TYPES : list (string * string) :=
  [("amazon", "pagination"); ("flipkart", "pagination");
   ("myntra", "pagination"); ("ebay", "pagination");
   ("redbubble", "pagination"); ("shopsy", "pagination");
   ("walmart", "pagination"); ("meesho", "infinite_scroll");
   ("ajio", "infinite_scroll"); ("indiamart", "infinite_scroll");
   ("nykaa", "infinite_scroll"); ("snapdeal", "infinite_scroll");
   ("tatacliq", "no_pagination"); ("generic", "pagination")].

Definition PLATFORM_VARIANT_SUPPORT : list (string * bool) :=
  [("amazon", true); ("flipkart", true); ("myntra", true); ("ebay", true);
   ("walmart", true); ("meesho", false); ("ajio", true);
   ("indiamart", false); ("nykaa", true); ("snapdeal", false);
   ("redbubble", true); ("shopsy", false); ("tatacliq", true);
   ("generic", false)].

(** [get_platform_type]: [PLATFORM_TYPES.get(platform, "pagination")] *)
Definition get_platform_type (platform : string) : string :=
  match Registry.assoc platform PLATFORM_TYPES with
  | Some t => t
  | None => "pagination"
  end.

(** [get_platform_variant_support] *)
Definition get_platform_variant_support (platform : string) : bool :=
  match Registry.assoc platform PLATFORM_VARIANT_SUPPORT with
  | Some b => b
  | None => false
  end.

End Platforms.

(* ================================================================== *)
(** ** app.py: configuration and the shape of the start URL *)
(* ================================================================== *)

Module Config.

Local Open Scope string_scope.

(** One entry of the [providers] list of [detect_llm_provider]: the name,
    and the values of its two environment variables ([None] when unset). *)
Record provider : Type := {
  p_name : string;
  api_key : option pystr;
  model : option pystr
}.

(** The two [RuntimeError]s of [detect_llm_provider]. *)
Inductive config_error : Type :=
| ModelMissing (name : string)   (* API key found but no model specified *)
| NoApiKey.                      (* no valid API key found *)

(** The [for provider in providers] loop and the [raise] after it. *)
Fixpoint first_provider (providers : list provider)
  : config_error + (string * pystr) :=
  match providers with
  | [] => inl NoApiKey
  | p :: rest =>
      if truthy (api_key p)
      then match model p with
           | Some m => if nonempty m then inr (p_name p, m)
                       else inl (ModelMissing (p_name p))
           | None => inl (ModelMissing (p_name p))
           end
      else first_provider rest
  end.

(** [detect_llm_provider], from [os.getenv]. *)
Definition detect_llm_provider (getenv : string -> option pystr)
  : config_error + (string * pystr) :=
  first_provider
    [{| p_name := "OpenAI"; api_key := getenv "OPENAI_API_KEY";
        model := getenv "OPENAI_MODEL" |};
     {| p_name := "Anthropic"; api_key := getenv "ANTHROPIC_API_KEY";
        model := getenv "ANTHROPIC_MODEL" |};
     {| p_name := "Google"; api_key := getenv "GOOGLE_API_KEY";
        model := getenv "GOOGLE_MODEL" |};
     {| p_name := "Groq"; api_key := getenv "GROQ_API_KEY";
        model := getenv "GROQ_MODEL" |}].

Section SingleProduct.

(** [str.lower] *)
Variable lower : pystr -> pystr.

Definition product_keywords : list pystr :=
  [py "product"; py "item"; py "buy"; py "dp"; py "p/"; py "itm"; py "ip/"].

(** [is_single_product_url] *)
Definition is_single_product_url (url : pystr) (platform : string) : bool :=
  if String.eqb platform "amazon"
  then contains (py "/dp/") url || contains (py "/gp/product/") url
  else if String.eqb platform "flipkart"
  then contains (py "/p/") url || contains (py "/item/") url
  else if String.eqb platform "myntra" then contains (py "/buy/") url
  else if String.eqb platform "ebay" then contains (py "/itm/") url
  else if String.eqb platform "walmart" then contains (py "/ip/") url
  else Nat.ltb 6 (List.length (Whitelist.split_on 47%N url))
       && any_in product_keywords (lower url).

End SingleProduct.

(** The API key of the provider is not set. *)
Definition no_key (p : provider) : Prop := truthy (api_key p) = false.

(** The providers of the source, with the values found in the
    environment. *)
Definition providers_of (getenv : string -> option pystr) : list provider :=
  [{| p_name := "OpenAI"; api_key := getenv "OPENAI_API_KEY";
      model := getenv "OPENAI_MODEL" |};
   {| p_name := "Anthropic"; api_key := getenv "ANTHROPIC_API_KEY";
      model := getenv "ANTHROPIC_MODEL" |};
   {| p_name := "Google"; api_key := getenv "GOOGLE_API_KEY";
      model := getenv "GOOGLE_MODEL" |};
   {| p_name := "Groq"; api_key := getenv "GROQ_API_KEY";
      model := getenv "GROQ_MODEL" |}].

(** The platforms for which [is_single_product_url] has a rule of their
    own. *)
Definition has_own_rule (platform : string) : bool :=
  existsb (String.eqb platform)
          ["amazon"; "flipkart"; "myntra"; "ebay"; "walmart"].

(** The header rows of [initialize_csv_files]. *)
Definition product_headers : list pystr :=
  [py "product_url"; py "title"; py "price"; py "seller_name";
   py "manufacturer_name"; py "image_url"; py "is_whitelisted"].

Definition variant_headers : list pystr :=
  [py "variant_product_url"; py "main_product_url"; py "title";
   py "variant_price"; py "seller_name"; py "manufacturer_name";
   py "image_url"; py "is_whitelisted"].

End Config.

(* ================================================================== *)
(** ** Link discovery of the other extractors *)
(* ================================================================== *)

Module ShopLinks.
Import Base.

(** The loop shared, word for word, by the extractors below:
    [if <keep h> and h not in seen: seen.add(h); urls.append(h); if
    len(urls) >= limit: break]. *)
Fixpoint plain_loop (keep : pystr -> bool) (limit : Z)
         (hrefs urls seen : list pystr) : list pystr :=
  match hrefs with
  | [] => urls
  | h :: rest =>
      if keep h && negb (mem h seen)
      then
        let urls' := urls ++ [h] in
        if (limit <=? Z.of_nat (List.length urls'))%Z then urls'
        else plain_loop keep limit rest urls' (h :: seen)
      else plain_loop keep limit rest urls seen
  end.

Definition plain_links (keep : pystr -> bool) (page : Page) (limit : Z)
  : outcome (list pystr) :=
  match hrefs page with
  | Raise e => Raise e
  | Ok hs => Ok (plain_loop keep limit hs [] [])
  end.

(** [FlipkartExtractor.get_product_links] *)
Definition flipkart_link (h : pystr) : bool :=
  any_in [py "/p/"; py "/product/"] h.

Definition flipkart_get_product_links := plain_links flipkart_link.

(** [EbayExtractor.get_product_links] *)
Definition ebay_link (h : pystr) : bool :=
  any_in [py "/itm/"; py "/p/"] h.

Definition ebay_get_product_links := plain_links ebay_link.

(** [RedbubbleExtractor.get_product_links] *)
Definition redbubble_link (h : pystr) : bool :=
  any_in [py "/i/"; py "/shop/p/"] h.

Definition redbubble_get_product_links := plain_links redbubble_link.

(** [SnapdealExtractor.get_product_links] and
    [ShopsyExtractor.get_product_links] *)
Definition snapdeal_link (h : pystr) : bool :=
  any_in [py "/product/"; py "/p/"] h.

Definition snapdeal_get_product_links := plain_links snapdeal_link.

Definition shopsy_get_product_links := plain_links snapdeal_link.

(** [MeeshoExtractor.get_product_links] *)
Definition meesho_link (h : pystr) : bool :=
  any_in [py "/product/"; py "/p/"; py "/products/"] h
  && contains (py "meesho.com") h.

Definition meesho_get_product_links := plain_links meesho_link.

(** The loop of the Tata CLiQ and IndiaMART extractors: the link is
    skipped when it is empty or already in [seen]; otherwise, when it is a
    product link, its query string and fragment are cut off and the result
    is kept unless [seen] holds it. *)
Fixpoint cleaning_loop (keep : pystr -> bool) (limit : Z)
         (hrefs urls seen : list pystr) : list pystr :=
  match hrefs with
  | [] => urls
  | h :: rest =>
      if negb (nonempty h) || mem h seen
      then cleaning_loop keep limit rest urls seen
      else if keep h then
        let clean_url := before (py "#") (before (py "?") h) in
        if negb (mem clean_url seen)
        then
          let urls' := urls ++ [clean_url] in
          if (limit <=? Z.of_nat (List.length urls'))%Z then urls'
          else cleaning_loop keep limit rest urls' (clean_url :: seen)
        else cleaning_loop keep limit rest urls seen
      else cleaning_loop keep limit rest urls seen
  end.

(** Invariant of the loop: every entry of [seen] is free of query string
    and fragment. *)
Definition cleaned (seen : list pystr) : Prop :=
  forall x, In x seen -> strip_query_fragment x = x.

(** [TataCliqExtractor.get_product_links] *)
Definition tatacliq_link (h : pystr) : bool :=
  any_in [py "/p-"; py "/product/"; py "product-id"] h
  && contains (py "tatacliq.com") h.

Definition tatacliq_get_product_links (page : Page) (limit : Z)
  : outcome (list pystr) :=
  match hrefs page with
  | Raise e => Raise e
  | Ok hs => Ok (cleaning_loop tatacliq_link limit hs [] [])
  end.

(** [IndiaMARTExtractor.get_product_links], with the patterns as
    [SELECTORS_CONFIG] holds them at the time of the call.  A failed wait
    for the network is ignored. *)
Definition indiamart_default_patterns : list pystr :=
  [py "/proddetail/"; py "/product-detail/"; py "/products/"; py "/p/"].

Definition indiamart_get_product_links (patterns : list pystr)
           (page : Page) (limit : Z) : outcome (list pystr) :=
  match hrefs page with
  | Raise e => Raise e
  | Ok hs => Ok (cleaning_loop (any_in patterns) limit hs [] [])
  end.

(** The product-card scripts of the Myntra and Nykaa extractors: for every
    selector in turn, the [href] of every element found, when it is not
    empty and holds the domain; then [[...new Set(links)]]. *)
Definition card_links (domain : pystr) (selectors : list pystr)
           (found : pystr -> list pystr) : list pystr :=
  dedup_first []
    (filter (fun h => nonempty h && contains domain h)
            (flat_map found selectors)).

(** The loop over the anchors, and, [if not urls], the script and the loop
    over its links; [urls] and [seen] are empty when that loop starts.  A
    failed wait for the products is ignored. *)
Definition links_or_cards (keep : pystr -> bool) (domain : pystr)
           (selectors : list pystr) (page : Page) (limit : Z)
  : outcome (list pystr) :=
  match hrefs page with
  | Raise e => Raise e
  | Ok hs =>
      match plain_loop keep limit hs [] [] with
      | [] =>
          match card_hrefs page with
          | Raise e => Raise e
          | Ok found =>
              Ok (plain_loop (fun _ => true) limit
                             (card_links domain selectors found) [] [])
          end
      | urls => Ok urls
      end
  end.

(** [MyntraExtractor.get_product_links] *)
Definition myntra_link (h : pystr) : bool :=
  any_in [py "/buy/"; py "-/p/"; py "/product/"] h
  && contains (py "myntra.com") h.

Definition myntra_card_selectors : list pystr :=
  [py ".product-base a"; py ".product-productMetaInfo a";
   py "[class*=" ++ [34%N] ++ py "product" ++ [34%N] ++ py "] a[href*="
      ++ [34%N] ++ py "myntra.com" ++ [34%N] ++ py "]";
   py "a[href*=" ++ [34%N] ++ py "/buy/" ++ [34%N] ++ py "]";
   py "a[data-refreshpage=" ++ [34%N] ++ py "true" ++ [34%N] ++ py "]"].

Definition myntra_get_product_links : Page -> Z -> outcome (list pystr) :=
  links_or_cards myntra_link (py "myntra.com") myntra_card_selectors.

(** [urls[:limit]] *)
Definition slice_to (limit : Z) (urls : list pystr) : list pystr :=
  if (0 <=? limit)%Z then firstn (Z.to_nat limit) urls
  else firstn (List.length urls - Z.to_nat (- limit)) urls.

(** [NykaaExtractor.get_product_links] *)
Definition nykaa_link (h : pystr) : bool :=
  any_in [py "/p/"; py "/product/"; py "-dp-"] h
  && contains (py "nykaa.com") h.

Definition nykaa_card_selectors : list pystr :=
  [py ".product-item a"; py ".product-card a";
   py "[class*=" ++ [34%N] ++ py "product" ++ [34%N] ++ py "] a[href*="
      ++ [34%N] ++ py "nykaa.com" ++ [34%N] ++ py "]";
   py "a[href*=" ++ [34%N] ++ py "/p/" ++ [34%N] ++ py "]";
   py ".css-xrzmfa a"; py ".product-listing a"].

Definition nykaa_get_product_links (page : Page) (limit : Z)
  : outcome (list pystr) :=
  match links_or_cards nykaa_link (py "nykaa.com") nykaa_card_selectors
                       page limit with
  | Raise e => Raise e
  | Ok urls => Ok (slice_to limit urls)
  end.

(** The loop of the AJIO and Walmart extractors:
    [can = canonical(h, page.url); if can and can not in seen: ...]. *)
Fixpoint canonical_loop (canonical : pystr -> option pystr) (limit : Z)
         (hrefs urls seen : list pystr) : list pystr :=
  match hrefs with
  | [] => urls
  | h :: rest =>
      match canonical h with
      | Some can =>
          if nonempty can && negb (mem can seen)
          then
            let urls' := urls ++ [can] in
            if (limit <=? Z.of_nat (List.length urls'))%Z then urls'
            else canonical_loop canonical limit rest urls' (can :: seen)
          else canonical_loop canonical limit rest urls seen
      | None => canonical_loop canonical limit rest urls seen
      end
  end.

(** The canonical links a list of anchors gives, the empty ones left
    out. *)
Definition canonical_of (canonical : pystr -> option pystr)
           (hrefs : list pystr) : list pystr :=
  flat_map (fun h => match canonical h with
                     | Some can => if nonempty can then [can] else []
                     | None => []
                     end) hrefs.

Section Registered.

(** [urllib.parse.urljoin], and the link patterns of the IndiaMART
    extractor as its [SELECTORS_CONFIG] holds them at the time of the
    call. *)
Variable urljoin : pystr -> pystr -> pystr.
Variable indiamart_patterns : list pystr.

(** [canonical_ajio_link] and [canonical_walmart_link], which differ in the
    marker and the domain only. *)
Definition canonical_link (marker domain : pystr) (href base : pystr)
  : option pystr :=
  if negb (nonempty href) then None
  else
    let href := if startswith (py "/") href then urljoin base href
                else href in
    if contains marker href && contains domain href
    then Some (before (py "?") href)
    else None.

Definition canonical_ajio_link : pystr -> pystr -> option pystr :=
  canonical_link (py "/p/") (py "ajio.com").

Definition canonical_walmart_link : pystr -> pystr -> option pystr :=
  canonical_link (py "/ip/") (py "walmart.com").

(** [AjioExtractor.get_product_links] *)
Definition ajio_get_product_links (page : Page) (limit : Z)
  : outcome (list pystr) :=
  match hrefs page with
  | Raise e => Raise e
  | Ok hs =>
      Ok (canonical_loop (fun h => canonical_ajio_link h (url page))
                         limit hs [] [])
  end.

(** [WalmartExtractor.get_product_links] *)
Definition walmart_get_product_links (page : Page) (limit : Z)
  : outcome (list pystr) :=
  match hrefs page with
  | Raise e => Raise e
  | Ok hs =>
      Ok (canonical_loop (fun h => canonical_walmart_link h (url page))
                         limit hs [] [])
  end.

Local Open Scope string_scope.

(** The method [get_product_links] of the class registered under each key
    of [PLATFORM_EXTRACTORS]. *)
Definition link_discovery
  : list (string * (Page -> Z -> outcome (list pystr))) :=
  [("amazon", Amazon.get_product_links);
   ("flipkart", flipkart_get_product_links);
   ("myntra", myntra_get_product_links);
   ("meesho", meesho_get_product_links);
   ("ajio", ajio_get_product_links);
   ("ebay", ebay_get_product_links);
   ("redbubble", redbubble_get_product_links);
   ("snapdeal", snapdeal_get_product_links);
   ("shopsy", shopsy_get_product_links);
   ("nykaa", nykaa_get_product_links);
   ("tatacliq", tatacliq_get_product_links);
   ("indiamart", indiamart_get_product_links indiamart_patterns);
   ("walmart", walmart_get_product_links);
   ("generic", Generic.get_product_links)].

End Registered.

(** What the Myntra and Nykaa extractors return: the first [limit] distinct
    anchors that pass the test, in document order; when there is none, the
    first [limit] links of the product cards, in the order of the
    selectors. *)
Definition anchors_or_cards (keep : pystr -> bool) (domain : pystr)
           (selectors : list pystr) (page : Page) (hs : list pystr)
           (limit : Z) : outcome (list pystr) :=
  match LinkSpec.first_distinct (fun h => h) keep hs limit with
  | [] =>
      match card_hrefs page with
      | Raise e => Raise e
      | Ok found =>
          Ok (firstn (Z.to_nat limit) (card_links domain selectors found))
      end
  | urls => Ok urls
  end.

(** A listing page that shows two product cards and no anchor. *)
Definition page_with_cards (found : pystr -> list pystr) : Page :=
  {| url := py "https://www.myntra.com/shirts";
     count := fun _ => Ok 0;
     inner_text := fun _ => Raise PlaywrightError;
     get_attribute := fun _ _ => Ok None;
     og_image := Ok None;
     page_title := Ok [];
     hrefs := Ok [];
     twister := Ok ([], []);
     card_hrefs := Ok found |}.

End ShopLinks.

(* ================================================================== *)
(** ** Properties of a session that its steps keep *)
(* ================================================================== *)

Module SessionInvariants.
Import App.

(** The two counters are the numbers of rows written in full to the two
    files, and every append has left its line or its fragment. *)
Definition counters_match (s : session) : Prop :=
  total_products s = List.length (lines (products_csv s))
  /\ total_variants s = List.length (lines (variants_csv s))
  /\ List.length (products_csv s) + List.length (variants_csv s) = appends s.

(** Every row handed to a writer has as many cells as the header of its
    file. *)
Definition rows_fit_headers (s : session) : Prop :=
  Forall (fun c => List.length (chunk_row c)
                   = List.length Config.product_headers)
         (products_csv s)
  /\ Forall (fun c => List.length (chunk_row c)
                      = List.length Config.variant_headers)
            (variants_csv s).

Definition well_kept (s : session) : Prop :=
  counters_match s /\ rows_fit_headers s.



(** The last cell of every row handed to a writer, the column
    "is_whitelisted", holds one of the two answers of the classifier. *)
Definition flag_ok (c : pystr) : Prop :=
  c = py "Whitelisted" \/ c = py "False".

Definition flags_ok (s : session) : Prop :=
  Forall (fun c => flag_ok (nth 6 (chunk_row c) [])) (products_csv s)
  /\ Forall (fun c => flag_ok (nth 7 (chunk_row c) [])) (variants_csv s).

(** The files of [s] are those of [s0] with lines or fragments added at the
    end. *)
Definition extends (s0 s : session) : Prop :=
  (exists rows, products_csv s = products_csv s0 ++ rows)
  /\ (exists rows, variants_csv s = variants_csv s0 ++ rows).

End SessionInvariants.

(* ================================================================== *)
(** ** Further sample pages and sessions *)
(* ================================================================== *)

Module MoreSamples.
Import Base App.



(** A product page whose og:image address is protocol-relative. *)
Definition page_with_og_image : Page :=
  {| url := py "https://shop.example/product/1";
     count := fun _ => Ok 0;
     inner_text := fun _ => Raise PlaywrightError;
     get_attribute := fun _ _ => Ok None;
     og_image := Ok (Some (py "//cdn.example/img/1.jpg "));
     page_title := Ok [];
     hrefs := Ok [];
     twister := Ok ([], []);
     card_hrefs := Ok (fun _ => []) |}.

End MoreSamples.

(* ================================================================== *)
(** ** platforms/amazon.py: the next page *)
(* ================================================================== *)

Module AmazonNav.
Import Base.

Definition next_selectors : list pystr :=
  [py "a[aria-label='Next Page']"; py ".a-pagination .a-last a";
   py "a:has-text('Next')"; py ".a-pagination .a-next a";
   py "[data-testid='pagination-next-button']"; py ".s-pagination-next"].

Section Live.
Variable B : Browser.

(** What one selector of the loop leads to. *)
Inductive step : Type :=
| Returns (d : dom B) (advanced : bool)   (* the method returns here *)
| Continues (d : dom B).                  (* an exception, or nothing found *)

(** [await next_button.click(); await page.wait_for_timeout(5000);
    return True], either call raising into the handler of the selector. *)
Definition click_and_wait (d : dom B) (selector : pystr) : step :=
  let '(d1, r) := click B d selector in
  match r with
  | Ok _ =>
      let '(d2, waited) := wait_for_timeout B d1 5000 in
      match waited with
      | Ok _ => Returns d2 true
      | Raise _ => Continues d2
      end
  | Raise _ => Continues d1
  end.

(** The body of the [try] for one selector of [go_to_next_page]. *)
Definition try_next (d : dom B) (selector : pystr) : step :=
  match count (view B d) selector with
  | Ok n =>
      if 0 <? n
      then match get_attribute (view B d) selector (py "aria-disabled") with
           | Ok is_disabled =>
               match is_disabled with
               | Some a =>
                   if pystr_eqb a (py "true") then Returns d false
                   else click_and_wait d selector
               | None => click_and_wait d selector
               end
           | Raise _ => Continues d
           end
      else Continues d
  | Raise _ => Continues d
  end.

Fixpoint next_loop (d : dom B) (selectors : list pystr) : dom B * bool :=
  match selectors with
  | [] => (d, false)
  | selector :: rest =>
      match try_next d selector with
      | Returns d' advanced => (d', advanced)
      | Continues d' => next_loop d' rest
      end
  end.

(** [AmazonExtractor.go_to_next_page]: the state of the page afterwards and
    the boolean returned. *)
Definition go_to_next_page (d : dom B) : dom B * bool :=
  next_loop d next_selectors.

(** Nothing on the page answers to the selector. *)
Definition absent (d : dom B) (selector : pystr) : Prop :=
  count (view B d) selector = Ok 0
  \/ exists e, count (view B d) selector = Raise e.

(** The selector finds a control marked [aria-disabled="true"]. *)
Definition disabled (d : dom B) (selector : pystr) : Prop :=
  (exists n, count (view B d) selector = Ok n /\ 0 < n)
  /\ get_attribute (view B d) selector (py "aria-disabled")
     = Ok (Some (py "true")).

End Live.

End AmazonNav.

(* ================================================================== *)
(** ** Properties of the detected dimensions and of the variant records *)
(* ================================================================== *)

Module VariantInvariants.
Import Base Amazon.

(** No dimension name twice, no dimension without options. *)
Definition tidy (d : dimensions) : Prop :=
  NoDup (map fst d) /\ Forall (fun e => snd e <> []) d.

(** The state [d'] was reached by an action that did not raise. *)
Definition acted (B : Browser) (d' : dom B) : Prop :=
  exists d0 sel,
    click B d0 sel = (d', Ok tt)
    \/ exists value, select_option B d0 sel value = (d', Ok tt).

(** The shape of a price the Amazon extractor stores: empty, the literal
    "Out of stock", or digits, commas, periods and rupee signs with a rupee
    sign among them. *)
Definition price_shaped (is_digit : N -> bool) (stored : option pystr)
  : Prop :=
  stored = Some [] \/ stored = Some (py "Out of stock")
  \/ exists s, stored = Some s
               /\ Forall (fun c => keep_price_char is_digit c = true) s
               /\ In rupee s.

(** The record names the product it belongs to, none of the fields of its
    product is [None], and its price is the price of that product, in the
    shape above. *)
Definition well_formed (is_digit : N -> bool) (main_url : pystr)
           (v : variant_data) : Prop :=
  main_product_url v = main_url
  /\ all_strings (v_product v)
  /\ variant_price v = price (v_product v)
  /\ price_shaped is_digit (variant_price v).

End VariantInvariants.

(* ================================================================== *)
(** ** platforms/base.py: attributes by XPath *)
(* ================================================================== *)

Module BaseAttributes.
Import Base.

(** [s.replace(pat, rep)] for a non-empty pattern: the occurrences from
    left to right, none overlapping another.  [skip] counts the characters
    of an occurrence still to be passed over. *)
Fixpoint replace_from (pat rep : pystr) (skip : nat) (s : pystr) : pystr :=
  match s with
  | [] => []
  | c :: r =>
      match skip with
      | S k => replace_from pat rep k r
      | 0 =>
          if startswith pat s
          then rep ++ replace_from pat rep (List.length pat - 1) r
          else c :: replace_from pat rep 0 r
      end
  end.

Definition replace (pat rep s : pystr) : pystr := replace_from pat rep 0 s.

(** The XPath handed to the locator: "/@attribute" taken out. *)
Definition clean_xpath (attribute xp : pystr) : pystr :=
  if contains (py "/@" ++ attribute) xp
  then replace (py "/@" ++ attribute) [] xp
  else xp.

(** The body of the [try] for one XPath of [get_attribute_by_xpath]. *)
Definition attribute_of (page : Page) (attribute xp : pystr) : option pystr :=
  let sel := py "xpath=" ++ clean_xpath attribute xp in
  match count page sel with
  | Ok n =>
      if 0 <? n
      then match get_attribute page sel attribute with
           | Ok (Some v) =>
               if nonempty v && nonempty (strip v) then Some (strip v)
               else None
           | Ok None => None
           | Raise _ => None
           end
      else None
  | Raise _ => None
  end.

(** [BaseExtractor.get_attribute_by_xpath] *)
Fixpoint get_attribute_by_xpath (page : Page) (xpaths : list pystr)
         (attribute : pystr) : option pystr :=
  match xpaths with
  | [] => None
  | xp :: rest =>
      match attribute_of page attribute xp with
      | Some v => Some v
      | None => get_attribute_by_xpath page rest attribute
      end
  end.

End BaseAttributes.

(* ================================================================== *)
(** * Properties *)
(* ================================================================== *)

(** ** Strings *)

Module PyStrFacts.

Lemma pystr_eqb_eq a b : pystr_eqb a b = true <-> a = b.
Proof.
  unfold pystr_eqb. destruct (list_eq_dec N.eq_dec a b); split; congruence.
Qed.

Lemma pystr_eqb_refl a : pystr_eqb a a = true.
Proof. now apply pystr_eqb_eq. Qed.

Section StripBy.
Variable sp : N -> bool.

Lemma rstrip_by_has_kept s :
  rstrip_by sp s <> [] -> exists c, In c (rstrip_by sp s) /\ sp c = false.
Proof.
  induction s as [|c r IH]; simpl; [congruence|].
  destruct (rstrip_by sp r) as [|d r'] eqn:E.
  - destruct (sp c) eqn:Ec; [congruence|].
    intros _. exists c. split; [now left | exact Ec].
  - intros _. destruct IH as [x [Hin Hx]]; [discriminate|].
    exists x. split; [now right | exact Hx].
Qed.

Lemma lstrip_by_idem s : lstrip_by sp (lstrip_by sp s) = lstrip_by sp s.
Proof.
  induction s as [|c r IH]; [reflexivity|].
  simpl. destruct (sp c) eqn:E; [exact IH|]. simpl. now rewrite E.
Qed.

Lemma rstrip_by_idem s : rstrip_by sp (rstrip_by sp s) = rstrip_by sp s.
Proof.
  induction s as [|c r IH]; [reflexivity|].
  simpl. destruct (rstrip_by sp r) as [|d r'] eqn:E.
  - destruct (sp c) eqn:Ec; [reflexivity|]. simpl. now rewrite Ec.
  - change (rstrip_by sp (c :: d :: r')) with
      (match rstrip_by sp (d :: r') with
       | [] => if sp c then [] else [c]
       | x => c :: x
       end).
    now rewrite IH.
Qed.

Lemma lstrip_by_length s : List.length (lstrip_by sp s) <= List.length s.
Proof.
  induction s as [|x s IH]; simpl; [lia|].
  destruct (sp x); simpl; lia.
Qed.

Lemma lstrip_rstrip_by_fixed t :
  lstrip_by sp t = t -> lstrip_by sp (rstrip_by sp t) = rstrip_by sp t.
Proof.
  destruct t as [|c r]; [reflexivity|].
  simpl. destruct (sp c) eqn:Ec.
  - intros H. exfalso.
    pose proof (lstrip_by_length r) as L. rewrite H in L. simpl in L. lia.
  - intros _. destruct (rstrip_by sp r); simpl; now rewrite Ec.
Qed.

Lemma strip_by_idem s : strip_by sp (strip_by sp s) = strip_by sp s.
Proof.
  unfold strip_by.
  rewrite (lstrip_rstrip_by_fixed (lstrip_by sp s) (lstrip_by_idem s)).
  apply rstrip_by_idem.
Qed.

End StripBy.

Lemma strip_idem s : strip (strip s) = strip s.
Proof. apply strip_by_idem. Qed.

Lemma strip_nil : strip [] = [].
Proof. reflexivity. Qed.

Lemma split_ws_from_words s :
  forall cur, forallb (fun c => negb (is_space c)) cur = true ->
              Forall word (split_ws_from cur s).
Proof.
  assert (W : forall cur, cur <> [] ->
                forallb (fun c => negb (is_space c)) cur = true ->
                word (rev cur)).
  { intros cur Hne Hall. split.
    - intro H. apply Hne. rewrite <- (rev_involutive cur), H. reflexivity.
    - apply forallb_forall. intros x Hx. apply in_rev in Hx.
      rewrite forallb_forall in Hall. now apply Hall. }
  induction s as [|c r IH]; intros cur Hcur; simpl.
  - destruct cur; [constructor|].
    constructor; [apply W; [discriminate | exact Hcur] | constructor].
  - destruct (is_space c) eqn:Ec.
    + destruct cur.
      * now apply IH.
      * constructor; [apply W; [discriminate | exact Hcur] | now apply IH].
    + apply IH. simpl. now rewrite Ec.
Qed.

Lemma split_ws_from_nonempty s :
  forall cur, cur <> [] \/ (exists c, In c s /\ is_space c = false) ->
              split_ws_from cur s <> [].
Proof.
  induction s as [|c r IH]; intros cur H; simpl.
  - destruct H as [H|[x [[] _]]]. destruct cur; congruence.
  - destruct (is_space c) eqn:Ec.
    + destruct cur; [|discriminate].
      apply IH. right. destruct H as [H|[x [[Hx|Hx] Hs]]]; try congruence.
      now exists x.
    + apply IH. left. discriminate.
Qed.

Lemma join_words_normalized ws :
  Forall word ws -> ws <> [] -> ws_normalized (join [32%N] ws).
Proof.
  induction ws as [|w rest IH]; intros Hall Hne; [congruence|].
  inversion Hall as [|? ? Hw Hrest]; subst.
  destruct rest as [|w' rest'].
  - simpl. now apply wn_word.
  - change (join [32%N] (w :: w' :: rest'))
      with (w ++ 32%N :: join [32%N] (w' :: rest')).
    apply wn_more; [exact Hw|]. apply IH; [exact Hrest | discriminate].
Qed.

(** Normalizing a non-empty trimmed text gives whitespace-normalized text. *)
Lemma normalize_strip_normalized raw :
  strip raw <> [] -> ws_normalized (normalize_ws (strip raw)).
Proof.
  intros Hne. unfold normalize_ws. apply join_words_normalized.
  - apply split_ws_from_words. reflexivity.
  - apply split_ws_from_nonempty. right.
    unfold strip, strip_by in *. apply rstrip_by_has_kept in Hne.
    destruct Hne as [c [Hin Hc]]. now exists c.
Qed.

Lemma ws_normalized_nonempty r : ws_normalized r -> r <> [].
Proof.
  intros H. destruct H as [w [Hw _]|w r [Hw _] _]; [exact Hw|].
  destruct w; [congruence | discriminate].
Qed.

Lemma nonempty_true s : nonempty s = true <-> s <> [].
Proof. destruct s; simpl; split; congruence. Qed.

Lemma nonempty_false s : nonempty s = false <-> s = [].
Proof. destruct s; simpl; split; congruence. Qed.

End PyStrFacts.

Import PyStrFacts.

(** ** The field resolver *)

Module BaseFacts.
Import Base.

Lemma yields_or_no_result page sel :
  no_result page sel \/ exists text, yields page sel text.
Proof.
  unfold no_result, yields.
  destruct (count page sel) as [n|e] eqn:Ec; [|left; left; now exists e].
  destruct n as [|n]; [left; right; left; reflexivity|].
  destruct (inner_text page sel) as [raw|e] eqn:Et.
  - destruct (strip raw) as [|c t] eqn:Es.
    + left. right. right. exists (S n). repeat split; [lia|].
      right. now exists raw.
    + right. exists (c :: t), (S n), raw.
      repeat split; [lia | now symmetry | discriminate].
  - left. right. right. exists (S n). repeat split; [lia|].
    left. now exists e.
Qed.

Lemma no_result_not_yields page sel text :
  no_result page sel -> ~ yields page sel text.
Proof.
  intros Hno (n & raw & Hc & Hn & Ht & Hs & Hne).
  destruct Hno as [[e He]|[H0|(m & Hm & Hpos & [[e He]|(raw' & Hr & Hs')])]].
  - congruence.
  - rewrite Hc in H0. injection H0 as ->. lia.
  - congruence.
  - rewrite Ht in Hr. injection Hr as <-. congruence.
Qed.

Lemma first_text_skip page sel rest :
  no_result page sel -> first_text page (sel :: rest) = first_text page rest.
Proof.
  intros Hno. simpl.
  destruct Hno as [[e He]|[H0|(m & Hm & Hpos & [[e He]|(raw' & Hr & Hs')])]].
  - now rewrite He.
  - now rewrite H0.
  - rewrite Hm. destruct (0 <? m); [now rewrite He | reflexivity].
  - rewrite Hm. destruct (0 <? m); [|reflexivity].
    rewrite Hr. cbv zeta. now rewrite Hs'.
Qed.

Lemma first_text_hit page sel rest text :
  yields page sel text ->
  first_text page (sel :: rest) = Some (normalize_ws text).
Proof.
  intros (n & raw & Hc & Hn & Ht & Hs & Hne). simpl.
  rewrite Hc. apply Nat.ltb_lt in Hn. rewrite Hn, Ht. cbv zeta.
  rewrite <- Hs. apply nonempty_true in Hne. now rewrite Hne.
Qed.

Lemma text_by_xpath_first_text page xpaths :
  text_by_xpath page xpaths =
  first_text page (map (fun xp => py "xpath=" ++ xp) xpaths).
Proof.
  induction xpaths as [|xp rest IH]; [reflexivity|].
  cbn [text_by_xpath map first_text]. rewrite IH. reflexivity.
Qed.

Lemma first_text_some page sels r :
  first_text page sels = Some r <->
  exists pre sel post text,
    sels = pre ++ sel :: post /\ Forall (no_result page) pre /\
    yields page sel text /\ r = normalize_ws text.
Proof.
  induction sels as [|s rest IH].
  - split; [discriminate|].
    intros (pre & sel & post & text & H & _). destruct pre; discriminate.
  - destruct (yields_or_no_result page s) as [Hno|[text Hy]].
    + rewrite (first_text_skip page s rest Hno), IH. split.
      * intros (pre & sel & post & text & -> & Hpre & Hy & ->).
        exists (s :: pre), sel, post, text. repeat split; auto.
      * intros (pre & sel & post & text & Heq & Hpre & Hy & ->).
        destruct pre as [|p pre]; simpl in Heq; injection Heq as <- ->.
        -- exfalso. eapply no_result_not_yields; eauto.
        -- inversion Hpre; subst. exists pre, sel, post, text. auto.
    + rewrite (first_text_hit page s rest text Hy). split.
      * intros [= <-]. exists [], s, rest, text. repeat split; auto.
      * intros (pre & sel & post & text' & Heq & Hpre & Hy' & ->).
        destruct pre as [|p pre]; simpl in Heq; injection Heq as <- ->.
        -- destruct Hy as (n & raw & Hc & _ & Ht & -> & _).
           destruct Hy' as (n' & raw' & Hc' & _ & Ht' & -> & _).
           congruence.
        -- inversion Hpre; subst. exfalso.
           eapply no_result_not_yields; eauto.
Qed.

Lemma first_text_none page sels :
  first_text page sels = None <-> Forall (no_result page) sels.
Proof.
  induction sels as [|s rest IH].
  - split; [constructor | reflexivity].
  - destruct (yields_or_no_result page s) as [Hno|[text Hy]].
    + rewrite (first_text_skip page s rest Hno), IH. split.
      * now constructor.
      * now inversion 1.
    + rewrite (first_text_hit page s rest text Hy). split; [discriminate|].
      inversion 1; subst. exfalso. eapply no_result_not_yields; eauto.
Qed.

(** C9.  [first_text] and [text_by_xpath] try their selectors in the order of
    the list and return the whitespace-normalized text of the first selector
    whose element has non-empty text; a selector whose call raises counts as
    giving no result; the answer is [None] exactly when every selector of the
    list gave no result. *)
Theorem field_resolver_first_nonempty :
  forall (page : Page) (sels : list pystr),
    let xsels := map (fun xp => py "xpath=" ++ xp) sels in
    (forall r, first_text page sels = Some r <->
       exists pre sel post text,
         sels = pre ++ sel :: post /\ Forall (no_result page) pre /\
         yields page sel text /\ r = normalize_ws text)
    /\ (first_text page sels = None <-> Forall (no_result page) sels)
    /\ (forall r, text_by_xpath page sels = Some r <->
       exists pre sel post text,
         xsels = pre ++ sel :: post /\ Forall (no_result page) pre /\
         yields page sel text /\ r = normalize_ws text)
    /\ (text_by_xpath page sels = None <-> Forall (no_result page) xsels)
    /\ (forall r, first_text page sels = Some r \/
                  text_by_xpath page sels = Some r ->
                  ws_normalized r /\ r <> []).
Proof.
  intros page sels xsels.
  split; [intro r; apply first_text_some|].
  split; [apply first_text_none|].
  split; [intro r; rewrite text_by_xpath_first_text; apply first_text_some|].
  split; [rewrite text_by_xpath_first_text; apply first_text_none|].
  assert (N : forall l r, first_text page l = Some r -> ws_normalized r).
  { intros l r H. apply first_text_some in H.
    destruct H as (pre & sel & post & text & _ & _ & Hy & ->).
    destruct Hy as (n & raw & _ & _ & _ & -> & Hne).
    now apply normalize_strip_normalized. }
  intros r [H|H].
  - split; [|apply ws_normalized_nonempty]; eapply N; eauto.
  - rewrite text_by_xpath_first_text in H.
    split; [|apply ws_normalized_nonempty]; eapply N; eauto.
Qed.

End BaseFacts.

(** ** The platform registry *)

Module RegistryFacts.
Import Registry.
Local Open Scope string_scope.

(** C1 (the claim fails on the code).  Of the fourteen registered keys only
    "amazon" names a class that can be instantiated: every other class,
    the Generic fallback included, leaves [go_to_next_page] and
    [extract_variants] abstract, so calling it raises [TypeError]. *)
Theorem generic_extractor_is_abstract :
  abstractmethods (get_extractor "generic")
    = ["go_to_next_page"; "extract_variants"]
  /\ instantiate (get_extractor "generic") = Raise TypeError
  /\ (forall key, In key (map fst PLATFORM_EXTRACTORS) ->
        (instantiate (get_extractor key) = Ok (get_extractor key)
           <-> key = "amazon")
        /\ (key <> "amazon" ->
            instantiate (get_extractor key) = Raise TypeError))
  /\ forallb (provides (get_extractor "amazon")) capabilities = true.
Proof.
  split; [reflexivity|]. split; [reflexivity|]. split; [|reflexivity].
  intros key Hin. simpl in Hin.
  repeat (destruct Hin as [<-|Hin];
          [split; [split; [discriminate || reflexivity
                          | discriminate || reflexivity]
                  | intros H; try (exfalso; now apply H); reflexivity]|]).
  contradiction.
Qed.

End RegistryFacts.

(** ** The whitelist classifier *)

Module WhitelistFacts.
Import Whitelist.

Lemma startswith_refl a : startswith a a = true.
Proof.
  induction a as [|c a IH]; [reflexivity|].
  simpl. now rewrite N.eqb_refl.
Qed.

Lemma contains_refl a : contains a a = true.
Proof. destruct a; simpl; [reflexivity|]. now rewrite N.eqb_refl, startswith_refl. Qed.

(** What the loader stores is trimmed and not empty. *)
Lemma loaded_entries_trimmed raw w :
  In w (load_whitelisted_sellers raw) -> strip w = w /\ w <> [].
Proof.
  unfold load_whitelisted_sellers. destruct (nonempty raw); [|intros []].
  rewrite in_map_iff. intros (x & <- & Hx).
  apply filter_In in Hx. destruct Hx as [_ Hx].
  split; [apply strip_idem | now apply nonempty_true].
Qed.

Section Classifier.
Variable lower : pystr -> pystr.

Lemma name_matches_iff name w :
  name_matches lower name w = true <-> either_contains (lower name) (lower w).
Proof.
  unfold name_matches, either_contains.
  rewrite !orb_true_iff, pystr_eqb_eq. split.
  - intros [[H|H]|H]; [|now right|now left].
    rewrite H. left. apply contains_refl.
  - intros [H|H]; [now right | left; now right].
Qed.

Lemma check_names_whitelisted L names :
  check_names lower L names = py "Whitelisted" <->
  exists name w, In name names /\ name <> [] /\ In w L /\
                 either_contains (lower name) (lower w).
Proof.
  induction names as [|n rest IH]; simpl.
  - split; [discriminate | intros (? & ? & [] & _)].
  - destruct (nonempty n) eqn:En.
    + destruct (existsb (name_matches lower n) L) eqn:Ex.
      * split; [intros _ | reflexivity].
        apply existsb_exists in Ex. destruct Ex as (w & Hw & Hm).
        exists n, w. repeat split; auto.
        -- now apply nonempty_true.
        -- now apply name_matches_iff.
      * rewrite IH. split.
        -- intros (x & w & Hx & H). exists x, w. split; [now right | exact H].
        -- intros (x & w & [<-|Hx] & Hne & Hw & Hm).
           ++ exfalso. apply name_matches_iff in Hm.
              assert (existsb (name_matches lower n) L = true)
                by (apply existsb_exists; eauto).
              congruence.
           ++ exists x, w. auto.
    + rewrite IH. apply nonempty_false in En. split.
      * intros (x & w & Hx & H). exists x, w. split; [now right | exact H].
      * intros (x & w & [<-|Hx] & Hne & H); [congruence|].
        exists x, w. auto.
Qed.

Lemma check_names_two_valued L names :
  check_names lower L names = py "Whitelisted" \/
  check_names lower L names = py "False".
Proof.
  induction names as [|n rest IH]; simpl; [now right|].
  destruct (nonempty n); [destruct (existsb _ L); [now left|]|]; exact IH.
Qed.

Lemma in_names_to_check s m x :
  In x (names_to_check (Some s) (Some m)) /\ x <> [] <->
  exists name, In name [s; m] /\ x = strip name /\ strip name <> [].
Proof.
  unfold names_to_check. split.
  - intros [Hin Hne]. apply in_app_or in Hin. destruct Hin as [Hin|Hin].
    + destruct (nonempty s); [|destruct Hin].
      destruct Hin as [<-|[]]. exists s. simpl; auto.
    + destruct (nonempty m); [|destruct Hin].
      destruct Hin as [<-|[]]. exists m. simpl; auto.
  - intros (name & Hin & -> & Hne). split; [|exact Hne].
    assert (Hn : nonempty name = true).
    { destruct name; [now rewrite strip_nil in Hne | reflexivity]. }
    apply in_or_app. destruct Hin as [<-|[<-|[]]].
    + left. rewrite Hn. now left.
    + right. rewrite Hn. now left.
Qed.

(** C4, as the code has it.  [check_whitelisted_seller] answers
    "Whitelisted" exactly when some name among seller and manufacturer is
    non-empty once trimmed and, case-folded, contains or is contained in
    some entry of the allow-list, the entry case-folded as it is stored;
    otherwise it answers "False", and an empty allow-list always gives
    "False". *)
Theorem check_whitelisted_seller_iff :
  forall (L : list pystr) (s m : pystr),
    (check_whitelisted_seller lower L (Some s) (Some m) = py "Whitelisted"
       <-> code_match lower L s m)
    /\ (check_whitelisted_seller lower L (Some s) (Some m) = py "Whitelisted"
        \/ check_whitelisted_seller lower L (Some s) (Some m) = py "False")
    /\ check_whitelisted_seller lower [] (Some s) (Some m) = py "False".
Proof.
  intros L s m. split; [|split; [|reflexivity]].
  - unfold check_whitelisted_seller, code_match.
    destruct L as [|w0 L'].
    + split; [discriminate | intros (? & ? & _ & _ & [] & _)].
    + rewrite check_names_whitelisted. split.
      * intros (x & w & Hx & Hne & Hw & Hm).
        destruct (proj1 (in_names_to_check s m x) (conj Hx Hne))
          as (name & Hin & -> & Hs).
        exists name, w. auto.
      * intros (name & w & Hin & Hs & Hw & Hm).
        exists (strip name), w.
        destruct (proj2 (in_names_to_check s m (strip name))) as [Hx Hne];
          [exists name; auto|].
        auto.
  - unfold check_whitelisted_seller. destruct L; [now right|].
    apply check_names_two_valued.
Qed.

(** On an allow-list as the loader builds it, trimming an entry changes
    nothing, so there the entries can be read as trimmed too. *)
Lemma code_match_on_loaded raw s m :
  code_match lower (load_whitelisted_sellers raw) s m <->
  exists name w, In name [s; m] /\ strip name <> [] /\
                 In w (load_whitelisted_sellers raw) /\
                 either_contains (lower (strip name)) (lower (strip w)).
Proof.
  unfold code_match. split; intros (name & w & Hin & Hs & Hw & Hm);
    exists name, w; repeat split; auto;
    destruct (loaded_entries_trimmed raw w Hw) as [E _];
    [now rewrite E | now rewrite E in Hm].
Qed.

End Classifier.

(** C4 as worded fails: a seller name of blanks is a non-empty name whose
    trimmed form every entry contains, yet the code skips it; and an entry
    stored with blanks around it is compared untrimmed. *)
Lemma whitelist_spec_match_fails :
  ~ (check_whitelisted_seller ascii_lower [py "acme"]
       (Some (py " ")) (Some []) = py "Whitelisted"
     <-> spec_match ascii_lower [py "acme"] (py " ") [])
  /\ ~ (check_whitelisted_seller ascii_lower [py " acme "]
          (Some (py "acme corp")) (Some []) = py "Whitelisted"
        <-> spec_match ascii_lower [py " acme "] (py "acme corp") []).
Proof.
  split.
  - intros [_ H].
    assert (S : spec_match ascii_lower [py "acme"] (py " ") []).
    { exists (py " "), (py "acme"). repeat split.
      - now left.
      - discriminate.
      - now left.
      - left. reflexivity. }
    specialize (H S). vm_compute in H. discriminate.
  - intros [_ H].
    assert (S : spec_match ascii_lower [py " acme "] (py "acme corp") []).
    { exists (py "acme corp"), (py " acme "). repeat split.
      - now left.
      - discriminate.
      - now left.
      - right. reflexivity. }
    specialize (H S). vm_compute in H. discriminate.
Qed.

End WhitelistFacts.

(** ** Link discovery *)

Module LinkFacts.
Import LinkSpec.

Lemma mem_In x seen : mem x seen = true <-> In x seen.
Proof.
  unfold mem. rewrite existsb_exists. split.
  - intros (y & Hy & E). apply pystr_eqb_eq in E. now subst.
  - intros H. exists x. split; [exact H | apply pystr_eqb_refl].
Qed.

Lemma mem_false_In x seen : mem x seen = false <-> ~ In x seen.
Proof.
  rewrite <- mem_In. destruct (mem x seen); split; congruence.
Qed.

Lemma dedup_first_sound l :
  forall seen,
    NoDup (dedup_first seen l)
    /\ forall x, In x (dedup_first seen l) -> ~ In x seen /\ In x l.
Proof.
  induction l as [|a l IH]; intros seen; simpl.
  - split; [constructor | intros x []].
  - destruct (mem a seen) eqn:E.
    + destruct (IH seen) as [Hnd Hin]. split; [exact Hnd|].
      intros x Hx. destruct (Hin x Hx). auto.
    + destruct (IH (a :: seen)) as [Hnd Hin]. split.
      * constructor; [|exact Hnd].
        intros Ha. destruct (Hin a Ha) as [Hn _]. apply Hn. now left.
      * intros x [<-|Hx].
        -- split; [now apply mem_false_In | now left].
        -- destruct (Hin x Hx) as [Hn Hl].
           split; [intro; apply Hn; now right | now right].
Qed.

Lemma firstn_In_inv {A : Type} n : forall (l : list A) x,
  In x (firstn n l) -> In x l.
Proof.
  induction n as [|n IH]; intros [|a l] x; simpl; try tauto.
  intros [H|H]; [now left | right; now apply IH].
Qed.

Lemma firstn_NoDup {A : Type} n : forall (l : list A),
  NoDup l -> NoDup (firstn n l).
Proof.
  induction n as [|n IH]; intros [|a l] H; simpl; try constructor.
  - inversion H; subst. intro Hin. apply firstn_In_inv in Hin. contradiction.
  - inversion H; subst. now apply IH.
Qed.

(** *** Stripping the query string and the fragment *)

Lemma before_char_absent c s : ~ In c (before [c] s).
Proof.
  induction s as [|x r IH]; simpl; [tauto|].
  destruct (N.eqb_spec c x) as [->|Hne]; simpl; [tauto|].
  intros [H|H]; [congruence | contradiction].
Qed.

Lemma before_incl sep s x : In x (before sep s) -> In x s.
Proof.
  induction s as [|y r IH]; simpl.
  - destruct (startswith sep []); simpl; tauto.
  - destruct (startswith sep (y :: r)); simpl; [tauto|].
    intros [H|H]; [now left | right; now apply IH].
Qed.

Lemma before_char_fixed c s : ~ In c s -> before [c] s = s.
Proof.
  induction s as [|x r IH]; simpl; [reflexivity|].
  intros Hn. destruct (N.eqb_spec c x) as [->|Hne]; simpl.
  - exfalso. apply Hn. now left.
  - f_equal. apply IH. intro H. apply Hn. now right.
Qed.

Lemma strip_query_fragment_idem u :
  strip_query_fragment (strip_query_fragment u) = strip_query_fragment u.
Proof.
  unfold strip_query_fragment.
  change (py "#") with [35%N]. change (py "?") with [63%N].
  rewrite (before_char_fixed 63 (before [35%N] (before [63%N] u))).
  - apply before_char_fixed, before_char_absent.
  - intro H. apply before_incl in H. now apply before_char_absent in H.
Qed.

(** *** The loop of the Amazon extractor *)

Lemma amazon_links_loop_spec limit hs :
  forall urls seen,
    (Z.of_nat (List.length urls) < limit)%Z ->
    Amazon.links_loop limit hs urls seen
    = urls ++ firstn (Z.to_nat limit - List.length urls)
                (dedup_first seen
                   (map strip_query_fragment
                        (filter Amazon.is_product_link hs))).
Proof.
  induction hs as [|h rest IH]; intros urls seen Hlt.
  - simpl. rewrite firstn_nil. now rewrite app_nil_r.
  - cbn [Amazon.links_loop filter]. unfold Amazon.is_product_link at 1.
    destruct (any_in Amazon.sponsored_patterns h); cbn [negb andb];
      [now apply IH|].
    destruct (Amazon.search_dp h); cbn [andb]; [|now apply IH].
    cbv zeta. fold (strip_query_fragment h).
    destruct (contains (py "amazon.in") (strip_query_fragment h));
      [|rewrite andb_false_r; now apply IH].
    rewrite andb_true_r. cbn [map dedup_first].
    destruct (mem (strip_query_fragment h) seen); cbn [negb];
      [now apply IH|].
    rewrite length_app. cbn [List.length].
    destruct (Z.leb_spec limit (Z.of_nat (List.length urls + 1))) as [Hge|Hlt'].
    + replace (Z.to_nat limit - List.length urls) with 1 by lia.
      reflexivity.
    + rewrite IH by (rewrite length_app; cbn [List.length]; lia).
      rewrite length_app. cbn [List.length].
      replace (Z.to_nat limit - List.length urls)
        with (S (Z.to_nat limit - (List.length urls + 1))) by lia.
      cbn [firstn]. now rewrite <- app_assoc.
Qed.

(** *** The loops of the Generic extractor *)

Lemma tier_loop_fst patterns limit hs :
  forall urls seen,
    (Z.of_nat (List.length urls) < limit)%Z ->
    fst (Generic.tier_loop patterns limit hs urls seen)
    = urls ++ firstn (Z.to_nat limit - List.length urls)
                (dedup_first seen (filter (any_in patterns) hs)).
Proof.
  induction hs as [|h rest IH]; intros urls seen Hlt.
  - simpl. rewrite firstn_nil. now rewrite app_nil_r.
  - cbn [Generic.tier_loop filter].
    destruct (any_in patterns h); cbn [andb]; [|now apply IH].
    cbn [dedup_first].
    destruct (mem h seen); cbn [negb]; [now apply IH|].
    cbv zeta. rewrite length_app. cbn [List.length].
    destruct (Z.leb_spec limit (Z.of_nat (List.length urls + 1))) as [Hge|Hlt'].
    + replace (Z.to_nat limit - List.length urls) with 1 by lia.
      reflexivity.
    + rewrite IH by (rewrite length_app; cbn [List.length]; lia).
      rewrite length_app. cbn [List.length].
      replace (Z.to_nat limit - List.length urls)
        with (S (Z.to_nat limit - (List.length urls + 1))) by lia.
      cbn [firstn]. now rewrite <- app_assoc.
Qed.

Lemma tier_loop_tracks patterns limit hs :
  forall urls seen,
    seen_tracks urls seen ->
    seen_tracks (fst (Generic.tier_loop patterns limit hs urls seen))
                (snd (Generic.tier_loop patterns limit hs urls seen)).
Proof.
  induction hs as [|h rest IH]; intros urls seen Ht; [exact Ht|].
  cbn [Generic.tier_loop].
  destruct (any_in patterns h); cbn [andb]; [|now apply IH].
  destruct (mem h seen) eqn:Em; cbn [negb]; [now apply IH|].
  assert (Ht' : seen_tracks (urls ++ [h]) (h :: seen)).
  { destruct Ht as [Hnd Hsame]. apply mem_false_In in Em. split.
    - apply NoDup_app; [exact Hnd | repeat constructor; tauto |].
      intros x Hx [<-|[]]. apply Em. now apply Hsame.
    - intros x. rewrite in_app_iff. simpl. rewrite Hsame. tauto. }
  cbv zeta. destruct (limit <=? _)%Z; [exact Ht' | now apply IH].
Qed.

Lemma tier_loop_length patterns limit hs urls seen :
  (Z.of_nat (List.length urls) < limit)%Z ->
  (Z.of_nat (List.length (fst (Generic.tier_loop patterns limit hs urls seen)))
   <= limit)%Z.
Proof.
  intros Hlt. rewrite tier_loop_fst by exact Hlt.
  rewrite length_app.
  pose proof (firstn_le_length (Z.to_nat limit - List.length urls)
                (dedup_first seen (filter (any_in patterns) hs))).
  lia.
Qed.

Lemma dedup_first_fixed l x :
  In x (dedup_first [] (map strip_query_fragment l)) ->
  strip_query_fragment x = x.
Proof.
  intros H. apply dedup_first_sound in H. destruct H as [_ H].
  apply in_map_iff in H. destruct H as (h & <- & _).
  apply strip_query_fragment_idem.
Qed.

End LinkFacts.

(** ** Product extraction *)

Module ExtractFacts.
Import Base LinkSpec.

Lemma or_empty_not_none v : or_empty v <> None.
Proof.
  unfold or_empty, py_or. destruct (truthy v) eqn:E; [|discriminate].
  destruct v; [discriminate | discriminate E].
Qed.

Lemma or_empty_some v : exists s, or_empty v = Some s.
Proof.
  destruct (or_empty v) as [s|] eqn:E; [now exists s|].
  now apply or_empty_not_none in E.
Qed.

Lemma first_text_truthy page sels r :
  first_text page sels = Some r -> truthy (Some r) = true.
Proof.
  intros H. apply BaseFacts.first_text_some in H.
  destruct H as (pre & sel & post & text & _ & _ & Hy & ->).
  destruct Hy as (n & raw & _ & _ & _ & -> & Hne).
  apply nonempty_true, ws_normalized_nonempty.
  now apply normalize_strip_normalized.
Qed.

Lemma text_by_xpath_truthy page sels r :
  text_by_xpath page sels = Some r -> truthy (Some r) = true.
Proof.
  rewrite BaseFacts.text_by_xpath_first_text. apply first_text_truthy.
Qed.

Section Price.
Variable lower : pystr -> pystr.
Variable is_digit : N -> bool.
Hypothesis dollar_is_no_digit : is_digit 36%N = false.

Lemma dollar_guard_false raw :
  startswith (py "$") (filter (Amazon.keep_price_char is_digit) raw) = false.
Proof.
  change (py "$") with [36%N].
  destruct (filter (Amazon.keep_price_char is_digit) raw) as [|b l] eqn:E;
    [reflexivity|].
  cbn [startswith]. destruct (N.eqb_spec 36 b) as [<-|]; [|reflexivity].
  exfalso.
  assert (Hin : In 36%N (filter (Amazon.keep_price_char is_digit) raw))
    by (rewrite E; now left).
  apply filter_In in Hin. destruct Hin as [_ Hk].
  unfold Amazon.keep_price_char in Hk. rewrite dollar_is_no_digit in Hk.
  discriminate Hk.
Qed.

Lemma clean_price_eq raw :
  Amazon.clean_price is_digit raw =
  let kept := filter (Amazon.keep_price_char is_digit) raw in
  if existsb (N.eqb rupee) kept then kept else rupee :: kept.
Proof.
  unfold Amazon.clean_price. cbv zeta.
  change (filter (fun c => Amazon.keep_price_char is_digit c) raw)
    with (filter (Amazon.keep_price_char is_digit) raw).
  rewrite dollar_guard_false.
  now destruct (existsb (N.eqb rupee) _).
Qed.

Lemma clean_price_shape raw :
  Forall (fun c => Amazon.keep_price_char is_digit c = true)
         (Amazon.clean_price is_digit raw)
  /\ In rupee (Amazon.clean_price is_digit raw).
Proof.
  rewrite clean_price_eq. cbv zeta.
  assert (K : Forall (fun c => Amazon.keep_price_char is_digit c = true)
                     (filter (Amazon.keep_price_char is_digit) raw)).
  { apply Forall_forall. intros c Hc. now apply filter_In in Hc. }
  destruct (existsb (N.eqb rupee) _) eqn:E.
  - split; [exact K|].
    apply existsb_exists in E. destruct E as (c & Hc & Ec).
    apply N.eqb_eq in Ec. now subst.
  - split; [|now left].
    constructor; [|exact K].
    unfold Amazon.keep_price_char. rewrite N.eqb_refl. apply orb_true_r.
Qed.

Lemma stored_price_shape p oos :
  let stored := Amazon.stored_price lower is_digit (Some p) oos in
  stored = Some [] \/ stored = Some (py "Out of stock")
  \/ exists s, stored = Some s
               /\ Forall (fun c => Amazon.keep_price_char is_digit c = true) s
               /\ In rupee s.
Proof.
  cbv zeta. unfold Amazon.stored_price.
  assert (P : let q := (if nonempty p
                        then Some (Amazon.clean_price is_digit p)
                        else Some p) in
              q = Some [] \/
              exists s, q = Some s
                /\ Forall (fun c => Amazon.keep_price_char is_digit c = true) s
                /\ In rupee s).
  { cbv zeta. destruct p as [|c p]; [now left|]. right.
    exists (Amazon.clean_price is_digit (c :: p)).
    split; [reflexivity | apply clean_price_shape]. }
  cbv zeta in P.
  destruct oos as [t|].
  - destruct (nonempty t && contains (py "out of stock") (lower t));
      [right; now left|].
    destruct P as [P|P]; [now left | right; now right].
  - destruct P as [P|P]; [now left | right; now right].
Qed.

Lemma extract_product_data_price page :
  VariantInvariants.price_shaped is_digit
    (price (Amazon.extract_product_data lower is_digit page)).
Proof.
  unfold VariantInvariants.price_shaped, Amazon.extract_product_data.
  cbn [price]. unfold extract_common_data. cbn [c_price].
  destruct (or_empty_some (first_text page
    [py ".a-price-whole"; py ".a-price .a-offscreen"; py ".price";
     py ".product-price"; py "[data-testid='price']"; py ".a-price-range"]))
    as [p ->].
  apply stored_price_shape.
Qed.

(** C10.  The price the Amazon extractor stores is empty, or the literal
    "Out of stock", or a string of digits, commas, periods and rupee signs
    with a rupee sign in it; the test [price.startswith('$')] is false on
    every cleaned price, so a price without a rupee sign, one in dollars
    included, gets the rupee sign in front. *)
Theorem amazon_stored_price_shape :
  forall (page : Page),
    (let stored := price (Amazon.extract_product_data lower is_digit page) in
     stored = Some [] \/ stored = Some (py "Out of stock")
     \/ exists s, stored = Some s
                  /\ Forall (fun c => Amazon.keep_price_char is_digit c = true) s
                  /\ In rupee s)
    /\ (forall raw,
           let kept := filter (Amazon.keep_price_char is_digit) raw in
           startswith (py "$") kept = false
           /\ Amazon.clean_price is_digit raw
              = if existsb (N.eqb rupee) kept then kept else rupee :: kept).
Proof.
  intros page. split.
  - cbv zeta. unfold Amazon.extract_product_data. cbn [price].
    unfold extract_common_data. cbn [c_price].
    destruct (or_empty_some (first_text page
      [py ".a-price-whole"; py ".a-price .a-offscreen"; py ".price";
       py ".product-price"; py "[data-testid='price']"; py ".a-price-range"]))
      as [p ->].
    apply stored_price_shape.
  - intros raw. cbv zeta. split; [apply dollar_guard_false|].
    apply clean_price_eq.
Qed.

End Price.

(** A product page whose price element reads "$12.99": the stored price is
    the rupee sign followed by "12.99". *)
Lemma amazon_stored_price_shape_witness :
  price (Amazon.extract_product_data ascii_lower is_ascii_digit
           (page_with_text (py ".a-price-whole") (py "$12.99")))
    = Some (rupee :: py "12.99")
  /\ Amazon.clean_price is_ascii_digit (py "$12.99") = rupee :: py "12.99".
Proof.
  pose proof (amazon_stored_price_shape ascii_lower is_ascii_digit eq_refl
                (page_with_text (py ".a-price-whole") (py "$12.99"))) as [_ H].
  split; [vm_compute; reflexivity|].
  destruct (H (py "$12.99")) as [_ ->]. vm_compute. reflexivity.
Defined.

Lemma stored_price_not_none lower is_digit v oos :
  Amazon.stored_price lower is_digit (or_empty v) oos <> None.
Proof.
  destruct (or_empty_some v) as [p ->]. unfold Amazon.stored_price.
  destruct oos as [t|];
    [destruct (nonempty t && contains (py "out of stock") (lower t))|];
    destruct (nonempty p); discriminate.
Qed.

(** The value of [a] if it is neither [None] nor empty, else [b], when [a]
    comes from the resolver. *)
Lemma resolver_or_none (a b : option pystr) :
  (forall r, a = Some r -> truthy (Some r) = true) ->
  ((if negb (truthy a) then b else a) = None <-> a = None /\ b = None).
Proof.
  intros Ha. destruct a as [r|].
  - rewrite (Ha r eq_refl). cbn [negb]. split; [discriminate | now intros []].
  - cbn [truthy negb]. tauto.
Qed.

(** C8, as the code has it.  The record of the Amazon extractor and the
    record of [extract_common_data] hold a string in each of the five
    fields.  The Generic extractor passes on what the resolver returned:
    its price is [None] exactly when none of the three price strategies
    found a text, its seller exactly when none of the two seller strategies
    did, and its image address is the result of the image resolver. *)
Theorem extract_product_data_field_types :
  forall (lower : pystr -> pystr) (is_digit : N -> bool) (page : Page),
    all_strings (Amazon.extract_product_data lower is_digit page)
    /\ (let c := extract_common_data page in
        c_title c <> None /\ c_price c <> None /\ c_seller_name c <> None
        /\ c_manufacturer_name c <> None /\ c_image_url c <> None)
    /\ (let g := Generic.extract_product_data page in
        (price g = None <->
           first_text page Generic.price_selectors = None
           /\ first_text page Generic.currency_selectors = None
           /\ text_by_xpath page Generic.price_xpaths = None)
        /\ (seller_name g = None <->
              first_text page Generic.seller_selectors = None
              /\ text_by_xpath page Generic.seller_xpaths = None)
        /\ image_url g = get_image_url page Generic.image_selectors false).
Proof.
  intros lower is_digit page. split; [|split].
  - unfold all_strings, Amazon.extract_product_data, extract_common_data.
    cbn [title price seller_name manufacturer_name image_url
         c_title c_price c_seller_name c_manufacturer_name c_image_url].
    repeat split.
    + apply or_empty_not_none.
    + apply stored_price_not_none.
    + destruct (negb (truthy (or_empty _))); apply or_empty_not_none.
    + destruct (negb (truthy (or_empty _))); [|apply or_empty_not_none].
      destruct (text_by_xpath page _) as [m|]; [|apply or_empty_not_none].
      destruct (nonempty m); apply or_empty_not_none.
    + destruct (negb (truthy (or_empty _))); apply or_empty_not_none.
  - cbv zeta. unfold extract_common_data.
    cbn [c_title c_price c_seller_name c_manufacturer_name c_image_url].
    repeat split; apply or_empty_not_none.
  - cbv zeta. unfold Generic.extract_product_data.
    cbn [price seller_name image_url]. split; [|split; [|reflexivity]].
    + rewrite resolver_or_none.
      * rewrite resolver_or_none by apply first_text_truthy. tauto.
      * intros r. destruct (first_text page Generic.price_selectors) as [x|] eqn:E.
        -- rewrite (first_text_truthy _ _ _ E). cbn [negb].
           intros [= <-]. eapply first_text_truthy; eauto.
        -- cbn [truthy negb]. apply first_text_truthy.
    + apply resolver_or_none, first_text_truthy.
Qed.

(** C8 as worded fails: on a page where no price, seller, manufacturer or
    image is found, the Generic extractor returns [None] for each. *)
Lemma generic_absent_fields_are_none :
  price (Generic.extract_product_data (page_with_links [])) = None
  /\ seller_name (Generic.extract_product_data (page_with_links [])) = None
  /\ ~ all_strings (Generic.extract_product_data (page_with_links [])).
Proof.
  split; [reflexivity|]. split; [reflexivity|].
  intros (_ & H & _). now apply H.
Qed.

End ExtractFacts.

(** ** The variant resolution loop *)

Module VariantFacts.
Import Base Amazon.

(** *** The order of the keys of the returned object *)

Lemma insert_index_perm n e l :
  Permutation (insert_index n e l) ((n, e) :: l).
Proof.
  induction l as [|[m e'] r IH]; cbn [insert_index]; [reflexivity|].
  destruct (n <? m)%N; [reflexivity|].
  rewrite IH. apply perm_swap.
Qed.

Lemma indexed_entries_perm d :
  Permutation (map snd (indexed_entries d))
              (filter (fun e => negb (named_key e)) d).
Proof.
  induction d as [|e r IH]; cbn [indexed_entries filter]; [reflexivity|].
  unfold named_key at 1. destruct (array_index (fst e)) as [n|]; cbn [negb].
  - rewrite insert_index_perm. cbn [map snd]. now apply perm_skip.
  - exact IH.
Qed.

Lemma filter_split_perm {A : Type} (f : A -> bool) l :
  Permutation (filter (fun x => negb (f x)) l ++ filter f l) l.
Proof.
  induction l as [|a l IH]; cbn [filter]; [reflexivity|].
  destruct (f a); cbn [negb app].
  - symmetry. apply Permutation_cons_app. now symmetry.
  - now apply perm_skip.
Qed.

(** The returned dictionary holds the entries the script assigned, each
    once. *)
Lemma own_keys_order_perm d : Permutation (own_keys_order d) d.
Proof.
  unfold own_keys_order. rewrite indexed_entries_perm.
  apply filter_split_perm.
Qed.

Lemma indexed_entries_named d :
  forallb named_key d = true -> indexed_entries d = [].
Proof.
  induction d as [|e r IH]; [reflexivity|]. cbn [forallb indexed_entries].
  unfold named_key at 1. destruct (array_index (fst e)); [discriminate|].
  exact IH.
Qed.

(** When no key is an array index, the keys keep the order of their first
    assignment. *)
Lemma own_keys_order_named d :
  forallb named_key d = true -> own_keys_order d = d.
Proof.
  intros H. unfold own_keys_order. rewrite (indexed_entries_named d H).
  cbn [map app]. induction d as [|e r IH]; [reflexivity|].
  cbn [forallb] in H. apply andb_true_iff in H. destruct H as [He Hr].
  cbn [filter]. rewrite He. f_equal. now apply IH.
Qed.

Section Loop.
Variable lower : pystr -> pystr.
Variable is_digit : N -> bool.
Variable B : Browser.
Variable main_url : pystr.

Local Abbreviation option_body := (option_body lower is_digit B main_url).
Local Abbreviation options_loop := (options_loop lower is_digit B main_url).
Local Abbreviation dimensions_loop :=
  (dimensions_loop lower is_digit B main_url).


Lemma options_loop_fold dim_name options :
  forall st : loop_state B,
    options_loop dim_name options st
    = fold_left (fun st a => option_body (fst a) (snd a) st)
                (map (pair dim_name) options) st.
Proof.
  induction options as [|o rest IH]; intros st; [reflexivity|].
  cbn [Amazon.options_loop map fold_left fst snd]. apply IH.
Qed.

(** The two nested loops are one pass over the options of all dimensions. *)
Lemma dimensions_loop_fold dims :
  forall st : loop_state B,
    dimensions_loop dims st
    = fold_left (fun st a => option_body (fst a) (snd a) st)
                (all_options dims) st.
Proof.
  induction dims as [|[dim_name options] rest IH]; intros st; [reflexivity|].
  cbn [Amazon.dimensions_loop]. unfold all_options. cbn [flat_map fst snd].
  rewrite fold_left_app, IH, options_loop_fold. reflexivity.
Qed.


End Loop.






Lemma extract_variants_pass lower is_digit (B : Browser) (d : dom B) main_url :
  extract_variants lower is_digit B d main_url
  = match snd (wait_for_timeout B d 2000) with
    | Raise _ => at_start B (fst (wait_for_timeout B d 2000))
    | Ok _ =>
        fold_left (fun st a => option_body lower is_digit B main_url
                                           (fst a) (snd a) st)
                  (all_options
                     (_detect_amazon_variants
                        (view B (fst (wait_for_timeout B d 2000)))))
                  (at_start B (fst (wait_for_timeout B d 2000)))
    end.
Proof.
  unfold extract_variants.
  destruct (wait_for_timeout B d 2000) as [d0 [[]|e]]; cbn [fst snd];
    [|reflexivity].
  rewrite <- dimensions_loop_fold.
  destruct (_detect_amazon_variants (view B d0)); reflexivity.
Qed.




End VariantFacts.

(** ** The session *)

Module SessionFacts.
Import Base App.

Lemma stable_ret {A : Type} P (a : A) : stable P (ret a).
Proof. intros s H. exact H. Qed.

Lemma stable_lift {A : Type} P (o : outcome A) : stable P (lift o).
Proof. intros s H. exact H. Qed.

Lemma stable_bind {A B : Type} P (m : M A) (f : A -> M B) :
  stable P m -> (forall a, stable P (f a)) -> stable P (bind m f).
Proof.
  intros Hm Hf s H. unfold bind. specialize (Hm s H).
  destruct (m s) as [[a|e] s']; cbn [snd] in *; [now apply Hf | exact Hm].
Qed.

Lemma stable_try {A : Type} P (m : M A) (h : exn -> M A) :
  stable P m -> (forall e, stable P (h e)) -> stable P (try_except m h).
Proof.
  intros Hm Hh s H. unfold try_except. specialize (Hm s H).
  destruct (m s) as [[a|e] s']; cbn [snd] in *; [exact Hm | now apply Hh].
Qed.

(** *** The trace *)

Lemma next_pages_app t1 t2 :
  next_pages (t1 ++ t2) = next_pages t1 ++ next_pages t2.
Proof. unfold next_pages. apply flat_map_app. Qed.

Lemma next_pages_visits p links : forall i, next_pages (visits_from p i links) = [].
Proof.
  induction links as [|u rest IH]; intros i; [reflexivity|].
  cbn [visits_from next_pages flat_map app]. apply IH.
Qed.

Lemma next_pages_page_events w p :
  next_pages (page_events w true p) = [p]
  /\ next_pages (page_events w false p) = [].
Proof.
  unfold page_events. split.
  - change (GetLinks p :: ?t) with ([GetLinks p] ++ t).
    cbn [next_pages flat_map app].
    change (flat_map _ ?t) with (next_pages t).
    now rewrite next_pages_app, next_pages_visits.
  - cbn [next_pages flat_map app].
    change (flat_map _ ?t) with (next_pages t).
    now rewrite next_pages_app, next_pages_visits.
Qed.

Lemma next_pages_blocks w k : forall cp,
  next_pages (flat_map (page_events w true) (seq cp k)) = seq cp k.
Proof.
  induction k as [|k IH]; intros cp; [reflexivity|].
  cbn [seq flat_map]. rewrite next_pages_app, IH.
  now rewrite (proj1 (next_pages_page_events w cp)).
Qed.

Ltac same_events :=
  repeat (rewrite <- app_assoc || rewrite <- app_comm_cons); reflexivity.

Section Session.
Variable lower : pystr -> pystr.
Variable whitelisted_sellers : list pystr.
Variable w : world.

Local Abbreviation save_product_if_any := (save_product_if_any lower whitelisted_sellers w).
Local Abbreviation save_variants := (save_variants lower whitelisted_sellers w).
Local Abbreviation product_body := (product_body lower whitelisted_sellers w).
Local Abbreviation process_product := (process_product lower whitelisted_sellers w).
Local Abbreviation products_loop := (products_loop lower whitelisted_sellers w).
Local Abbreviation pages_loop := (pages_loop lower whitelisted_sellers w).
Local Abbreviation after_links := (after_links lower whitelisted_sellers w).
Local Abbreviation scrape :=
  (scrape_platform_products_with_browser lower whitelisted_sellers w).

(** *** What the steps of one product keep *)

Section Stable.
Variable P : session -> Prop.
Hypothesis P_counts :
  forall s, P s -> P (snd (count_product s)) /\ P (snd (count_variant s)).
Hypothesis P_variant :
  forall v wl s, P s -> P (snd (save_variant_to_csv w v wl s)).
Hypothesis P_product :
  forall d, stable P (save_product_if_any d).
Hypothesis P_record : forall e s, P s -> P (record e s).

Lemma stable_save_variants vs : stable P (save_variants vs).
Proof.
  induction vs as [|v rest IH]; [apply stable_ret|].
  cbn [App.save_variants]. apply stable_bind.
  - intros s H. now apply P_variant.
  - intros _. apply stable_bind; [|intros _; exact IH].
    intros s H. now apply P_counts.
Qed.

Lemma stable_process_product v : stable P (process_product v).
Proof.
  unfold App.process_product. apply stable_try; [|intros; apply stable_ret].
  unfold App.product_body.
  apply stable_bind; [apply stable_lift|]. intros _.
  apply stable_bind; [apply stable_lift|]. intros d.
  apply stable_bind; [apply P_product|]. intros _.
  apply stable_bind; [apply stable_lift|]. intros vs.
  apply stable_bind; [apply stable_save_variants|]. intros _.
  apply stable_lift.
Qed.

Lemma stable_products_loop p links :
  forall i, stable P (products_loop p i links).
Proof.
  induction links as [|u rest IH]; intros i; [apply stable_ret|].
  cbn [App.products_loop]. apply stable_bind.
  - intros s H. cbn [snd]. now apply P_record.
  - intros _. apply stable_bind; [apply stable_process_product|].
    intros _. apply IH.
Qed.

End Stable.

(** An append leaves its line or its fragment and changes nothing else. *)
Lemma save_product_to_csv_eq d wl s :
  save_product_to_csv w d wl s
  = (snd (append w (product_row d wl) (appends s)),
     {| products_csv := products_csv s
                        ++ [fst (append w (product_row d wl) (appends s))];
        variants_csv := variants_csv s;
        appends := S (appends s);
        total_products := total_products s;
        total_variants := total_variants s;
        trace := trace s |}).
Proof.
  unfold save_product_to_csv.
  now destruct (append w (product_row d wl) (appends s)).
Qed.

Lemma save_variant_to_csv_eq v wl s :
  save_variant_to_csv w v wl s
  = (snd (append w (variant_row v wl) (appends s)),
     {| products_csv := products_csv s;
        variants_csv := variants_csv s
                        ++ [fst (append w (variant_row v wl) (appends s))];
        appends := S (appends s);
        total_products := total_products s;
        total_variants := total_variants s;
        trace := trace s |}).
Proof.
  unfold save_variant_to_csv.
  now destruct (append w (variant_row v wl) (appends s)).
Qed.

Lemma append_row r n : chunk_row (fst (append w r n)) = r.
Proof. unfold append. now destruct (disk w n). Qed.

Lemma append_written r n :
  disk_ok w n = true -> append w r n = (Line r, Ok tt).
Proof. unfold disk_ok, append. now destruct (disk w n). Qed.

Lemma append_refused r n part :
  disk w n = Refused part -> append w r n = (Fragment r part, Raise OSError).
Proof. unfold append. now intros ->. Qed.

(** What [save_product_if_any] does when it writes: the session after the
    append, the counter raised when the append returned. *)
Lemma save_product_if_any_snd d s :
  snd (save_product_if_any d s)
  = if truthy (title d) || truthy (price d)
    then
      let wl := classify lower whitelisted_sellers (seller_name d)
                         (manufacturer_name d) in
      let s1 := snd (save_product_to_csv w d wl s) in
      match snd (append w (product_row d wl) (appends s)) with
      | Ok _ => snd (count_product s1)
      | Raise _ => s1
      end
    else s.
Proof.
  unfold App.save_product_if_any.
  destruct (truthy (title d) || truthy (price d)); [|reflexivity].
  cbv zeta. unfold bind. rewrite save_product_to_csv_eq. cbn [snd].
  destruct (snd (append w _ (appends s))) as [[]|e]; [|reflexivity].
  unfold print_saved. now destruct (title d).
Qed.

(** The work on a product leaves the trace as it is. *)
Lemma process_product_trace v s :
  trace (snd (process_product v s)) = trace s.
Proof.
  apply (stable_process_product (fun s' => trace s' = trace s)); auto.
  - intros x wl s' H. now rewrite save_variant_to_csv_eq.
  - intros d s' H. rewrite save_product_if_any_snd.
    destruct (truthy (title d) || truthy (price d)); [|exact H].
    cbv zeta. rewrite save_product_to_csv_eq. cbn [snd].
    now destruct (snd (append w _ (appends s'))).
Qed.

(** The guard of [save_product_if_any] keeps the products file in order. *)
Lemma save_product_if_any_ok d : stable products_ok (save_product_if_any d).
Proof.
  intros s H. rewrite save_product_if_any_snd.
  destruct (truthy (title d) || truthy (price d)) eqn:G; [|exact H].
  cbv zeta. rewrite save_product_to_csv_eq. cbn [snd].
  assert (H' : Forall (fun c => product_row_ok (chunk_row c) = true)
                 (products_csv s ++
                  [fst (append w
                     (product_row d
                        (classify lower whitelisted_sellers (seller_name d)
                                  (manufacturer_name d)))
                     (appends s))])).
  { apply Forall_app. split; [exact H|]. constructor; [|constructor].
    rewrite append_row. unfold product_row_ok, product_row. cbn [nth].
    destruct (title d) as [t|], (price d) as [q|]; exact G. }
  now destruct (snd (append w _ (appends s))).
Qed.

Lemma products_loop_ok p i links : stable products_ok (products_loop p i links).
Proof.
  apply stable_products_loop.
  - intros s H. split; exact H.
  - intros v wl s H. now rewrite save_variant_to_csv_eq.
  - apply save_product_if_any_ok.
  - intros e s H. exact H.
Qed.

(** *** The handler of one product *)

Lemma process_product_returns v s : fst (process_product v s) = Ok tt.
Proof.
  unfold App.process_product, try_except.
  destruct (product_body v s) as [[[]|e] s']; reflexivity.
Qed.

Lemma products_loop_step p i u rest s :
  products_loop p i (u :: rest) s
  = products_loop p (S i) rest
      (snd (process_product (visit_of w p i u) (record (Visit p i u) s))).
Proof.
  cbn [App.products_loop]. unfold bind.
  pose proof (process_product_returns (visit_of w p i u)
                                      (record (Visit p i u) s)) as H.
  destruct (process_product (visit_of w p i u) (record (Visit p i u) s))
    as [r s1].
  cbn [fst snd] in *. now subst r.
Qed.

Lemma products_loop_returns p links :
  forall i s, fst (products_loop p i links s) = Ok tt.
Proof.
  induction links as [|u rest IH]; intros i s; [reflexivity|].
  rewrite products_loop_step. apply IH.
Qed.

(** The loop over the links notes the work on every link, in order. *)
Lemma products_loop_trace p links :
  forall i s,
    trace (snd (products_loop p i links s)) = trace s ++ visits_from p i links.
Proof.
  induction links as [|u rest IH]; intros i s.
  - cbn. now rewrite app_nil_r.
  - rewrite products_loop_step, IH, process_product_trace.
    cbn [record trace visits_from]. now rewrite <- app_assoc.
Qed.

(** *** The loop over the pages *)

Lemma pages_loop_step fuel max_pages current_page s :
  pages_loop (S fuel) max_pages current_page s =
  if keep_going max_pages current_page
  then
    let s0 := record (GetLinks current_page) s in
    match links_on w current_page with
    | Raise e => Some (Raise e, s0)
    | Ok [] => Some (Ok tt, s0)
    | Ok product_links =>
        match products_loop current_page 0 product_links s0 with
        | (Raise e, s1) => Some (Raise e, s1)
        | (Ok _, s1) =>
            if (max_pages =? 0) || (current_page <? max_pages)
            then
              let s2 := record (NextPage current_page) s1 in
              match next_page w current_page with
              | Raise e => Some (Raise e, s2)
              | Ok false => Some (Ok tt, s2)
              | Ok true =>
                  match settle w current_page with
                  | Raise e => Some (Raise e, s2)
                  | Ok _ => pages_loop fuel max_pages (S current_page) s2
                  end
              end
            else Some (Ok tt, s1)
        end
    end
  else Some (Ok tt, s).
Proof. reflexivity. Qed.

Lemma after_links_trace cp links s :
  trace (after_links cp links s)
  = trace s ++ GetLinks cp :: visits_from cp 0 links.
Proof.
  unfold App.after_links. rewrite products_loop_trace. cbn [record trace].
  now rewrite <- app_assoc.
Qed.

Lemma page_events_links advance p u l :
  links_on w p = Ok (u :: l) ->
  page_events w advance p
  = GetLinks p :: visits_from p 0 (u :: l)
    ++ (if advance then [NextPage p] else []).
Proof. intros H. unfold page_events, links_of. now rewrite H. Qed.

(** The loop on a page that has links. *)
Lemma pages_loop_links fuel max_pages cp s u l :
  keep_going max_pages cp = true ->
  links_on w cp = Ok (u :: l) ->
  pages_loop (S fuel) max_pages cp s =
  let s1 := after_links cp (u :: l) s in
  if (max_pages =? 0) || (cp <? max_pages)
  then
    let s2 := record (NextPage cp) s1 in
    match next_page w cp with
    | Raise e => Some (Raise e, s2)
    | Ok false => Some (Ok tt, s2)
    | Ok true =>
        match settle w cp with
        | Raise e => Some (Raise e, s2)
        | Ok _ => pages_loop fuel max_pages (S cp) s2
        end
    end
  else Some (Ok tt, s1).
Proof.
  intros Hk Hl. rewrite pages_loop_step, Hk, Hl. cbv zeta.
  unfold App.after_links.
  pose proof (products_loop_returns cp (u :: l) 0 (record (GetLinks cp) s))
    as Hr.
  destruct (products_loop cp 0 (u :: l) (record (GetLinks cp) s)) as [r s1].
  cbn [fst snd] in *. now subst r.
Qed.

(** More fuel does not change a run that has ended. *)
Lemma pages_loop_mono fuel :
  forall max_pages cp s x,
    pages_loop fuel max_pages cp s = Some x ->
    pages_loop (S fuel) max_pages cp s = Some x.
Proof.
  induction fuel as [|fuel IH]; intros max_pages cp s x; [discriminate|].
  rewrite (pages_loop_step (S fuel)), (pages_loop_step fuel).
  destruct (keep_going max_pages cp); [|auto]. cbv zeta.
  destruct (links_on w cp) as [[|u l]|e]; auto.
  destruct (products_loop cp 0 (u :: l) _) as [[[]|e] s1]; auto.
  destruct ((max_pages =? 0) || (cp <? max_pages)); auto.
  destruct (next_page w cp) as [[|]|e]; auto.
  destruct (settle w cp) as [[]|e]; auto.
Qed.

Lemma pages_loop_more fuel fuel' max_pages cp s x :
  fuel <= fuel' ->
  pages_loop fuel max_pages cp s = Some x ->
  pages_loop fuel' max_pages cp s = Some x.
Proof.
  induction 1 as [|fuel' Hle IH]; [auto|].
  intros H. now apply pages_loop_mono, IH.
Qed.

(** Under a cap the loop ends within as many iterations as pages are
    left. *)
Lemma pages_loop_ends fuel :
  forall max_pages cp s,
    0 < max_pages -> max_pages - cp < fuel ->
    exists x, pages_loop fuel max_pages cp s = Some x.
Proof.
  induction fuel as [|fuel IH]; intros max_pages cp s Hpos Hfuel; [lia|].
  rewrite pages_loop_step. unfold keep_going.
  destruct (Nat.eqb_spec max_pages 0) as [E0|_]; [lia|]. cbn [orb].
  destruct (Nat.leb_spec cp max_pages) as [Hle|Hgt]; [|eauto]. cbv zeta.
  destruct (links_on w cp) as [[|u l]|e]; eauto.
  destruct (products_loop cp 0 (u :: l) _) as [[[]|e] s1]; eauto.
  destruct (Nat.ltb_spec cp max_pages) as [Hlt|Hge]; eauto.
  destruct (next_page w cp) as [[|]|e]; eauto.
  destruct (settle w cp) as [[]|e]; eauto.
  apply IH; lia.
Qed.

(** The loop only adds to the trace. *)
Lemma pages_loop_extends fuel :
  forall max_pages cp s r s',
    pages_loop fuel max_pages cp s = Some (r, s') ->
    exists t, trace s' = trace s ++ t.
Proof.
  induction fuel as [|fuel IH]; intros max_pages cp s r s'; [discriminate|].
  rewrite pages_loop_step.
  destruct (keep_going max_pages cp);
    [|intros [= _ <-]; exists []; now rewrite app_nil_r].
  cbv zeta.
  destruct (links_on w cp) as [[|u l]|e];
    [intros [= _ <-]; now eexists | | intros [= _ <-]; now eexists].
  pose proof (products_loop_trace cp (u :: l) 0 (record (GetLinks cp) s))
    as Ht.
  destruct (products_loop cp 0 (u :: l) (record (GetLinks cp) s))
    as [[[]|e] s1]; cbn [snd] in Ht.
  2:{ intros [= _ <-]. rewrite Ht. cbn [record trace].
      rewrite <- app_assoc. now eexists. }
  cbn [record trace] in Ht.
  destruct ((max_pages =? 0) || (cp <? max_pages));
    [|intros [= _ <-]; rewrite Ht, <- app_assoc; now eexists].
  assert (G : exists t, trace (record (NextPage cp) s1) = trace s ++ t).
  { cbn [record trace]. rewrite Ht, <- !app_assoc. now eexists. }
  destruct (next_page w cp) as [[|]|e];
    [|intros [= _ <-]; exact G | intros [= _ <-]; exact G].
  destruct (settle w cp) as [[]|e]; [|intros [= _ <-]; exact G].
  intros H. destruct (IH _ _ _ _ _ H) as [t Hx]. destruct G as [t0 G].
  exists (t0 ++ t). now rewrite Hx, G, <- app_assoc.
Qed.

(** The calls of [go_to_next_page] of a run that has ended: one on each of
    the pages from the first on, as far as the run got, every call but the
    last having returned true; under a cap, none on the last page the cap
    allows. *)
Lemma pages_loop_calls fuel :
  forall max_pages cp s r s',
    pages_loop fuel max_pages cp s = Some (r, s') ->
    exists j,
      next_pages (trace s') = next_pages (trace s) ++ seq cp j
      /\ (0 < max_pages -> j <= max_pages - cp)
      /\ (forall p, cp <= p -> S p < cp + j ->
                    next_page w p = Ok true /\ settle w p = Ok tt).
Proof.
  induction fuel as [|fuel IH]; intros max_pages cp s r s'; [discriminate|].
  assert (Z0 : forall s0 : session,
             next_pages (trace s0) = next_pages (trace s) ->
             exists j,
               next_pages (trace s0) = next_pages (trace s) ++ seq cp j
               /\ (0 < max_pages -> j <= max_pages - cp)
               /\ (forall p, cp <= p -> S p < cp + j ->
                             next_page w p = Ok true /\ settle w p = Ok tt)).
  { intros s0 H. exists 0. cbn [seq]. rewrite app_nil_r.
    split; [exact H|]. split; lia. }
  rewrite pages_loop_step.
  destruct (keep_going max_pages cp) eqn:Hk;
    [|intros [= _ <-]; now apply Z0].
  cbv zeta.
  assert (G : next_pages (trace (record (GetLinks cp) s))
              = next_pages (trace s)).
  { cbn [record trace]. rewrite next_pages_app. cbn. now rewrite app_nil_r. }
  destruct (links_on w cp) as [[|u l]|e];
    [intros [= _ <-]; now apply Z0 | | intros [= _ <-]; now apply Z0].
  pose proof (products_loop_trace cp (u :: l) 0 (record (GetLinks cp) s))
    as Ht.
  destruct (products_loop cp 0 (u :: l) (record (GetLinks cp) s))
    as [[[]|e] s1]; cbn [snd] in Ht.
  2:{ intros [= _ <-]. apply Z0.
      now rewrite Ht, next_pages_app, next_pages_visits, app_nil_r. }
  assert (G1 : next_pages (trace s1) = next_pages (trace s))
    by now rewrite Ht, next_pages_app, next_pages_visits, app_nil_r.
  destruct ((max_pages =? 0) || (cp <? max_pages)) eqn:Hm;
    [|intros [= _ <-]; now apply Z0].
  assert (One : forall s2 : session,
             next_pages (trace s2) = next_pages (trace s) ++ [cp] ->
             exists j,
               next_pages (trace s2) = next_pages (trace s) ++ seq cp j
               /\ (0 < max_pages -> j <= max_pages - cp)
               /\ (forall p, cp <= p -> S p < cp + j ->
                             next_page w p = Ok true /\ settle w p = Ok tt)).
  { intros s2 H. exists 1. split; [exact H|]. split; [|lia].
    intros Hpos. apply orb_true_iff in Hm. destruct Hm as [Hm|Hm].
    - apply Nat.eqb_eq in Hm. lia.
    - apply Nat.ltb_lt in Hm. lia. }
  assert (G2 : next_pages (trace (record (NextPage cp) s1))
               = next_pages (trace s) ++ [cp]).
  { cbn [record trace]. rewrite next_pages_app, G1. reflexivity. }
  destruct (next_page w cp) as [[|]|e] eqn:En;
    [|intros [= _ <-]; now apply One | intros [= _ <-]; now apply One].
  destruct (settle w cp) as [[]|e] eqn:Es;
    [|intros [= _ <-]; now apply One].
  intros H. destruct (IH _ _ _ _ _ H) as (j & Hj & Hcap & Htrue).
  exists (S j). split; [|split].
  - rewrite Hj, G2, <- app_assoc. reflexivity.
  - intros Hpos. specialize (Hcap Hpos).
    apply orb_true_iff in Hm. destruct Hm as [Hm|Hm].
    + apply Nat.eqb_eq in Hm. lia.
    + apply Nat.ltb_lt in Hm. lia.
  - intros p Hp Hq. destruct (Nat.eq_dec p cp) as [->|Hne]; [auto|].
    apply Htrue; lia.
Qed.

(** While the pages have links and [go_to_next_page] returns true, the
    loop without a cap does not end. *)
Lemma pages_loop_runs_on fuel :
  forall cp s k,
    pages_follow w cp k -> fuel <= k -> pages_loop fuel 0 cp s = None.
Proof.
  induction fuel as [|fuel IH]; intros cp s k Hf Hle; [reflexivity|].
  destruct (Hf cp ltac:(lia)) as ((u & l & Hl) & Hn & Hs).
  rewrite (pages_loop_links fuel 0 cp s u l eq_refl Hl). cbv zeta.
  cbn [Nat.eqb orb]. rewrite Hn, Hs.
  apply (IH _ _ (k - 1)); [|lia].
  intros p Hp. apply Hf. lia.
Qed.

(** The run without a cap over [k] pages that lead on and one on which
    [go_to_next_page] returns false. *)
Lemma pages_loop_until_false k :
  forall cp s fuel u l,
    pages_follow w cp k ->
    links_on w (cp + k) = Ok (u :: l) ->
    next_page w (cp + k) = Ok false ->
    k < fuel ->
    exists s',
      pages_loop fuel 0 cp s = Some (Ok tt, s')
      /\ trace s' = trace s ++ flat_map (page_events w true) (seq cp (S k)).
Proof.
  induction k as [|k IH]; intros cp s fuel u l Hf Hl Hn Hfuel;
    (destruct fuel as [|fuel]; [lia|]).
  - rewrite Nat.add_0_r in Hl, Hn.
    rewrite (pages_loop_links fuel 0 cp s u l eq_refl Hl). cbv zeta.
    cbn [Nat.eqb orb]. rewrite Hn. eexists. split; [reflexivity|].
    cbn [record trace seq flat_map].
    rewrite after_links_trace, (page_events_links true cp u l Hl).
    rewrite app_nil_r. same_events.
  - destruct (Hf cp ltac:(lia)) as ((u0 & l0 & Hl0) & Hn0 & Hs0).
    rewrite (pages_loop_links fuel 0 cp s u0 l0 eq_refl Hl0). cbv zeta.
    cbn [Nat.eqb orb]. rewrite Hn0, Hs0.
    destruct (IH (S cp) (record (NextPage cp) (after_links cp (u0 :: l0) s))
                 fuel u l) as (s' & Hrun & Htr).
    + intros p Hp. apply Hf. lia.
    + now replace (S cp + k) with (cp + S k) by lia.
    + now replace (S cp + k) with (cp + S k) by lia.
    + lia.
    + exists s'. split; [exact Hrun|].
      rewrite Htr. cbn [record trace]. rewrite after_links_trace.
      change (seq cp (S (S k))) with (cp :: seq (S cp) (S k)).
      cbn [flat_map]. rewrite (page_events_links true cp u0 l0 Hl0).
      same_events.
Qed.

(** The run under a cap over [k] pages that lead on and the last page the
    cap allows: no call of [go_to_next_page] on that page. *)
Lemma pages_loop_to_cap k :
  forall cp s fuel u l,
    0 < cp ->
    pages_follow w cp k ->
    links_on w (cp + k) = Ok (u :: l) ->
    k < fuel ->
    exists s',
      pages_loop fuel (cp + k) cp s = Some (Ok tt, s')
      /\ trace s' = trace s ++ flat_map (page_events w true) (seq cp k)
                            ++ page_events w false (cp + k).
Proof.
  induction k as [|k IH]; intros cp s fuel u l Hpos Hf Hl Hfuel;
    (destruct fuel as [|fuel]; [lia|]).
  - rewrite Nat.add_0_r in *.
    assert (Hk : keep_going cp cp = true).
    { unfold keep_going. rewrite Nat.leb_refl. apply orb_true_r. }
    rewrite (pages_loop_links fuel cp cp s u l Hk Hl). cbv zeta.
    rewrite Nat.ltb_irrefl.
    destruct (Nat.eqb_spec cp 0) as [E|_]; [lia|]. cbn [orb].
    eexists. split; [reflexivity|].
    rewrite after_links_trace. cbn [seq flat_map app].
    rewrite (page_events_links false cp u l Hl). now rewrite app_nil_r.
  - destruct (Hf cp ltac:(lia)) as ((u0 & l0 & Hl0) & Hn0 & Hs0).
    assert (Hk : keep_going (cp + S k) cp = true).
    { unfold keep_going. apply orb_true_iff. right. apply Nat.leb_le. lia. }
    rewrite (pages_loop_links fuel (cp + S k) cp s u0 l0 Hk Hl0). cbv zeta.
    assert (Hlt : (cp <? cp + S k) = true) by (apply Nat.ltb_lt; lia).
    rewrite Hlt, orb_true_r, Hn0, Hs0.
    replace (cp + S k) with (S cp + k) in * by lia.
    destruct (IH (S cp) (record (NextPage cp) (after_links cp (u0 :: l0) s))
                 fuel u l) as (s' & Hrun & Htr).
    + lia.
    + intros p Hp. apply Hf. lia.
    + exact Hl.
    + lia.
    + exists s'. split; [exact Hrun|].
      rewrite Htr. cbn [record trace]. rewrite after_links_trace.
      change (seq cp (S k)) with (cp :: seq (S cp) k).
      cbn [flat_map]. rewrite (page_events_links true cp u0 l0 Hl0).
      same_events.
Qed.

(** Nothing but the discovery of the links, the page advance, or the waits
    after it can end the loop with an error. *)
Lemma pages_loop_returns fuel :
  forall max_pages cp s r s',
    (forall p e, links_on w p <> Raise e) ->
    (forall p e, next_page w p <> Raise e) ->
    (forall p e, settle w p <> Raise e) ->
    pages_loop fuel max_pages cp s = Some (r, s') -> r = Ok tt.
Proof.
  induction fuel as [|fuel IH]; intros max_pages cp s r s' Hl Hn Hs;
    [discriminate|].
  rewrite pages_loop_step.
  destruct (keep_going max_pages cp); [|now intros [= <- _]]. cbv zeta.
  destruct (links_on w cp) as [[|u l]|e] eqn:El;
    [now intros [= <- _] | | now apply Hl in El].
  pose proof (products_loop_returns cp (u :: l) 0 (record (GetLinks cp) s))
    as Hr.
  destruct (products_loop cp 0 (u :: l) _) as [r1 s1].
  cbn [fst] in Hr. subst r1.
  destruct ((max_pages =? 0) || (cp <? max_pages)); [|now intros [= <- _]].
  destruct (next_page w cp) as [[|]|e] eqn:En;
    [|now intros [= <- _] | now apply Hn in En].
  destruct (settle w cp) as [[]|e] eqn:Es; [|now apply Hs in Es].
  now apply IH.
Qed.

Lemma pages_loop_ok fuel :
  forall max_pages cp s r s',
    products_ok s ->
    pages_loop fuel max_pages cp s = Some (r, s') -> products_ok s'.
Proof.
  induction fuel as [|fuel IH]; intros max_pages cp s r s' Hs; [discriminate|].
  rewrite pages_loop_step.
  destruct (keep_going max_pages cp); [|now intros [= _ <-]]. cbv zeta.
  destruct (links_on w cp) as [[|u l]|e];
    [now intros [= _ <-] | | now intros [= _ <-]].
  pose proof (products_loop_ok cp 0 (u :: l) (record (GetLinks cp) s) Hs)
    as H1.
  destruct (products_loop cp 0 (u :: l) _) as [[[]|e] s1]; cbn [snd] in H1;
    [|now intros [= _ <-]].
  destruct ((max_pages =? 0) || (cp <? max_pages)); [|now intros [= _ <-]].
  destruct (next_page w cp) as [[|]|e];
    [|now intros [= _ <-] | now intros [= _ <-]].
  destruct (settle w cp) as [[]|e]; [|now intros [= _ <-]].
  now apply IH.
Qed.

(** *** The run from the start of the browser to its closing *)

Lemma scrape_some fuel max_pages r s' :
  scrape fuel max_pages = Some (r, s') ->
  (exists e, start w = Raise e /\ r = Raise e /\ s' = fresh)
  \/ (start w = Ok tt
      /\ exists r0, pages_loop fuel max_pages 1 fresh = Some (r0, s')
                    /\ r = match r0 with
                           | Ok _ => close_browser w
                           | Raise e => Raise e
                           end).
Proof.
  unfold scrape_platform_products_with_browser.
  destruct (start w) as [[]|e].
  - destruct (pages_loop fuel max_pages 1 fresh) as [[[[]|e] s0]|];
      [| |discriminate]; intros [= <- <-]; right; eauto.
  - intros [= <- <-]. left. eauto.
Qed.

Lemma scrape_of_loop fuel max_pages s' :
  start w = Ok tt ->
  pages_loop fuel max_pages 1 fresh = Some (Ok tt, s') ->
  scrape fuel max_pages = Some (close_browser w, s').
Proof.
  unfold scrape_platform_products_with_browser. now intros -> ->.
Qed.

Lemma scrape_more fuel fuel' max_pages x :
  fuel <= fuel' ->
  scrape fuel max_pages = Some x -> scrape fuel' max_pages = Some x.
Proof.
  unfold scrape_platform_products_with_browser. intros Hle.
  destruct (start w) as [[]|e]; [|auto].
  destruct (pages_loop fuel max_pages 1 fresh) as [y|] eqn:E; [|discriminate].
  now rewrite (pages_loop_more fuel fuel' max_pages 1 fresh y Hle E).
Qed.

End Session.

(** C5.  The loop over the listing pages takes up a page exactly when
    [max_pages == 0] or [current_page <= max_pages].  With a cap of N > 0
    pages it ends within N iterations, and [go_to_next_page] is called once
    on each of the pages 1 to j for some j <= N - 1, so at most N times;
    when every page has links and every call returns true, the pages 1 to N
    are worked on and the call is made on the pages 1 to N - 1.  With the
    cap 0 the call is made after the work on every page until it first
    returns false: if that happens on page k + 1, the run has taken k + 1
    iterations and made k + 1 calls, and while the calls return true the
    loop does not end. *)
Theorem pagination_call_bounds :
  forall (lower : pystr -> pystr) (L : list pystr) (w : world),
    (forall fuel max_pages cp s,
        (max_pages =? 0) || (cp <=? max_pages) = false ->
        pages_loop lower L w (S fuel) max_pages cp s = Some (Ok tt, s))
    /\ (forall fuel max_pages cp s r s',
           (max_pages =? 0) || (cp <=? max_pages) = true ->
           pages_loop lower L w (S fuel) max_pages cp s = Some (r, s') ->
           exists t, trace s' = trace s ++ GetLinks cp :: t)
    /\ (forall fuel fuel' max_pages x,
           fuel <= fuel' ->
           scrape_platform_products_with_browser lower L w fuel max_pages
             = Some x ->
           scrape_platform_products_with_browser lower L w fuel' max_pages
             = Some x)
    /\ (forall N,
           0 < N ->
           (exists x,
               scrape_platform_products_with_browser lower L w N N = Some x)
           /\ (forall fuel r s',
                  scrape_platform_products_with_browser lower L w fuel N
                    = Some (r, s') ->
                  exists j,
                    next_pages (trace s') = seq 1 j
                    /\ j <= N - 1
                    /\ next_page_calls s' <= N
                    /\ forall p, 1 <= p < j -> next_page w p = Ok true)
           /\ (start w = Ok tt ->
               pages_follow w 1 (N - 1) ->
               (exists u l, links_on w N = Ok (u :: l)) ->
               exists s',
                 scrape_platform_products_with_browser lower L w N N
                   = Some (close_browser w, s')
                 /\ trace s'
                    = flat_map (page_events w true) (seq 1 (N - 1))
                      ++ page_events w false N
                 /\ next_page_calls s' = N - 1))
    /\ (forall fuel r s',
           scrape_platform_products_with_browser lower L w fuel 0
             = Some (r, s') ->
           exists j,
             next_pages (trace s') = seq 1 j
             /\ forall p, 1 <= p < j -> next_page w p = Ok true)
    /\ (forall k,
           start w = Ok tt ->
           pages_follow w 1 k ->
           (exists u l, links_on w (1 + k) = Ok (u :: l)) ->
           next_page w (1 + k) = Ok false ->
           (forall fuel,
               fuel <= k ->
               scrape_platform_products_with_browser lower L w fuel 0 = None)
           /\ exists s',
                scrape_platform_products_with_browser lower L w (S k) 0
                  = Some (close_browser w, s')
                /\ trace s' = flat_map (page_events w true) (seq 1 (S k))
                /\ next_page_calls s' = S k)
    /\ (start w = Ok tt ->
        (forall k, pages_follow w 1 k) ->
        forall fuel,
          scrape_platform_products_with_browser lower L w fuel 0 = None).
Proof.
  intros lower L w.
  split; [|split; [|split; [|split; [|split; [|split]]]]].
  - intros fuel max_pages cp s H. rewrite pages_loop_step.
    unfold keep_going. now rewrite H.
  - intros fuel max_pages cp s r s' H. rewrite pages_loop_step.
    unfold keep_going. rewrite H. cbv zeta.
    assert (G : forall s1 : session,
               (exists t, trace s1 = trace (record (GetLinks cp) s) ++ t) ->
               exists t, trace s1 = trace s ++ GetLinks cp :: t).
    { intros s1 [t Ht]. exists t. rewrite Ht. cbn [record trace].
      now rewrite <- app_assoc. }
    destruct (links_on w cp) as [[|u l]|e];
      [intros [= _ <-]; apply G; exists []; now rewrite app_nil_r | |
       intros [= _ <-]; apply G; exists []; now rewrite app_nil_r].
    pose proof (products_loop_trace lower L w cp (u :: l) 0
                  (record (GetLinks cp) s)) as Ht.
    destruct (products_loop lower L w cp 0 (u :: l) _) as [[[]|e] s1];
      cbn [snd] in Ht; [|intros [= _ <-]; apply G; eauto].
    assert (G2 : forall s2 : session,
               (exists t, trace s2 = trace (record (NextPage cp) s1) ++ t) ->
               exists t, trace s2 = trace s ++ GetLinks cp :: t).
    { intros s2 [t Hs2]. apply G. eexists. rewrite Hs2. cbn [record trace].
      rewrite Ht. cbn [record trace]. rewrite <- !app_assoc. reflexivity. }
    destruct ((max_pages =? 0) || (cp <? max_pages));
      [|intros [= _ <-]; apply G; eauto].
    destruct (next_page w cp) as [[|]|e];
      [| intros [= _ <-]; apply G2; exists []; now rewrite app_nil_r
       | intros [= _ <-]; apply G2; exists []; now rewrite app_nil_r].
    destruct (settle w cp) as [[]|e];
      [|intros [= _ <-]; apply G2; exists []; now rewrite app_nil_r].
    intros Hrun. apply G2.
    destruct (pages_loop_extends lower L w fuel _ _ _ _ _ Hrun) as [t Hx].
    now exists t.
  - intros fuel fuel' max_pages x. apply scrape_more.
  - intros N HN. split; [|split].
    + unfold scrape_platform_products_with_browser.
      destruct (start w) as [[]|e]; [|eauto].
      destruct (pages_loop_ends lower L w N N 1 fresh HN ltac:(lia))
        as [[[[]|e] s'] ->]; eauto.
    + intros fuel r s' H. apply scrape_some in H.
      destruct H as [(e & _ & _ & ->)|(_ & r0 & Hrun & _)].
      * exists 0. cbn. repeat split; try lia.
      * destruct (pages_loop_calls lower L w fuel _ _ _ _ _ Hrun)
          as (j & Hj & Hcap & Htrue).
        cbn [fresh trace next_pages flat_map app] in Hj.
        exists j. split; [exact Hj|]. specialize (Hcap HN).
        split; [lia|]. split.
        -- unfold next_page_calls. rewrite Hj, length_seq. lia.
        -- intros p Hp. apply Htrue; lia.
    + intros Hs Hf (u & l & Hl).
      destruct (pages_loop_to_cap lower L w (N - 1) 1 fresh N u l)
        as (s' & Hrun & Htr); try lia; auto.
      { now replace (1 + (N - 1)) with N by lia. }
      replace (1 + (N - 1)) with N in * by lia.
      exists s'. split; [now apply scrape_of_loop|].
      cbn [fresh trace app] in Htr. split; [exact Htr|].
      unfold next_page_calls. rewrite Htr, next_pages_app, next_pages_blocks.
      rewrite (proj2 (next_pages_page_events w N)), app_nil_r.
      apply length_seq.
  - intros fuel r s' H. apply scrape_some in H.
    destruct H as [(e & _ & _ & ->)|(_ & r0 & Hrun & _)].
    + exists 0. cbn. split; [reflexivity | lia].
    + destruct (pages_loop_calls lower L w fuel _ _ _ _ _ Hrun)
        as (j & Hj & _ & Htrue).
      cbn [fresh trace next_pages flat_map app] in Hj.
      exists j. split; [exact Hj|]. intros p Hp. apply Htrue; lia.
  - intros k Hs Hf (u & l & Hl) Hn. split.
    + intros fuel Hle. unfold scrape_platform_products_with_browser.
      rewrite Hs.
      now rewrite (pages_loop_runs_on lower L w fuel 1 fresh k Hf Hle).
    + destruct (pages_loop_until_false lower L w k 1 fresh (S k) u l)
        as (s' & Hrun & Htr); auto.
      exists s'. split; [now apply scrape_of_loop|].
      cbn [fresh trace app] in Htr. split; [exact Htr|].
      unfold next_page_calls. rewrite Htr, next_pages_blocks.
      apply length_seq.
  - intros Hs Hf fuel. unfold scrape_platform_products_with_browser.
    rewrite Hs.
    now rewrite (pages_loop_runs_on lower L w fuel 1 fresh fuel (Hf fuel)).
Qed.

(** A listing whose fourth page has no further page.  Without a cap the run
    takes four iterations, works on the one product of each of the four
    pages and calls [go_to_next_page] on the pages 1 to 4; with the cap 2 it
    works on two pages and calls it on page 1 only.  On the listing without
    end no number of iterations ends the run. *)
Lemma pagination_call_bounds_witness :
  (exists s',
      scrape_platform_products_with_browser
        ascii_lower [] (SessionSample.pages_until 3) 4 0 = Some (Ok tt, s')
      /\ scrape_platform_products_with_browser
           ascii_lower [] (SessionSample.pages_until 3) 3 0 = None
      /\ next_pages (trace s') = [1; 2; 3; 4]
      /\ List.length (products_csv s') = 4)
  /\ (exists s',
         scrape_platform_products_with_browser
           ascii_lower [] (SessionSample.pages_until 3) 2 2 = Some (Ok tt, s')
         /\ next_pages (trace s') = [1]
         /\ List.length (products_csv s') = 2)
  /\ scrape_platform_products_with_browser
       ascii_lower [] SessionSample.endless 1000 0 = None.
Proof.
  destruct (pagination_call_bounds ascii_lower [] (SessionSample.pages_until 3))
    as (_ & _ & _ & Hcap & _ & Hfalse & _).
  destruct (pagination_call_bounds ascii_lower [] SessionSample.endless)
    as (_ & _ & _ & _ & _ & _ & Hend).
  split; [|split].
  - destruct (Hfalse 3 eq_refl) as (Hnone & s' & Hrun & Htr & _).
    + intros p Hp. cbn. repeat split; eauto.
      f_equal. apply Nat.leb_le. lia.
    + cbn. eauto.
    + reflexivity.
    + exists s'. split; [exact Hrun|]. split; [apply Hnone; lia|].
      split; [rewrite Htr; reflexivity|].
      vm_compute in Hrun. injection Hrun as <-. reflexivity.
  - destruct (Hcap 2 ltac:(lia)) as (_ & _ & Hexact).
    destruct (Hexact eq_refl) as (s' & Hrun & Htr & _).
    + intros p Hp. cbn. repeat split; eauto.
      f_equal. apply Nat.leb_le. lia.
    + cbn. eauto.
    + exists s'. split; [exact Hrun|]. split; [rewrite Htr; reflexivity|].
      vm_compute in Hrun. injection Hrun as <-. reflexivity.
  - apply Hend; [reflexivity|].
    intros k p Hp. cbn. repeat split; eauto.
Defined.

(** C2 as worded fails.  In the listing flow nothing raised while one
    product is processed leaves the handler of that product, a refused
    append included: the fragment it has left stays in the file, the rest
    of the work on that product is skipped without a trace in the counters,
    and the loop takes the next link.  No state of the disk ends the
    listing run with an error.  The single-product flow lets the same
    failure end the run. *)
Theorem sink_failure_is_swallowed :
  forall (lower : pystr -> pystr) (L : list pystr) (w : world),
    (forall v s, fst (process_product lower L w v s) = Ok tt)
    /\ (forall v d s part,
           v_open v = Ok tt -> v_data v = Ok d ->
           truthy (title d) || truthy (price d) = true ->
           disk w (appends s) = Refused part ->
           process_product lower L w v s
           = (Ok tt,
              {| products_csv :=
                   products_csv s
                   ++ [Fragment (product_row d
                                   (classify lower L (seller_name d)
                                             (manufacturer_name d))) part];
                 variants_csv := variants_csv s;
                 appends := S (appends s);
                 total_products := total_products s;
                 total_variants := total_variants s;
                 trace := trace s |}))
    /\ (forall v rest s part,
           disk w (appends s) = Refused part ->
           save_variants lower L w (v :: rest) s
           = (Raise OSError,
              {| products_csv := products_csv s;
                 variants_csv :=
                   variants_csv s
                   ++ [Fragment (variant_row v
                                   (classify lower L
                                      (seller_name (v_product v))
                                      (manufacturer_name (v_product v))))
                                part];
                 appends := S (appends s);
                 total_products := total_products s;
                 total_variants := total_variants s;
                 trace := trace s |}))
    /\ (forall p i u rest s,
           products_loop lower L w p i (u :: rest) s
           = products_loop lower L w p (S i) rest
               (snd (process_product lower L w (visit_of w p i u)
                                     (record (Visit p i u) s))))
    /\ (forall fuel max_pages r s',
           start w = Ok tt ->
           (forall p e, links_on w p <> Raise e) ->
           (forall p e, next_page w p <> Raise e) ->
           (forall p e, settle w p <> Raise e) ->
           close_browser w = Ok tt ->
           scrape_platform_products_with_browser lower L w fuel max_pages
             = Some (r, s') ->
           r = Ok tt)
    /\ (forall url platform c d part,
           Registry.instantiate (Registry.get_extractor platform) = Ok c ->
           start w = Ok tt ->
           v_data (visit_of w 0 0 url) = Ok d ->
           truthy (title d) || truthy (price d) = true ->
           disk w 0 = Refused part ->
           scrape_single_product lower L w url platform
           = (Raise OSError,
              {| products_csv :=
                   [Fragment (product_row d
                                (classify lower L (seller_name d)
                                          (manufacturer_name d))) part];
                 variants_csv := [];
                 appends := 1;
                 total_products := 0;
                 total_variants := 0;
                 trace := [] |}))
    /\ (exists s',
           scrape_platform_products_with_browser
             ascii_lower [] SessionSample.full_disk_once 5 1 = Some (Ok tt, s')
           /\ products_csv s'
              = [Fragment
                   (product_row
                      (SessionSample.widget
                         (py "https://www.amazon.in/a/dp/B0000000R1"))
                      (py "False")) 10;
                 Line
                   (product_row
                      (SessionSample.widget
                         (py "https://www.amazon.in/b/dp/B0000000B1"))
                      (py "False"))]
           /\ total_products s' = 1
           /\ fst (scrape_single_product
                     ascii_lower [] SessionSample.full_disk_once
                     (py "https://www.amazon.in/a/dp/B0000000R1") "amazon")
              = Raise OSError).
Proof.
  intros lower L w. split; [apply process_product_returns|].
  split; [|split; [|split; [|split; [|split]]]].
  - intros v d s part Ho Hd Hg Hdisk.
    unfold process_product, try_except, product_body, bind, lift.
    rewrite Ho, Hd. unfold save_product_if_any. rewrite Hg.
    unfold bind. rewrite save_product_to_csv_eq.
    rewrite (append_refused w _ _ part Hdisk). reflexivity.
  - intros v rest s part Hdisk. cbn [save_variants]. unfold bind at 1.
    rewrite save_variant_to_csv_eq.
    rewrite (append_refused w _ _ part Hdisk). reflexivity.
  - apply products_loop_step.
  - intros fuel max_pages r s' Hs Hl Hn Hw Hc H. apply scrape_some in H.
    destruct H as [(e & He & _)|(_ & r0 & Hrun & ->)]; [congruence|].
    rewrite (pages_loop_returns lower L w fuel _ _ _ _ _ Hl Hn Hw Hrun).
    exact Hc.
  - intros url platform c d part Hi Hs Hd Hg Hdisk.
    unfold scrape_single_product. rewrite Hi. unfold bind, lift.
    rewrite Hs, Hd. unfold save_product_if_any. rewrite Hg.
    unfold bind. rewrite save_product_to_csv_eq. cbn [fresh appends].
    rewrite (append_refused w _ _ part Hdisk). reflexivity.
  - eexists. split; [vm_compute; reflexivity|]. repeat split.
Qed.

(** C3, as the code has it.  Every row handed to the writer of the
    products file has a title or a price, in the listing flow and in the
    single-product flow, and a product with neither is not written.  The
    variants are written as the extractor returned them, one row each,
    without a test. *)
Theorem persisted_products_have_title_or_price :
  forall (lower : pystr -> pystr) (L : list pystr) (w : world),
    (forall fuel max_pages r s',
        scrape_platform_products_with_browser lower L w fuel max_pages
          = Some (r, s') ->
        products_ok s')
    /\ (forall url platform,
           products_ok (snd (scrape_single_product lower L w url platform)))
    /\ (forall d s,
           truthy (title d) = false -> truthy (price d) = false ->
           save_product_if_any lower L w d s = (Ok tt, s))
    /\ (forall vs s,
           (forall n, disk_ok w n = true) ->
           variants_csv (snd (save_variants lower L w vs s))
           = variants_csv s
               ++ map (fun v => Line
                                  (variant_row v
                                     (classify lower L
                                        (seller_name (v_product v))
                                        (manufacturer_name (v_product v)))))
                      vs).
Proof.
  intros lower L w. split; [|split; [|split]].
  - intros fuel max_pages r s' H. apply scrape_some in H.
    destruct H as [(e & _ & _ & ->)|(_ & r0 & Hrun & _)]; [constructor|].
    eapply pages_loop_ok; [|exact Hrun]. constructor.
  - intros url platform. unfold scrape_single_product.
    destruct (Registry.instantiate _); [|constructor].
    assert (F : products_ok fresh) by constructor.
    revert F. generalize fresh.
    apply stable_bind; [apply stable_lift|]. intros _.
    apply stable_bind; [apply stable_lift|]. intros d.
    apply stable_bind; [apply save_product_if_any_ok|]. intros _.
    apply stable_bind; [apply stable_lift|]. intros vs.
    apply stable_bind; [|intros _; apply stable_lift].
    apply stable_save_variants.
    + intros s H. split; exact H.
    + intros v wl s H. now rewrite save_variant_to_csv_eq.
  - intros d s Ht Hp. unfold save_product_if_any. now rewrite Ht, Hp.
  - intros vs s Hdisk. revert s.
    induction vs as [|v rest IH]; intros s.
    + cbn. now rewrite app_nil_r.
    + cbn [save_variants map]. unfold bind at 1.
      rewrite save_variant_to_csv_eq, (append_written w _ _ (Hdisk _)).
      cbn [fst snd]. unfold bind at 1. unfold count_variant at 1.
      rewrite IH. cbn [variants_csv]. now rewrite <- app_assoc.
Qed.

(** C3 as worded fails for the variants.  The four variant records the
    Amazon extractor returns on the sample page have neither title nor
    price, and all four are written to the variants file. *)
Lemma blank_variants_are_written :
  exists s',
    scrape_platform_products_with_browser
      ascii_lower [] SessionSample.with_blank_variants 5 1 = Some (Ok tt, s')
    /\ List.length (lines (variants_csv s')) = 4
    /\ forallb is_line (variants_csv s') = true
    /\ forallb variant_row_ok (lines (variants_csv s')) = false
    /\ existsb variant_row_ok (lines (variants_csv s')) = false.
Proof.
  eexists. split; [vm_compute; reflexivity|].
  repeat split.
Qed.

End SessionFacts.

(* ================================================================== *)
(** * Further properties of the code *)
(* ================================================================== *)

(** ** Platform detection *)

Module PlatformFacts.
Import Platforms.
Local Open Scope string_scope.

Ltac found_marker E :=
  repeat split;
  try (cbn; tauto);
  try discriminate;
  try (intros H; exfalso;
       match type of H with
       | forall m, In m markers -> _ =>
           rewrite H in E by (cbn; tauto); discriminate E
       end).

(** X1.  Whatever the host, [detect_platform] returns a key that the three
    tables of the registry all hold, so no lookup falls back on its
    default, and the pagination mode found for it is one of the three
    modes.  It returns "generic" exactly when the lowered host contains none
    of the thirteen platform markers. *)
Theorem detect_platform_registered :
  forall (lower : pystr -> pystr) (host : pystr),
    let k := detect_platform lower host in
    In k (map fst Registry.PLATFORM_EXTRACTORS)
    /\ Registry.assoc k PLATFORM_TYPES <> None
    /\ Registry.assoc k PLATFORM_VARIANT_SUPPORT <> None
    /\ In (get_platform_type k)
          ["pagination"; "infinite_scroll"; "no_pagination"]
    /\ (k = "generic" <->
        forall m, In m markers -> contains m (lower host) = false).
Proof.
  intros lower host. cbv zeta. unfold detect_platform. cbv zeta.
  destruct (contains (py "amazon.") (lower host)) eqn:E1; [found_marker E1|].
  destruct (contains (py "flipkart.") (lower host)) eqn:E2; [found_marker E2|].
  destruct (contains (py "myntra.") (lower host)) eqn:E3; [found_marker E3|].
  destruct (contains (py "meesho.") (lower host)) eqn:E4; [found_marker E4|].
  destruct (contains (py "ajio.") (lower host)) eqn:E5; [found_marker E5|].
  destruct (contains (py "ebay.") (lower host)) eqn:E6; [found_marker E6|].
  destruct (contains (py "redbubble.") (lower host)) eqn:E7; [found_marker E7|].
  destruct (contains (py "snapdeal.") (lower host)) eqn:E8; [found_marker E8|].
  destruct (contains (py "shopsy.") (lower host)) eqn:E9; [found_marker E9|].
  destruct (contains (py "nykaa.") (lower host)) eqn:E10; [found_marker E10|].
  destruct (contains (py "tatacliq.") (lower host)) eqn:E11; [found_marker E11|].
  destruct (contains (py "indiamart.") (lower host)) eqn:E12; [found_marker E12|].
  destruct (contains (py "walmart.") (lower host)) eqn:E13; [found_marker E13|].
  repeat split; try (cbn; tauto); try discriminate.
  intros _ m Hm. unfold markers in Hm. cbn [In] in Hm.
  intuition (subst; assumption).
Qed.

(** X2.  The extractor class chosen for a host can be instantiated exactly
    when the lowered host contains "amazon."; for every other host the call
    raises [TypeError]. *)
Theorem only_amazon_hosts_get_an_extractor :
  forall (lower : pystr -> pystr) (host : pystr),
    let cls := Registry.get_extractor (detect_platform lower host) in
    (Registry.instantiate cls = Ok cls
       <-> contains (py "amazon.") (lower host) = true)
    /\ (Registry.instantiate cls = Raise TypeError
          <-> contains (py "amazon.") (lower host) = false).
Proof.
  intros lower host. cbv zeta. unfold detect_platform. cbv zeta.
  destruct (contains (py "amazon.") (lower host));
    [split; split; intros; try reflexivity; discriminate|].
  repeat (match goal with
          | |- context [if contains ?m ?h then _ else _] =>
              destruct (contains m h)
          end;
          [split; split; intros; try reflexivity; discriminate|]).
  split; split; intros; try reflexivity; discriminate.
Qed.

End PlatformFacts.

(** ** Configuration and the shape of the start URL *)

Module ConfigFacts.
Import Config.
Local Open Scope string_scope.
Local Open Scope list_scope.

Lemma first_provider_skip pre ps :
  Forall no_key pre -> first_provider (pre ++ ps) = first_provider ps.
Proof.
  induction 1 as [|p pre Hp _ IH]; [reflexivity|].
  cbn [app first_provider]. unfold no_key in Hp. now rewrite Hp.
Qed.

Lemma first_provider_split ps :
  Forall no_key ps
  \/ exists pre p post, ps = pre ++ p :: post /\ Forall no_key pre
                        /\ truthy (api_key p) = true.
Proof.
  induction ps as [|p ps IH]; [left; constructor|].
  destruct (truthy (api_key p)) eqn:E.
  - right. exists [], p, ps. repeat split; [constructor | exact E].
  - destruct IH as [IH|(pre & q & post & -> & Hpre & Hq)].
    + left. now constructor.
    + right. exists (p :: pre), q, post. repeat split; [|exact Hq].
      now constructor.
Qed.

Lemma first_provider_head p post :
  truthy (api_key p) = true ->
  first_provider (p :: post)
  = match model p with
    | Some m => if nonempty m then inr (p_name p, m)
                else inl (ModelMissing (p_name p))
    | None => inl (ModelMissing (p_name p))
    end.
Proof. intros H. cbn [first_provider]. now rewrite H. Qed.

Lemma first_provider_none ps :
  Forall no_key ps -> first_provider ps = inl NoApiKey.
Proof.
  intros H. rewrite <- (app_nil_r ps). now rewrite first_provider_skip.
Qed.

(** X3.  [detect_llm_provider] looks only at the first provider, in the
    order OpenAI, Anthropic, Google, Groq, whose API key is set: it returns
    that provider with its model when the model is set, and raises when the
    model is missing, even if a later provider is fully configured.  It
    raises the other error exactly when no API key is set at all. *)
Theorem detect_llm_provider_first_key :
  forall (getenv : string -> option pystr),
    (forall name m,
        detect_llm_provider getenv = inr (name, m) <->
        exists pre p post,
          providers_of getenv = pre ++ p :: post /\ Forall no_key pre
          /\ truthy (api_key p) = true /\ model p = Some m /\ m <> []
          /\ name = p_name p)
    /\ (forall name,
           detect_llm_provider getenv = inl (ModelMissing name) <->
           exists pre p post,
             providers_of getenv = pre ++ p :: post /\ Forall no_key pre
             /\ truthy (api_key p) = true /\ truthy (model p) = false
             /\ name = p_name p)
    /\ (detect_llm_provider getenv = inl NoApiKey <->
        Forall no_key (providers_of getenv)).
Proof.
  intros getenv.
  change (detect_llm_provider getenv) with (first_provider (providers_of getenv)).
  generalize (providers_of getenv). intros ps.
  assert (U : forall pre p post pre' p' post',
             pre ++ p :: post = pre' ++ p' :: post' ->
             Forall no_key pre -> truthy (api_key p) = true ->
             Forall no_key pre' -> truthy (api_key p') = true ->
             p = p').
  { induction pre as [|a pre IH]; intros p post pre' p' post' E Hpre Hp Hpre' Hp'.
    - destruct pre' as [|b pre']; cbn in E; injection E as -> _; [reflexivity|].
      inversion Hpre' as [|? ? Hb _]; subst. unfold no_key in Hb. congruence.
    - destruct pre' as [|b pre']; cbn in E; injection E as <- E.
      + inversion Hpre as [|? ? Ha _]; subst. unfold no_key in Ha. congruence.
      + inversion Hpre; inversion Hpre'; subst. eapply IH; eauto. }
  destruct (first_provider_split ps) as [Hnone|(pre & p & post & -> & Hpre & Hp)].
  - rewrite (first_provider_none ps Hnone).
    split; [|split].
    + intros name m. split; [discriminate|].
      intros (pre & p & post & -> & _ & Hp & _).
      apply Forall_app in Hnone. destruct Hnone as [_ H].
      inversion H as [|? ? Hq _]; subst. unfold no_key in Hq. congruence.
    + intros name. split; [discriminate|].
      intros (pre & p & post & -> & _ & Hp & _).
      apply Forall_app in Hnone. destruct Hnone as [_ H].
      inversion H as [|? ? Hq _]; subst. unfold no_key in Hq. congruence.
    + tauto.
  - rewrite (first_provider_skip pre (p :: post) Hpre).
    rewrite (first_provider_head p post Hp).
    split; [|split].
    + intros name m. split.
      * destruct (model p) as [m0|] eqn:Em; [|discriminate].
        destruct (nonempty m0) eqn:En; [|discriminate].
        intros [= <- <-]. exists pre, p, post.
        repeat split; auto. now apply nonempty_true.
      * intros (pre' & p' & post' & E & Hpre' & Hp' & Hm & Hne & ->).
        rewrite (U _ _ _ _ _ _ E Hpre Hp Hpre' Hp'), Hm.
        apply nonempty_true in Hne. now rewrite Hne.
    + intros name. split.
      * intros H. exists pre, p, post. repeat split; auto.
        -- destruct (model p) as [m0|]; [|reflexivity].
           cbn [truthy]. destruct (nonempty m0); [discriminate | reflexivity].
        -- destruct (model p) as [m0|]; [destruct (nonempty m0)|];
             congruence.
      * intros (pre' & p' & post' & E & Hpre' & Hp' & Hm & ->).
        rewrite (U _ _ _ _ _ _ E Hpre Hp Hpre' Hp').
        destruct (model p') as [m0|]; [|reflexivity].
        cbn [truthy] in Hm. now rewrite Hm.
    + split;
        [destruct (model p) as [m0|]; [destruct (nonempty m0)|]; discriminate|].
      intros H. apply Forall_app in H. destruct H as [_ H].
      inversion H as [|? ? Hq _]; subst. unfold no_key in Hq. congruence.
Qed.

(** *** The shape of the start URL *)

Lemma split_on_length sep s :
  List.length (Whitelist.split_on sep s) = S (count_occ N.eq_dec s sep).
Proof.
  induction s as [|c r IH]; [reflexivity|].
  cbn [Whitelist.split_on count_occ].
  destruct (N.eqb_spec c sep) as [->|Hne].
  - destruct (N.eq_dec sep sep); [|congruence]. cbn [List.length]. now rewrite IH.
  - destruct (N.eq_dec c sep); [congruence|].
    destruct (Whitelist.split_on sep r); cbn [List.length] in *; lia.
Qed.

(** X4.  For a platform without a rule of its own, the generic one
    included, a start URL counts as a single product exactly when it has at
    least six slashes and its lowered text contains one of the seven
    keywords; with fewer than six slashes it is always taken for a listing
    page. *)
Theorem is_single_product_url_needs_six_slashes :
  forall (lower : pystr -> pystr) (url : pystr) (platform : string),
    has_own_rule platform = false ->
    (is_single_product_url lower url platform = true <->
       6 <= count_occ N.eq_dec url 47%N
       /\ exists kw, In kw product_keywords
                     /\ contains kw (lower url) = true)
    /\ (count_occ N.eq_dec url 47%N < 6 ->
        is_single_product_url lower url platform = false).
Proof.
  intros lower url platform H. unfold has_own_rule in H. cbn [existsb] in H.
  repeat (apply orb_false_elim in H; destruct H as [? H]).
  unfold is_single_product_url.
  repeat match goal with E : String.eqb _ _ = false |- _ => rewrite E; clear E end.
  rewrite split_on_length. split.
  - rewrite andb_true_iff, Nat.ltb_lt. unfold any_in.
    rewrite existsb_exists. split; intros [H1 H2]; (split; [lia | exact H2]).
  - intros Hlt. apply andb_false_intro1. apply Nat.ltb_ge. lia.
Qed.

(** A product address of an unknown shop with four slashes: a listing
    page. *)
Lemma is_single_product_url_needs_six_slashes_witness :
  is_single_product_url ascii_lower (py "https://shop.example/product/123")
                        "generic" = false.
Proof.
  apply (is_single_product_url_needs_six_slashes ascii_lower
           (py "https://shop.example/product/123") "generic" eq_refl).
  vm_compute. lia.
Defined.

End ConfigFacts.

(** ** Cleaning steps of the extractors *)

Module CleaningFacts.
Import Base.

Lemma startswith_app p : forall a t,
  startswith p a = true -> startswith p (a ++ t) = true.
Proof.
  induction p as [|x p IH]; intros [|y a] t; cbn [startswith app];
    try reflexivity; try discriminate.
  intros H. apply andb_true_iff in H. destruct H as [H1 H2].
  now rewrite H1, (IH a t H2).
Qed.

Lemma startswith_nil_r p : startswith p [] = true -> p = [].
Proof. destruct p; [reflexivity | discriminate]. Qed.

Lemma contains_app_l p a t :
  contains p a = true -> contains p (a ++ t) = true.
Proof.
  induction a as [|y a IH]; cbn [contains app].
  - rewrite orb_false_r. intros H. apply startswith_nil_r in H. subst p.
    destruct t; reflexivity.
  - intros H. apply orb_true_iff in H. destruct H as [H|H].
    + change (y :: a ++ t) with ((y :: a) ++ t).
      now rewrite (startswith_app p (y :: a) t H).
    + rewrite (IH H). apply orb_true_r.
Qed.

Lemma contains_app_r p a t :
  contains p t = true -> contains p (a ++ t) = true.
Proof.
  intros H. induction a as [|y a IH]; [exact H|].
  cbn [contains app]. rewrite IH. apply orb_true_r.
Qed.

Lemma rstrip_by_prefix sp s : exists t, s = rstrip_by sp s ++ t.
Proof.
  induction s as [|c r [t IH]]; [now exists []|].
  cbn [rstrip_by]. destruct (rstrip_by sp r) as [|d r'] eqn:E.
  - destruct (sp c); [now exists (c :: r)|].
    exists r. reflexivity.
  - exists t. cbn [app] in *. congruence.
Qed.

Lemma lstrip_by_suffix sp s : exists a, s = a ++ lstrip_by sp s.
Proof.
  induction s as [|c r [a IH]]; [now exists []|].
  cbn [lstrip_by]. destruct (sp c); [|now exists []].
  exists (c :: a). cbn [app]. now rewrite <- IH.
Qed.

Lemma before_prefix sep s : exists t, s = before sep s ++ t.
Proof.
  induction s as [|c r [t IH]]; cbn [before].
  - destruct (startswith sep []); now exists [].
  - destruct (startswith sep (c :: r)); [now exists (c :: r)|].
    exists t. cbn [app]. now rewrite <- IH.
Qed.

Lemma contains_strip_by sp p s :
  contains p (strip_by sp s) = true -> contains p s = true.
Proof.
  unfold strip_by. intros H.
  destruct (rstrip_by_prefix sp (lstrip_by sp s)) as [t Et].
  destruct (lstrip_by_suffix sp s) as [a Ea].
  rewrite Ea. apply contains_app_r. rewrite Et. now apply contains_app_l.
Qed.

Lemma contains_before p sep s :
  contains p (before sep s) = true -> contains p s = true.
Proof.
  intros H. destruct (before_prefix sep s) as [t Et].
  rewrite Et. now apply contains_app_l.
Qed.

Lemma before_not_contains sep s :
  sep <> [] -> contains sep (before sep s) = false.
Proof.
  intros Hne. induction s as [|c r IH]; cbn [before].
  - destruct sep; [congruence | reflexivity].
  - destruct (startswith sep (c :: r)) eqn:E.
    + destruct sep; [congruence | reflexivity].
    + cbn [contains]. rewrite IH, orb_false_r.
      destruct (startswith sep (c :: before sep r)) eqn:E'; [|reflexivity].
      destruct (before_prefix sep r) as [t Et].
      apply (startswith_app sep (c :: before sep r) t) in E'.
      cbn [app] in E'. rewrite <- Et in E'. congruence.
Qed.

(** One cutting step of the manufacturer cleaning:
    [m.split(sep)[0].strip()]. *)
Lemma cut_keeps_absent p sep m :
  contains p (strip (before sep m)) = true -> contains p m = true.
Proof.
  intros H. apply contains_strip_by in H. now apply contains_before in H.
Qed.

Lemma cut_removes sep m :
  sep <> [] -> contains sep (strip (before sep m)) = false.
Proof.
  intros Hne. destruct (contains sep (strip (before sep m))) eqn:E;
    [|reflexivity].
  apply contains_strip_by in E. now rewrite before_not_contains in E.
Qed.

(** X5.  The manufacturer name the Amazon extractor keeps has no white
    space at either end and contains none of the markers at which the
    cleaning cuts: "Packer", "Seller", "Imported by", "Brand:" and
    "Manufacturer:". *)
Theorem clean_manufacturer_has_no_marker :
  forall (manufacturer : pystr),
    let m := Amazon.clean_manufacturer manufacturer in
    strip m = m
    /\ forall marker,
         In marker [py "Packer"; py "Seller"; py "Imported by"; py "Brand:";
                    py "Manufacturer:"] ->
         contains marker m = false.
Proof.
  intros manufacturer. cbv zeta. unfold Amazon.clean_manufacturer. cbv zeta.
  set (m0 := strip (strip_by (N.eqb 58)
                             (strip (Amazon.drop_label manufacturer)))).
  set (m1 := strip (before (py "Packer") m0)).
  set (m2 := strip (before (py "Seller") m1)).
  set (m3 := strip (before (py "Imported by") m2)).
  set (m4 := strip (before (py "Brand:") m3)).
  split; [apply strip_idem|].
  assert (N1 : contains (py "Packer") m1 = false)
    by (apply cut_removes; discriminate).
  assert (N2 : contains (py "Seller") m2 = false)
    by (apply cut_removes; discriminate).
  assert (N3 : contains (py "Imported by") m3 = false)
    by (apply cut_removes; discriminate).
  assert (N4 : contains (py "Brand:") m4 = false)
    by (apply cut_removes; discriminate).
  assert (K : forall p x sep, contains p x = false ->
                              contains p (strip (before sep x)) = false).
  { intros p x sep Hx.
    destruct (contains p (strip (before sep x))) eqn:E; [|reflexivity].
    apply cut_keeps_absent in E. congruence. }
  intros marker Hm. cbn [In] in Hm.
  destruct Hm as [<-|[<-|[<-|[<-|[<-|[]]]]]].
  - apply K. fold m4. apply K. fold m3. apply K. fold m2. now apply K.
  - apply K. fold m4. apply K. fold m3. now apply K.
  - apply K. fold m4. now apply K.
  - now apply K.
  - apply cut_removes. discriminate.
Qed.

Lemma filter_idem {A : Type} (f : A -> bool) l :
  filter f (filter f l) = filter f l.
Proof.
  induction l as [|a l IH]; [reflexivity|].
  cbn [filter]. destruct (f a) eqn:E; [|exact IH].
  cbn [filter]. now rewrite E, IH.
Qed.

(** X6.  The price cleaning of the Amazon extractor changes nothing when
    applied to a price it has already cleaned, whatever the digit class. *)
Theorem clean_price_idempotent :
  forall (is_digit : N -> bool) (price : pystr),
    Amazon.clean_price is_digit (Amazon.clean_price is_digit price)
    = Amazon.clean_price is_digit price.
Proof.
  intros is_digit price. unfold Amazon.clean_price. cbv zeta.
  change (filter (fun c => Amazon.keep_price_char is_digit c))
    with (filter (Amazon.keep_price_char is_digit)).
  set (kept := filter (Amazon.keep_price_char is_digit) price).
  assert (Hk : filter (Amazon.keep_price_char is_digit) kept = kept)
    by apply filter_idem.
  destruct (negb (existsb (N.eqb rupee) kept)
            && negb (startswith (py "$") kept)) eqn:C.
  - cbn [filter].
    assert (Hr : Amazon.keep_price_char is_digit rupee = true).
    { unfold Amazon.keep_price_char. rewrite N.eqb_refl. apply orb_true_r. }
    rewrite Hr, Hk. cbn [existsb]. rewrite N.eqb_refl. reflexivity.
  - rewrite Hk, C. reflexivity.
Qed.

(** *** Image addresses *)

Lemma startswith_rstrip p : forall s,
  forallb (fun c => negb (is_space c)) p = true ->
  startswith p s = true ->
  startswith p (rstrip_by is_space s) = true.
Proof.
  induction p as [|a p IH]; intros s Hp Hs; [reflexivity|].
  destruct s as [|b s]; [discriminate|].
  cbn [startswith] in Hs. apply andb_true_iff in Hs. destruct Hs as [Hab Hs].
  apply N.eqb_eq in Hab. subst b.
  cbn [forallb] in Hp. apply andb_true_iff in Hp. destruct Hp as [Ha Hp].
  specialize (IH s Hp Hs). cbn [rstrip_by].
  destruct (rstrip_by is_space s) as [|d r'].
  - apply startswith_nil_r in IH. subst p.
    apply negb_true_iff in Ha. rewrite Ha. cbn. now rewrite N.eqb_refl.
  - cbn [startswith]. now rewrite N.eqb_refl, IH.
Qed.

Lemma startswith_strip p s :
  p <> [] ->
  forallb (fun c => negb (is_space c)) p = true ->
  startswith p s = true -> startswith p (strip s) = true.
Proof.
  intros Hne Hp Hs. unfold strip, strip_by.
  assert (L : lstrip_by is_space s = s).
  { destruct p as [|a p]; [congruence|]. destruct s as [|b s]; [discriminate|].
    cbn [startswith] in Hs. apply andb_true_iff in Hs. destruct Hs as [Hab _].
    apply N.eqb_eq in Hab. subst b.
    cbn [forallb] in Hp. apply andb_true_iff in Hp. destruct Hp as [Ha _].
    apply negb_true_iff in Ha. cbn [lstrip_by]. now rewrite Ha. }
  rewrite L. now apply startswith_rstrip.
Qed.

Lemma usable_image_shape v u :
  usable_image v = Some u ->
  startswith (py "http") u = true /\ strip u = u /\ u <> []
  /\ startswith (py "//") u = false.
Proof.
  unfold usable_image. destruct v as [u0|]; [|discriminate].
  destruct (nonempty u0 && nonempty (strip u0) && http_like u0) eqn:C;
    [|discriminate].
  intros [= <-].
  apply andb_true_iff in C. destruct C as [_ Hh]. unfold http_like in Hh.
  assert (S : startswith (py "http")
                (strip (if startswith (py "//") u0 then py "https:" ++ u0
                        else u0)) = true).
  { apply startswith_strip; [discriminate | reflexivity |].
    destruct (startswith (py "//") u0) eqn:E; [reflexivity|].
    now rewrite orb_false_r in Hh. }
  split; [exact S|]. split; [apply strip_idem|].
  destruct (strip _) as [|c r] eqn:E; [discriminate S|].
  split; [discriminate|].
  change (py "http") with [104; 116; 116; 112]%N in S.
  cbn [startswith] in S. apply andb_true_iff in S. destruct S as [S _].
  apply N.eqb_eq in S. subst c. reflexivity.
Qed.

(** X7.  An image address returned by [get_image_url], from the og:image
    meta tag or from a selector, starts with "http", is never
    protocol-relative, and has no white space at either end; the image
    address of [extract_common_data] is such an address or empty. *)
Theorem get_image_url_is_absolute :
  forall (page : Page) (selectors : list pystr) (use_og_meta : bool)
         (u : pystr),
    (get_image_url page selectors use_og_meta = Some u ->
     startswith (py "http") u = true /\ strip u = u /\ u <> []
     /\ startswith (py "//") u = false)
    /\ (c_image_url (extract_common_data page) = Some u ->
        u = [] \/ startswith (py "http") u = true).
Proof.
  intros page selectors use_og_meta u.
  assert (S : forall sels, image_of_selectors page sels = Some u ->
              startswith (py "http") u = true /\ strip u = u /\ u <> []
              /\ startswith (py "//") u = false).
  { induction sels as [|sel rest IH]; [discriminate|].
    cbn [image_of_selectors].
    destruct (image_of_selector page sel) as [x|] eqn:E; [|exact IH].
    intros [= ->]. unfold image_of_selector in E.
    destruct (count page sel) as [n|]; [|discriminate].
    destruct (0 <? n); [|discriminate].
    destruct (get_attribute page sel (py "src")) as [a1|]; [|discriminate].
    destruct (if truthy a1 then Ok a1
              else get_attribute page sel (py "data-src")) as [a2|];
      [|discriminate].
    destruct (if truthy a2 then Ok a2
              else get_attribute page sel (py "data-lazy-src")) as [a3|];
      [|discriminate].
    now apply usable_image_shape in E. }
  assert (G : forall sels og, get_image_url page sels og = Some u ->
              startswith (py "http") u = true /\ strip u = u /\ u <> []
              /\ startswith (py "//") u = false).
  { intros sels og. unfold get_image_url. cbv zeta.
    destruct og.
    - destruct (og_image page) as [v|]; [|apply S].
      destruct (usable_image v) as [x|] eqn:E; [|apply S].
      intros [= ->]. now apply usable_image_shape in E.
    - apply S. }
  split; [apply G|].
  unfold extract_common_data. cbn [c_image_url]. unfold or_empty, py_or.
  destruct (get_image_url page _ true) as [x|] eqn:E.
  - cbn [truthy]. destruct (nonempty x) eqn:Ex.
    + intros [= ->]. right. now apply G in E.
    + intros [= <-]. now left.
  - cbn [truthy]. intros [= <-]. now left.
Qed.

(** An og:image address that is protocol-relative and ends in a blank. *)
Lemma get_image_url_is_absolute_witness :
  get_image_url MoreSamples.page_with_og_image [] true
    = Some (py "https://cdn.example/img/1.jpg")
  /\ startswith (py "http") (py "https://cdn.example/img/1.jpg") = true.
Proof.
  split; [reflexivity|].
  apply (get_image_url_is_absolute MoreSamples.page_with_og_image [] true
           (py "https://cdn.example/img/1.jpg")).
  reflexivity.
Defined.

(** X24.  The Generic extractor reports a manufacturer whenever it finds
    a seller: the manufacturer is then the one found, or else the seller.
    Its title is [None] only when no title selector found a text and
    reading the page title raised. *)
Theorem generic_manufacturer_falls_back_on_seller :
  forall (page : Page),
    let g := Generic.extract_product_data page in
    (truthy (seller_name g) = true -> truthy (manufacturer_name g) = true)
    /\ (truthy (manufacturer_name g) = false ->
        manufacturer_name g = None /\ seller_name g = None)
    /\ (title g = None ->
        first_text page Generic.title_selectors = None
        /\ first_text page Generic.schema_title_selectors = None
        /\ exists e, page_title page = Raise e).
Proof.
  intros page. cbv zeta. unfold Generic.extract_product_data.
  cbn [seller_name manufacturer_name title].
  assert (R : forall a b : option pystr,
             (forall r, a = Some r -> truthy (Some r) = true) ->
             (forall r, b = Some r -> truthy (Some r) = true) ->
             forall r, (if negb (truthy a) then b else a) = Some r ->
                       truthy (Some r) = true).
  { intros a b Ha Hb r. destruct a as [x|].
    - rewrite (Ha x eq_refl). cbn [negb]. apply Ha.
    - cbn [truthy negb]. apply Hb. }
  set (seller := if negb (truthy (first_text page Generic.seller_selectors))
                 then text_by_xpath page Generic.seller_xpaths
                 else first_text page Generic.seller_selectors).
  set (manu := if negb (truthy (first_text page Generic.manufacturer_selectors))
               then text_by_xpath page Generic.manufacturer_xpaths
               else first_text page Generic.manufacturer_selectors).
  assert (Hs : forall r, seller = Some r -> truthy (Some r) = true).
  { apply R; intros r; [apply ExtractFacts.first_text_truthy
                       | apply ExtractFacts.text_by_xpath_truthy]. }
  assert (Hm : forall r, manu = Some r -> truthy (Some r) = true).
  { apply R; intros r; [apply ExtractFacts.first_text_truthy
                       | apply ExtractFacts.text_by_xpath_truthy]. }
  split; [|split].
  - intros H. destruct (truthy manu) eqn:E; cbn [negb andb]; [exact E|].
    now rewrite H.
  - destruct (truthy manu) eqn:E; cbn [negb andb]; [congruence|].
    destruct (truthy seller) eqn:E'; [congruence|]. intros _.
    destruct manu as [m|]; [now rewrite (Hm m eq_refl) in E|].
    destruct seller as [s|]; [now rewrite (Hs s eq_refl) in E'|]. now split.
  - destruct (first_text page Generic.title_selectors) as [t|] eqn:E1.
    + rewrite (ExtractFacts.first_text_truthy _ _ _ E1). cbn [negb].
      rewrite (ExtractFacts.first_text_truthy _ _ _ E1). discriminate.
    + cbn [truthy negb].
      destruct (first_text page Generic.schema_title_selectors) as [t|] eqn:E2.
      * rewrite (ExtractFacts.first_text_truthy _ _ _ E2). discriminate.
      * cbn [truthy negb]. destruct (page_title page) as [t|e];
          [discriminate|]. intros _. repeat split. now exists e.
Qed.

End CleaningFacts.

(** ** More on the allow-list *)

Module AllowListFacts.
Import Whitelist.

Lemma whitelisted_is_not_false : py "Whitelisted" <> py "False".
Proof. discriminate. Qed.

Section Classifier.
Variable lower : pystr -> pystr.

Lemma check_option_iff L a b :
  check_whitelisted_seller lower L a b = py "Whitelisted" <->
  exists name w, In name (names_to_check a b) /\ name <> [] /\ In w L
                 /\ either_contains (lower name) (lower w).
Proof.
  unfold check_whitelisted_seller. destruct L as [|w0 L'].
  - split; [discriminate | intros (? & ? & _ & _ & [] & _)].
  - apply WhitelistFacts.check_names_whitelisted.
Qed.

Lemma check_option_two_valued L a b :
  check_whitelisted_seller lower L a b = py "Whitelisted"
  \/ check_whitelisted_seller lower L a b = py "False".
Proof.
  unfold check_whitelisted_seller. destruct L; [now right|].
  apply WhitelistFacts.check_names_two_valued.
Qed.

Lemma names_to_check_swap a b name :
  In name (names_to_check a b) <-> In name (names_to_check b a).
Proof. unfold names_to_check. rewrite !in_app_iff. tauto. Qed.

(** X8.  The answer of [check_whitelisted_seller] is always "Whitelisted"
    or "False", also for names that are [None]; it is the same when seller
    and manufacturer are exchanged; adding entries to the allow-list never
    turns "Whitelisted" into "False"; and without a name that is neither
    [None] nor empty the answer is "False". *)
Theorem check_whitelisted_seller_laws :
  forall (L L' : list pystr) (a b : option pystr),
    (check_whitelisted_seller lower L a b = py "Whitelisted"
     \/ check_whitelisted_seller lower L a b = py "False")
    /\ check_whitelisted_seller lower L a b
       = check_whitelisted_seller lower L b a
    /\ (incl L L' ->
        check_whitelisted_seller lower L a b = py "Whitelisted" ->
        check_whitelisted_seller lower L' a b = py "Whitelisted")
    /\ (truthy a = false -> truthy b = false ->
        check_whitelisted_seller lower L a b = py "False").
Proof.
  intros L L' a b. split; [apply check_option_two_valued|].
  split; [|split].
  - assert (E : check_whitelisted_seller lower L a b = py "Whitelisted" <->
                check_whitelisted_seller lower L b a = py "Whitelisted").
    { rewrite !check_option_iff. split; intros (name & w & Hn & H);
        exists name, w; (split; [now apply names_to_check_swap | exact H]). }
    destruct (check_option_two_valued L a b) as [H1|H1],
             (check_option_two_valued L b a) as [H2|H2];
      try congruence.
    + apply E in H1. pose proof whitelisted_is_not_false. congruence.
    + apply E in H2. pose proof whitelisted_is_not_false. congruence.
  - intros Hincl. rewrite !check_option_iff.
    intros (name & w & Hn & Hne & Hw & Hm).
    exists name, w. repeat split; auto.
  - intros Ha Hb.
    destruct (check_option_two_valued L a b) as [H|H]; [|exact H].
    apply check_option_iff in H. destruct H as (name & w & Hn & _).
    unfold names_to_check in Hn.
    destruct a as [s|], b as [m|]; cbn [truthy] in Ha, Hb;
      try rewrite Ha in Hn; try rewrite Hb in Hn; destruct Hn.
Qed.

End Classifier.

(** *** The loader *)

Lemma split_on_no_sep sep s w :
  In w (split_on sep s) -> ~ In sep w.
Proof.
  revert w. induction s as [|c r IH]; intros w; cbn [split_on].
  - intros [<-|[]] [].
  - destruct (N.eqb_spec c sep) as [->|Hne].
    + intros [<-|H]; [intros [] | now apply IH].
    + destruct (split_on sep r) as [|x xs] eqn:E.
      * intros [<-|[]] [H|[]]. congruence.
      * intros [<-|H].
        -- intros [H|H]; [congruence|]. apply (IH x); [now left | exact H].
        -- apply IH. now right.
Qed.

Lemma split_on_app sep w t :
  ~ In sep w -> split_on sep (w ++ sep :: t) = w :: split_on sep t.
Proof.
  induction w as [|c w IH]; intros Hn.
  - cbn [app split_on]. now rewrite N.eqb_refl.
  - cbn [app split_on]. destruct (N.eqb_spec c sep) as [->|Hne].
    + exfalso. apply Hn. now left.
    + rewrite IH; [reflexivity|]. intro H. apply Hn. now right.
Qed.

Lemma split_on_single sep w :
  ~ In sep w -> split_on sep w = [w].
Proof.
  induction w as [|c w IH]; intros Hn; [reflexivity|].
  cbn [split_on]. destruct (N.eqb_spec c sep) as [->|Hne].
  - exfalso. apply Hn. now left.
  - rewrite IH; [reflexivity|]. intro H. apply Hn. now right.
Qed.

Lemma split_on_join sep L :
  L <> [] -> (forall w, In w L -> ~ In sep w) ->
  split_on sep (join [sep] L) = L.
Proof.
  induction L as [|w rest IH]; intros Hne Hall; [congruence|].
  destruct rest as [|w' rest'].
  - cbn [join]. apply split_on_single. apply Hall. now left.
  - change (join [sep] (w :: w' :: rest'))
      with (w ++ sep :: join [sep] (w' :: rest')).
    rewrite split_on_app by (apply Hall; now left).
    rewrite IH; [reflexivity | discriminate |].
    intros x Hx. apply Hall. now right.
Qed.

Lemma strip_incl s c : In c (strip s) -> In c s.
Proof.
  unfold strip, strip_by. intros H.
  destruct (CleaningFacts.rstrip_by_prefix is_space (lstrip_by is_space s))
    as [t Et].
  destruct (CleaningFacts.lstrip_by_suffix is_space s) as [a Ea].
  rewrite Ea. apply in_or_app. right. rewrite Et. apply in_or_app. now left.
Qed.

(** X9.  Every entry [load_whitelisted_sellers] returns is non-empty, has
    no white space at either end and contains no comma, and an unset or
    empty setting gives the empty list. *)
Theorem load_whitelisted_sellers_entries :
  forall (raw w : pystr),
    load_whitelisted_sellers [] = []
    /\ (In w (load_whitelisted_sellers raw) ->
        w <> [] /\ strip w = w /\ ~ In 44%N w).
Proof.
  intros raw w. split; [reflexivity|].
  unfold load_whitelisted_sellers. destruct (nonempty raw); [|intros []].
  rewrite in_map_iff. intros (x & <- & Hx).
  apply filter_In in Hx. destruct Hx as [Hin Hne].
  split; [now apply nonempty_true|]. split; [apply strip_idem|].
  intros Hc. apply strip_incl in Hc.
  now apply (split_on_no_sep 44%N raw x Hin).
Qed.

(** X10.  A list of names written with commas between them is read back
    as it was, provided the list is not empty and each name is non-empty,
    without white space at its ends and without a comma. *)
Theorem load_whitelisted_sellers_round_trip :
  forall (L : list pystr),
    L <> [] ->
    (forall w, In w L -> w <> [] /\ strip w = w /\ ~ In 44%N w) ->
    load_whitelisted_sellers (join [44%N] L) = L.
Proof.
  intros L Hne Hall. unfold load_whitelisted_sellers.
  assert (J : nonempty (join [44%N] L) = true).
  { destruct L as [|w rest]; [congruence|].
    destruct (Hall w (or_introl eq_refl)) as [Hw _].
    destruct w as [|c w]; [congruence|].
    destruct rest; reflexivity. }
  rewrite J. rewrite split_on_join; [|exact Hne | intros w Hw; now apply Hall].
  assert (F : filter (fun seller => nonempty (strip seller)) L = L).
  { clear Hne J. induction L as [|w rest IH]; [reflexivity|].
    cbn [filter]. destruct (Hall w (or_introl eq_refl)) as (Hw & Hs & _).
    rewrite Hs. apply nonempty_true in Hw. rewrite Hw. f_equal.
    apply IH. intros x Hx. apply Hall. now right. }
  rewrite F. rewrite <- (map_id L) at 2. apply map_ext_in.
  intros x Hx. now apply Hall.
Qed.

(** Two names. *)
Lemma load_whitelisted_sellers_round_trip_witness :
  load_whitelisted_sellers (py "Acme Corp,Globex") = [py "Acme Corp"; py "Globex"].
Proof.
  apply (load_whitelisted_sellers_round_trip [py "Acme Corp"; py "Globex"]).
  - discriminate.
  - intros w [<-|[<-|[]]]; (split; [discriminate|]); (split; [reflexivity|]);
      vm_compute; intuition discriminate.
Defined.

End AllowListFacts.

(** ** Link discovery of the other extractors *)

Module ShopLinkFacts.
Import Base LinkSpec LinkFacts ShopLinks.

Lemma plain_loop_spec keep limit hs :
  forall urls seen,
    (Z.of_nat (List.length urls) < limit)%Z ->
    plain_loop keep limit hs urls seen
    = urls ++ firstn (Z.to_nat limit - List.length urls)
                (dedup_first seen (filter keep hs)).
Proof.
  induction hs as [|h rest IH]; intros urls seen Hlt.
  - simpl. rewrite firstn_nil. now rewrite app_nil_r.
  - cbn [plain_loop filter].
    destruct (keep h); cbn [andb]; [|now apply IH].
    cbn [dedup_first].
    destruct (mem h seen); cbn [negb]; [now apply IH|].
    cbv zeta. rewrite length_app. cbn [List.length].
    destruct (Z.leb_spec limit (Z.of_nat (List.length urls + 1))) as [Hge|Hlt'].
    + replace (Z.to_nat limit - List.length urls) with 1 by lia.
      reflexivity.
    + rewrite IH by (rewrite length_app; cbn [List.length]; lia).
      rewrite length_app. cbn [List.length].
      replace (Z.to_nat limit - List.length urls)
        with (S (Z.to_nat limit - (List.length urls + 1))) by lia.
      cbn [firstn]. now rewrite <- app_assoc.
Qed.

(** X11.  For a limit of at least one, the link discovery of the Flipkart,
    eBay, Redbubble, Snapdeal, Shopsy and Meesho extractors returns the
    first [limit] distinct links of the document that pass the test of the
    extractor, in document order: no link twice, at most [limit] links, and
    each of them an anchor of the page that passes the test. *)
Theorem plain_links_first_distinct :
  forall (keep : pystr -> bool) (page : Page) (hs : list pystr) (limit : Z),
    hrefs page = Ok hs ->
    (1 <= limit)%Z ->
    exists urls,
      plain_links keep page limit = Ok urls
      /\ urls = firstn (Z.to_nat limit) (dedup_first [] (filter keep hs))
      /\ NoDup urls
      /\ (Z.of_nat (List.length urls) <= limit)%Z
      /\ forall u, In u urls -> In u hs /\ keep u = true.
Proof.
  intros keep page hs limit Hh Hl. unfold plain_links. rewrite Hh.
  eexists. split; [reflexivity|].
  rewrite plain_loop_spec by (simpl; lia).
  cbn [app List.length]. rewrite Nat.sub_0_r.
  split; [reflexivity|]. split; [|split].
  - apply firstn_NoDup. apply dedup_first_sound.
  - pose proof (firstn_le_length (Z.to_nat limit)
                  (dedup_first [] (filter keep hs))). lia.
  - intros u Hu. apply firstn_In_inv in Hu.
    apply dedup_first_sound in Hu. destruct Hu as [_ Hu].
    now apply filter_In in Hu.
Qed.

(** A Meesho listing with one product shown twice and a link to another
    shop. *)
Lemma plain_links_first_distinct_witness :
  meesho_get_product_links
    (page_with_links [py "https://www.meesho.com/shirt/p/1";
                      py "https://www.meesho.com/shirt/p/1";
                      py "https://other.example/p/2"]) 50
  = Ok [py "https://www.meesho.com/shirt/p/1"].
Proof.
  destruct (plain_links_first_distinct meesho_link
              (page_with_links [py "https://www.meesho.com/shirt/p/1";
                                py "https://www.meesho.com/shirt/p/1";
                                py "https://other.example/p/2"])
              _ 50%Z eq_refl ltac:(lia)) as (urls & Hget & -> & _).
  exact Hget.
Defined.

(** *** The extractors that cut off query string and fragment *)

Lemma cleaning_loop_spec keep limit hs :
  forall urls seen,
    cleaned seen ->
    (Z.of_nat (List.length urls) < limit)%Z ->
    cleaning_loop keep limit hs urls seen
    = urls ++ firstn (Z.to_nat limit - List.length urls)
                (dedup_first seen
                   (map strip_query_fragment
                        (filter (fun h => nonempty h && keep h) hs))).
Proof.
  induction hs as [|h rest IH]; intros urls seen Hc Hlt.
  - simpl. rewrite firstn_nil. now rewrite app_nil_r.
  - cbn [cleaning_loop filter].
    destruct (nonempty h) eqn:En; cbn [negb orb andb]; [|now apply IH].
    destruct (mem h seen) eqn:Em.
    + destruct (keep h); [|now apply IH].
      cbn [map dedup_first].
      apply mem_In in Em. rewrite (Hc h Em).
      apply mem_In in Em. rewrite Em. now apply IH.
    + destruct (keep h); [|now apply IH].
      cbv zeta. fold (strip_query_fragment h). cbn [map dedup_first].
      destruct (mem (strip_query_fragment h) seen) eqn:Ec; cbn [negb];
        [now apply IH|].
      rewrite length_app. cbn [List.length].
      destruct (Z.leb_spec limit (Z.of_nat (List.length urls + 1)))
        as [Hge|Hlt'].
      * replace (Z.to_nat limit - List.length urls) with 1 by lia.
        reflexivity.
      * rewrite IH.
        -- rewrite length_app. cbn [List.length].
           replace (Z.to_nat limit - List.length urls)
             with (S (Z.to_nat limit - (List.length urls + 1))) by lia.
           cbn [firstn]. now rewrite <- app_assoc.
        -- intros x [<-|Hx]; [apply strip_query_fragment_idem | now apply Hc].
        -- rewrite length_app. cbn [List.length]. lia.
Qed.

Lemma cleaning_loop_contract keep hs limit :
  (1 <= limit)%Z ->
  discover_links_contract (fun h => nonempty h && keep h) hs limit
                          (cleaning_loop keep limit hs [] []).
Proof.
  intros Hl. rewrite cleaning_loop_spec; [|intros x [] | simpl; lia].
  cbn [app List.length]. rewrite Nat.sub_0_r.
  set (all := dedup_first [] (map strip_query_fragment
                (filter (fun h => nonempty h && keep h) hs))).
  assert (Hfix : map strip_query_fragment (firstn (Z.to_nat limit) all)
                 = firstn (Z.to_nat limit) all).
  { rewrite <- (map_id (firstn (Z.to_nat limit) all)) at 2.
    apply map_ext_in. intros x Hx. apply firstn_In_inv in Hx.
    now apply dedup_first_fixed in Hx. }
  split; [|split].
  - rewrite Hfix. apply firstn_NoDup. apply dedup_first_sound.
  - pose proof (firstn_le_length (Z.to_nat limit) all). lia.
  - now exists (Z.to_nat limit).
Qed.

(** X12.  For a limit of at least one, the link discovery of the Tata CLiQ
    extractor and of the IndiaMART extractor, whatever patterns the latter
    is configured with, returns at most [limit] links, no two of them equal
    once query string and fragment are cut off, in the order in which the
    document first shows them: the pre-check [h in seen] on the uncut link
    never drops a link that the check on the cut link would keep. *)
Theorem cleaning_links_contract :
  forall (patterns : list pystr) (page : Page) (hs : list pystr) (limit : Z),
    hrefs page = Ok hs ->
    (1 <= limit)%Z ->
    (exists urls,
        tatacliq_get_product_links page limit = Ok urls
        /\ discover_links_contract
             (fun h => nonempty h && tatacliq_link h) hs limit urls)
    /\ (exists urls,
           indiamart_get_product_links patterns page limit = Ok urls
           /\ discover_links_contract
                (fun h => nonempty h && any_in patterns h) hs limit urls).
Proof.
  intros patterns page hs limit Hh Hl.
  unfold tatacliq_get_product_links, indiamart_get_product_links.
  rewrite Hh. split; eexists; (split; [reflexivity|]);
    now apply cleaning_loop_contract.
Qed.

(** One Tata CLiQ product under two tracking parameters and with a
    fragment, and a link of another site. *)
Lemma cleaning_links_contract_witness :
  tatacliq_get_product_links
    (page_with_links [py "https://www.tatacliq.com/shoe/p-mp1?src=a";
                      py "https://www.tatacliq.com/shoe/p-mp1?src=b#top";
                      py "https://www.tatacliq.com/shoe/p-mp1";
                      py "https://other.example/p-mp2"]) 50
  = Ok [py "https://www.tatacliq.com/shoe/p-mp1"].
Proof.
  destruct (cleaning_links_contract []
              (page_with_links
                 [py "https://www.tatacliq.com/shoe/p-mp1?src=a";
                  py "https://www.tatacliq.com/shoe/p-mp1?src=b#top";
                  py "https://www.tatacliq.com/shoe/p-mp1";
                  py "https://other.example/p-mp2"])
              _ 50%Z eq_refl ltac:(lia)) as [(urls & Hget & _) _].
  vm_compute in Hget. injection Hget as <-. vm_compute. reflexivity.
Defined.

End ShopLinkFacts.

(** ** More on the links of the Amazon and the Generic extractor *)

Module LinkShapeFacts.
Import Base LinkSpec LinkFacts.

(** X13.  For a limit of at least one, every link the Amazon extractor
    returns contains "amazon.in", has neither a question mark nor a hash
    sign, and is the cut form of an anchor of the page that matches no
    sponsored pattern and holds a product id after "/dp/". *)
Theorem amazon_links_are_clean_product_links :
  forall (page : Page) (hs urls : list pystr) (limit : Z) (u : pystr),
    hrefs page = Ok hs ->
    (1 <= limit)%Z ->
    Amazon.get_product_links page limit = Ok urls ->
    In u urls ->
    contains (py "amazon.in") u = true
    /\ ~ In 63%N u /\ ~ In 35%N u
    /\ exists h, In h hs /\ u = strip_query_fragment h
                 /\ Amazon.search_dp h = true
                 /\ any_in Amazon.sponsored_patterns h = false.
Proof.
  intros page hs urls limit u Hh Hl Hget Hu.
  unfold Amazon.get_product_links in Hget. rewrite Hh in Hget.
  injection Hget as <-.
  rewrite amazon_links_loop_spec in Hu by (simpl; lia).
  cbn [app] in Hu. apply firstn_In_inv in Hu.
  apply dedup_first_sound in Hu. destruct Hu as [_ Hu].
  apply in_map_iff in Hu. destruct Hu as (h & <- & Hin).
  apply filter_In in Hin. destruct Hin as [Hin Hk].
  unfold Amazon.is_product_link in Hk.
  apply andb_true_iff in Hk. destruct Hk as [Hk Ha].
  apply andb_true_iff in Hk. destruct Hk as [Hs Hd].
  apply negb_true_iff in Hs.
  split; [exact Ha|]. split; [|split].
  - unfold strip_query_fragment. change (py "#") with [35%N].
    change (py "?") with [63%N]. intro H. apply before_incl in H.
    now apply before_char_absent in H.
  - unfold strip_query_fragment. change (py "#") with [35%N].
    apply before_char_absent.
  - exists h. auto.
Qed.

(** A product link with a tracking parameter next to a sponsored link. *)
Lemma amazon_links_are_clean_product_links_witness :
  contains (py "amazon.in") (py "https://www.amazon.in/a/dp/B0ABCDEFGH") = true
  /\ ~ In 63%N (py "https://www.amazon.in/a/dp/B0ABCDEFGH").
Proof.
  destruct (amazon_links_are_clean_product_links
              (page_with_links
                 [py "https://aax-eu-zaz.amazon.in/x/dp/B0ABCDEFGZ";
                  py "https://www.amazon.in/a/dp/B0ABCDEFGH?ref=sr_1"])
              _ _ 50%Z (py "https://www.amazon.in/a/dp/B0ABCDEFGH")
              eq_refl ltac:(lia) eq_refl ltac:(vm_compute; tauto))
    as (H1 & H2 & _).
  split; [exact H1 | exact H2].
Defined.

Lemma any_in_app a b h : any_in (a ++ b) h = any_in a h || any_in b h.
Proof. unfold any_in. apply existsb_app. Qed.

Lemma tier_loop_members patterns limit hs urls seen u :
  (Z.of_nat (List.length urls) < limit)%Z ->
  In u (fst (Generic.tier_loop patterns limit hs urls seen)) ->
  In u urls \/ (In u hs /\ any_in patterns u = true).
Proof.
  intros Hlt Hu. rewrite tier_loop_fst in Hu by exact Hlt.
  apply in_app_or in Hu. destruct Hu as [Hu|Hu]; [now left|].
  right. apply firstn_In_inv in Hu. apply dedup_first_sound in Hu.
  destruct Hu as [_ Hu]. now apply filter_In in Hu.
Qed.

(** X14.  For a limit of at least one, every link the Generic fallback
    returns is an anchor of the page that contains one of its fifteen
    patterns; and when the primary patterns alone give at least half the
    limit, rounded down, the secondary and tertiary patterns are not
    consulted: the result is the first [limit] distinct primary matches. *)
Theorem generic_links_tiers :
  forall (page : Page) (hs urls : list pystr) (limit : Z),
    hrefs page = Ok hs ->
    (1 <= limit)%Z ->
    Generic.get_product_links page limit = Ok urls ->
    let primary := firstn (Z.to_nat limit)
                     (dedup_first []
                        (filter (any_in Generic.primary_patterns) hs)) in
    (forall u, In u urls -> In u hs /\ Generic.is_product_link u = true)
    /\ ((limit / 2 <= Z.of_nat (List.length primary))%Z -> urls = primary).
Proof.
  intros page hs urls limit Hh Hl Hget. cbv zeta.
  unfold Generic.get_product_links in Hget. rewrite Hh in Hget.
  pose proof (tier_loop_fst Generic.primary_patterns limit hs [] []) as F1.
  pose proof (tier_loop_length Generic.primary_patterns limit hs [] []) as L1.
  pose proof (fun u => tier_loop_members Generic.primary_patterns limit hs
                         [] [] u) as M1.
  destruct (Generic.tier_loop Generic.primary_patterns limit hs [] [])
    as [urls1 seen1].
  cbn [fst snd] in *.
  specialize (F1 ltac:(simpl; lia)). specialize (L1 ltac:(simpl; lia)).
  cbn [app List.length] in F1. rewrite Nat.sub_0_r in F1.
  assert (P1 : forall u, In u urls1 ->
                         In u hs /\ Generic.is_product_link u = true).
  { intros u Hu. destruct (M1 u ltac:(simpl; lia) Hu) as [[]|[H1 H2]].
    split; [exact H1|]. unfold Generic.is_product_link.
    rewrite any_in_app, H2. reflexivity. }
  clear M1.
  destruct (Z.ltb_spec (Z.of_nat (List.length urls1)) (limit / 2)) as [H2|H2].
  - assert (Hlt : (Z.of_nat (List.length urls1) < limit)%Z).
    { pose proof (Z.div_le_upper_bound limit 2 limit). lia. }
    pose proof (tier_loop_length Generic.secondary_patterns limit hs
                                 urls1 seen1 Hlt) as L2.
    pose proof (fun u => tier_loop_members Generic.secondary_patterns limit hs
                           urls1 seen1 u Hlt) as M2.
    destruct (Generic.tier_loop Generic.secondary_patterns limit hs
                                urls1 seen1) as [urls2 seen2].
    cbn [fst snd] in *.
    assert (P2 : forall u, In u urls2 ->
                           In u hs /\ Generic.is_product_link u = true).
    { intros u Hu. destruct (M2 u Hu) as [H|[H3 H4]]; [now apply P1|].
      split; [exact H3|]. unfold Generic.is_product_link.
      rewrite !any_in_app, H4. now rewrite orb_true_r. }
    split; [|intros Hp; rewrite <- F1 in Hp; lia].
    destruct (Z.ltb_spec (Z.of_nat (List.length urls2)) (limit / 4)) as [H3|H3].
    + assert (Hlt2 : (Z.of_nat (List.length urls2) < limit)%Z).
      { pose proof (Z.div_le_upper_bound limit 4 limit). lia. }
      pose proof (fun u => tier_loop_members Generic.tertiary_patterns limit hs
                             urls2 seen2 u Hlt2) as M3.
      destruct (Generic.tier_loop Generic.tertiary_patterns limit hs
                                  urls2 seen2) as [urls3 seen3].
      cbn [fst snd] in *. injection Hget as <-.
      intros u Hu. destruct (M3 u Hu) as [H|[H4 H5]]; [now apply P2|].
      split; [exact H4|]. unfold Generic.is_product_link.
      rewrite !any_in_app, H5. now rewrite !orb_true_r.
    + injection Hget as <-. exact P2.
  - assert (H4 : (Z.of_nat (List.length urls1) <? limit / 4)%Z = false).
    { apply Z.ltb_ge.
      assert (limit / 4 <= limit / 2)%Z.
      { apply Z.div_le_compat_l; lia. }
      lia. }
    rewrite H4 in Hget. injection Hget as <-.
    split; [exact P1 | intros _; exact F1].
Qed.

(** Two primary links and one secondary link with a limit of four: the
    secondary link is left out. *)
Lemma generic_links_tiers_witness :
  Generic.get_product_links
    (page_with_links [py "https://s.example/sku/9";
                      py "https://s.example/product/1";
                      py "https://s.example/product/2"]) 4
  = Ok [py "https://s.example/product/1"; py "https://s.example/product/2"].
Proof.
  destruct (generic_links_tiers
              (page_with_links [py "https://s.example/sku/9";
                                py "https://s.example/product/1";
                                py "https://s.example/product/2"])
              _ _ 4%Z eq_refl ltac:(lia) eq_refl) as [_ H].
  vm_compute. reflexivity.
Defined.

End LinkShapeFacts.

(** ** Link discovery of every registered extractor *)

Module RegisteredLinkFacts.
Import Base LinkSpec LinkFacts ShopLinks ShopLinkFacts.

Lemma dedup_first_ext l :
  forall seen seen',
    (forall x, In x seen <-> In x seen') ->
    dedup_first seen l = dedup_first seen' l.
Proof.
  induction l as [|a l IH]; intros seen seen' H; [reflexivity|].
  cbn [dedup_first].
  assert (E : mem a seen = mem a seen').
  { destruct (mem a seen) eqn:E1, (mem a seen') eqn:E2; try reflexivity.
    - apply mem_In, H, mem_In in E1. congruence.
    - apply mem_In, H, mem_In in E2. congruence. }
  rewrite E. destruct (mem a seen'); [now apply IH|].
  f_equal. apply IH. intros x. cbn [In]. now rewrite H.
Qed.

Lemma first_distinct_ok norm keep hs limit :
  (0 <= limit)%Z ->
  NoDup (first_distinct norm keep hs limit)
  /\ (Z.of_nat (List.length (first_distinct norm keep hs limit)) <= limit)%Z.
Proof.
  intros Hl. unfold first_distinct. split.
  - apply firstn_NoDup, dedup_first_sound.
  - pose proof (firstn_le_length (Z.to_nat limit)
                  (dedup_first [] (map norm (filter keep hs)))). lia.
Qed.

Lemma firstn_dedup_ok l limit :
  (0 <= limit)%Z ->
  NoDup (firstn (Z.to_nat limit) (dedup_first [] l))
  /\ (Z.of_nat (List.length (firstn (Z.to_nat limit) (dedup_first [] l)))
      <= limit)%Z.
Proof.
  intros Hl. split.
  - apply firstn_NoDup, dedup_first_sound.
  - pose proof (firstn_le_length (Z.to_nat limit) (dedup_first [] l)). lia.
Qed.

(** The links that were cut are not changed by cutting them again, so no
    two of them are equal once cut. *)
Lemma first_distinct_cut keep hs limit :
  NoDup (map strip_query_fragment
             (first_distinct strip_query_fragment keep hs limit)).
Proof.
  unfold first_distinct.
  set (all := dedup_first [] (map strip_query_fragment (filter keep hs))).
  assert (Hfix : map strip_query_fragment (firstn (Z.to_nat limit) all)
                 = firstn (Z.to_nat limit) all).
  { rewrite <- (map_id (firstn (Z.to_nat limit) all)) at 2.
    apply map_ext_in. intros x Hx. apply firstn_In_inv in Hx.
    now apply dedup_first_fixed in Hx. }
  rewrite Hfix. apply firstn_NoDup, dedup_first_sound.
Qed.

(** *** The loops that keep the link as it is *)

Lemma plain_loop_first keep hs limit :
  (1 <= limit)%Z ->
  plain_loop keep limit hs [] [] = first_distinct (fun h => h) keep hs limit.
Proof.
  intros Hl. rewrite plain_loop_spec by (simpl; lia).
  cbn [app List.length]. rewrite Nat.sub_0_r. unfold first_distinct.
  now rewrite map_id.
Qed.

Lemma dedup_first_of_distinct l : NoDup l -> dedup_first [] l = l.
Proof.
  assert (G : forall seen, NoDup l -> (forall x, In x l -> ~ In x seen) ->
                           dedup_first seen l = l).
  { induction l as [|a l IH]; intros seen Hn Hs; [reflexivity|].
    cbn [dedup_first]. inversion Hn as [|? ? Ha Hl]; subst.
    assert (E : mem a seen = false)
      by (apply mem_false_In, Hs; now left).
    rewrite E. f_equal. apply IH; [exact Hl|].
    intros x Hx [<-|Hin]; [contradiction|].
    apply (Hs x); [now right | exact Hin]. }
  intros Hn. apply G; auto.
Qed.

Lemma card_links_distinct domain selectors found :
  NoDup (card_links domain selectors found).
Proof. unfold card_links. apply dedup_first_sound. Qed.

Lemma links_or_cards_result keep domain selectors page hs limit :
  hrefs page = Ok hs ->
  (1 <= limit)%Z ->
  links_or_cards keep domain selectors page limit
  = anchors_or_cards keep domain selectors page hs limit.
Proof.
  intros Hh Hl. unfold links_or_cards, anchors_or_cards. rewrite Hh.
  rewrite (plain_loop_first keep hs limit Hl).
  destruct (first_distinct (fun h => h) keep hs limit); [|reflexivity].
  destruct (card_hrefs page) as [found|e]; [|reflexivity].
  rewrite (plain_loop_first (fun _ => true) _ limit Hl).
  unfold first_distinct. rewrite map_id.
  assert (F : forall l : list pystr, filter (fun _ => true) l = l).
  { induction l as [|a l IH]; [reflexivity|]. cbn. now rewrite IH. }
  rewrite F, dedup_first_of_distinct by apply card_links_distinct.
  reflexivity.
Qed.

Lemma anchors_or_cards_ok keep domain selectors page hs limit urls :
  (1 <= limit)%Z ->
  anchors_or_cards keep domain selectors page hs limit = Ok urls ->
  NoDup urls /\ (Z.of_nat (List.length urls) <= limit)%Z.
Proof.
  intros Hl. unfold anchors_or_cards.
  pose proof (first_distinct_ok (fun h => h) keep hs limit ltac:(lia)) as H.
  destruct (first_distinct (fun h => h) keep hs limit) as [|u us].
  - destruct (card_hrefs page) as [found|e]; [|discriminate].
    intros [= <-]. split.
    + apply firstn_NoDup, card_links_distinct.
    + pose proof (firstn_le_length (Z.to_nat limit)
                    (card_links domain selectors found)). lia.
  - intros [= <-]. exact H.
Qed.

Lemma slice_to_all limit urls :
  (Z.of_nat (List.length urls) <= limit)%Z -> slice_to limit urls = urls.
Proof.
  intros H. unfold slice_to.
  destruct (Z.leb_spec 0 limit); [|lia].
  apply firstn_all2. lia.
Qed.

(** *** The loop of the AJIO and Walmart extractors *)

Lemma canonical_loop_spec canonical limit hs :
  forall urls seen,
    (Z.of_nat (List.length urls) < limit)%Z ->
    canonical_loop canonical limit hs urls seen
    = urls ++ firstn (Z.to_nat limit - List.length urls)
                (dedup_first seen (canonical_of canonical hs)).
Proof.
  induction hs as [|h rest IH]; intros urls seen Hlt.
  - simpl. rewrite firstn_nil. now rewrite app_nil_r.
  - cbn [canonical_loop canonical_of flat_map].
    fold (canonical_of canonical rest).
    destruct (canonical h) as [can|]; [|now apply IH].
    destruct (nonempty can); cbn [andb app]; [|now apply IH].
    cbn [dedup_first].
    destruct (mem can seen); cbn [negb]; [now apply IH|].
    cbv zeta. rewrite length_app. cbn [List.length].
    destruct (Z.leb_spec limit (Z.of_nat (List.length urls + 1))) as [Hge|Hlt'].
    + replace (Z.to_nat limit - List.length urls) with 1 by lia.
      reflexivity.
    + rewrite IH by (rewrite length_app; cbn [List.length]; lia).
      rewrite length_app. cbn [List.length].
      replace (Z.to_nat limit - List.length urls)
        with (S (Z.to_nat limit - (List.length urls + 1))) by lia.
      cbn [firstn]. now rewrite <- app_assoc.
Qed.

Lemma canonical_loop_first canonical limit hs :
  (1 <= limit)%Z ->
  canonical_loop canonical limit hs [] []
  = firstn (Z.to_nat limit) (dedup_first [] (canonical_of canonical hs)).
Proof.
  intros Hl. rewrite canonical_loop_spec by (simpl; lia).
  cbn [app List.length]. now rewrite Nat.sub_0_r.
Qed.

(** A canonical link has no query string. *)
Lemma canonical_link_cut urljoin marker domain href base can :
  canonical_link urljoin marker domain href base = Some can -> ~ In 63%N can.
Proof.
  unfold canonical_link. destruct (negb (nonempty href)); [discriminate|].
  cbv zeta. destruct (contains marker _ && contains domain _); [|discriminate].
  intros [= <-]. change (py "?") with [63%N]. apply before_char_absent.
Qed.

(** *** The passes of the Generic extractor *)

Lemma tier_loop_tier patterns limit hs urls seen :
  seen_tracks urls seen ->
  (Z.of_nat (List.length urls) < limit)%Z ->
  fst (Generic.tier_loop patterns limit hs urls seen)
  = tier patterns limit hs urls.
Proof.
  intros [_ Hs] Hlt. rewrite tier_loop_fst by exact Hlt. unfold tier.
  f_equal. f_equal. apply dedup_first_ext. intros x. now rewrite Hs.
Qed.

Lemma tier_ok patterns limit hs urls :
  NoDup urls -> (Z.of_nat (List.length urls) <= limit)%Z ->
  NoDup (tier patterns limit hs urls)
  /\ (Z.of_nat (List.length (tier patterns limit hs urls)) <= limit)%Z.
Proof.
  intros Hn Hl. unfold tier. split.
  - apply NoDup_app; [exact Hn | apply firstn_NoDup, dedup_first_sound |].
    intros x Hx Hy. apply firstn_In_inv in Hy.
    apply dedup_first_sound in Hy. now destruct Hy.
  - rewrite length_app.
    pose proof (firstn_le_length (Z.to_nat limit - List.length urls)
                  (dedup_first urls (filter (any_in patterns) hs))). lia.
Qed.

Lemma tiers_ok limit hs :
  (0 <= limit)%Z ->
  NoDup (tiers limit hs)
  /\ (Z.of_nat (List.length (tiers limit hs)) <= limit)%Z.
Proof.
  intros Hl. unfold tiers. cbv zeta.
  destruct (tier_ok Generic.primary_patterns limit hs [] (NoDup_nil _)
                    ltac:(simpl; lia)) as [N1 L1].
  set (urls1 := tier Generic.primary_patterns limit hs []) in *.
  assert (H2 : NoDup (if (Z.of_nat (List.length urls1) <? limit / 2)%Z
                      then tier Generic.secondary_patterns limit hs urls1
                      else urls1)
               /\ (Z.of_nat (List.length
                     (if (Z.of_nat (List.length urls1) <? limit / 2)%Z
                      then tier Generic.secondary_patterns limit hs urls1
                      else urls1)) <= limit)%Z).
  { destruct (Z.of_nat (List.length urls1) <? limit / 2)%Z;
      [now apply tier_ok | now split]. }
  destruct H2 as [N2 L2].
  destruct (Z.of_nat (List.length _) <? limit / 4)%Z;
    [now apply tier_ok | now split].
Qed.

Lemma generic_links_are_tiers page hs limit :
  hrefs page = Ok hs ->
  (1 <= limit)%Z ->
  Generic.get_product_links page limit = Ok (tiers limit hs).
Proof.
  intros Hh Hl. unfold Generic.get_product_links, tiers. rewrite Hh.
  cbv zeta.
  assert (T0 : seen_tracks [] []) by (split; [constructor | tauto]).
  pose proof (tier_loop_tier Generic.primary_patterns limit hs [] [] T0
                ltac:(simpl; lia)) as F1.
  pose proof (tier_loop_tracks Generic.primary_patterns limit hs [] [] T0)
    as T1.
  destruct (Generic.tier_loop Generic.primary_patterns limit hs [] [])
    as [urls1 seen1].
  cbn [fst snd] in *. rewrite <- F1.
  destruct (Z.ltb_spec (Z.of_nat (List.length urls1)) (limit / 2)) as [H2|H2].
  - assert (Hlt : (Z.of_nat (List.length urls1) < limit)%Z).
    { pose proof (Z.div_le_upper_bound limit 2 limit). lia. }
    pose proof (tier_loop_tier Generic.secondary_patterns limit hs
                               urls1 seen1 T1 Hlt) as F2.
    pose proof (tier_loop_tracks Generic.secondary_patterns limit hs
                                 urls1 seen1 T1) as T2.
    destruct (Generic.tier_loop Generic.secondary_patterns limit hs
                                urls1 seen1) as [urls2 seen2].
    cbn [fst snd] in *. rewrite <- F2.
    destruct (Z.ltb_spec (Z.of_nat (List.length urls2)) (limit / 4))
      as [H3|H3]; [|reflexivity].
    assert (Hlt2 : (Z.of_nat (List.length urls2) < limit)%Z).
    { pose proof (Z.div_le_upper_bound limit 4 limit). lia. }
    pose proof (tier_loop_tier Generic.tertiary_patterns limit hs
                               urls2 seen2 T2 Hlt2) as F3.
    destruct (Generic.tier_loop Generic.tertiary_patterns limit hs
                                urls2 seen2) as [urls3 seen3].
    cbn [fst] in F3. now rewrite F3.
  - destruct (Z.ltb_spec (Z.of_nat (List.length urls1)) (limit / 4))
      as [H3|H3]; [|reflexivity].
    assert (Hlt2 : (Z.of_nat (List.length urls1) < limit)%Z).
    { pose proof (Z.div_le_upper_bound limit 4 limit). lia. }
    pose proof (tier_loop_tier Generic.tertiary_patterns limit hs
                               urls1 seen1 T1 Hlt2) as F3.
    destruct (Generic.tier_loop Generic.tertiary_patterns limit hs
                                urls1 seen1) as [urls3 seen3].
    cbn [fst] in F3. now rewrite F3.
Qed.

(** *** The extractors that cut the link *)

Lemma amazon_links_first page hs limit :
  hrefs page = Ok hs ->
  (1 <= limit)%Z ->
  Amazon.get_product_links page limit
  = Ok (first_distinct strip_query_fragment Amazon.is_product_link hs limit).
Proof.
  intros Hh Hl. unfold Amazon.get_product_links. rewrite Hh.
  rewrite amazon_links_loop_spec by (simpl; lia).
  cbn [app List.length]. now rewrite Nat.sub_0_r.
Qed.

Lemma cleaning_loop_first keep hs limit :
  (1 <= limit)%Z ->
  cleaning_loop keep limit hs [] []
  = first_distinct strip_query_fragment (fun h => nonempty h && keep h)
                   hs limit.
Proof.
  intros Hl. rewrite cleaning_loop_spec; [|intros x [] | simpl; lia].
  cbn [app List.length]. now rewrite Nat.sub_0_r.
Qed.

Section Registered.
Variable urljoin : pystr -> pystr -> pystr.
Variable patterns : list pystr.
Variable page : Page.
Variable hs : list pystr.
Variable limit : Z.
Hypothesis page_hrefs : hrefs page = Ok hs.
Hypothesis limit_pos : (1 <= limit)%Z.

Lemma cut_links :
  Forall (fun gk : (Page -> Z -> outcome (list pystr)) * (pystr -> bool) =>
            fst gk page limit
            = Ok (first_distinct strip_query_fragment (snd gk) hs limit))
    [(Amazon.get_product_links, Amazon.is_product_link);
     (tatacliq_get_product_links, fun h => nonempty h && tatacliq_link h);
     (indiamart_get_product_links patterns,
      fun h => nonempty h && any_in patterns h)].
Proof.
  repeat constructor; cbn [fst snd].
  - now apply amazon_links_first.
  - unfold tatacliq_get_product_links. rewrite page_hrefs.
    now rewrite cleaning_loop_first.
  - unfold indiamart_get_product_links. rewrite page_hrefs.
    now rewrite cleaning_loop_first.
Qed.

Lemma plain_links_first keep :
  plain_links keep page limit
  = Ok (first_distinct (fun h => h) keep hs limit).
Proof.
  unfold plain_links. rewrite page_hrefs. now rewrite plain_loop_first.
Qed.

Lemma kept_links :
  Forall (fun gk : (Page -> Z -> outcome (list pystr)) * (pystr -> bool) =>
            fst gk page limit
            = Ok (first_distinct (fun h => h) (snd gk) hs limit))
    [(flipkart_get_product_links, flipkart_link);
     (ebay_get_product_links, ebay_link);
     (redbubble_get_product_links, redbubble_link);
     (snapdeal_get_product_links, snapdeal_link);
     (shopsy_get_product_links, snapdeal_link);
     (meesho_get_product_links, meesho_link)].
Proof. repeat constructor; apply plain_links_first. Qed.

Lemma canonical_links :
  Forall (fun gc : (Page -> Z -> outcome (list pystr))
                   * (pystr -> pystr -> option pystr) =>
            fst gc page limit
            = Ok (firstn (Z.to_nat limit)
                    (dedup_first []
                       (canonical_of (fun h => snd gc h (url page)) hs))))
    [(ajio_get_product_links urljoin, canonical_ajio_link urljoin);
     (walmart_get_product_links urljoin, canonical_walmart_link urljoin)].
Proof.
  repeat constructor; cbn [fst snd].
  - unfold ajio_get_product_links. rewrite page_hrefs.
    now rewrite canonical_loop_first.
  - unfold walmart_get_product_links. rewrite page_hrefs.
    now rewrite canonical_loop_first.
Qed.

Lemma myntra_links :
  myntra_get_product_links page limit
  = anchors_or_cards myntra_link (py "myntra.com") myntra_card_selectors
                     page hs limit.
Proof. now apply links_or_cards_result. Qed.

Lemma nykaa_links :
  nykaa_get_product_links page limit
  = anchors_or_cards nykaa_link (py "nykaa.com") nykaa_card_selectors
                     page hs limit.
Proof.
  unfold nykaa_get_product_links.
  rewrite (links_or_cards_result _ _ _ page hs limit page_hrefs limit_pos).
  destruct (anchors_or_cards nykaa_link (py "nykaa.com")
              nykaa_card_selectors page hs limit) as [urls|e] eqn:E;
    [|reflexivity].
  apply anchors_or_cards_ok in E; [|exact limit_pos].
  now rewrite slice_to_all.
Qed.

(** No registered extractor returns a link twice or more than [limit]
    links. *)
Lemma registered_links_ok key get urls :
  In (key, get) (link_discovery urljoin patterns) ->
  get page limit = Ok urls ->
  NoDup urls /\ (Z.of_nat (List.length urls) <= limit)%Z.
Proof.
  pose proof cut_links as C. pose proof kept_links as K.
  pose proof canonical_links as A.
  rewrite Forall_forall in C, K, A.
  assert (Cut : forall g k,
             In (g, k) [(Amazon.get_product_links, Amazon.is_product_link);
                        (tatacliq_get_product_links,
                         fun h => nonempty h && tatacliq_link h);
                        (indiamart_get_product_links patterns,
                         fun h => nonempty h && any_in patterns h)] ->
             g page limit = Ok urls ->
             NoDup urls /\ (Z.of_nat (List.length urls) <= limit)%Z).
  { intros g k Hin Hg. specialize (C (g, k) Hin). cbn [fst snd] in C.
    rewrite C in Hg. injection Hg as <-. apply first_distinct_ok. lia. }
  assert (Kept : forall g k,
             In (g, k) [(flipkart_get_product_links, flipkart_link);
                        (ebay_get_product_links, ebay_link);
                        (redbubble_get_product_links, redbubble_link);
                        (snapdeal_get_product_links, snapdeal_link);
                        (shopsy_get_product_links, snapdeal_link);
                        (meesho_get_product_links, meesho_link)] ->
             g page limit = Ok urls ->
             NoDup urls /\ (Z.of_nat (List.length urls) <= limit)%Z).
  { intros g k Hin Hg. specialize (K (g, k) Hin). cbn [fst snd] in K.
    rewrite K in Hg. injection Hg as <-. apply first_distinct_ok. lia. }
  assert (Can : forall g c,
             In (g, c) [(ajio_get_product_links urljoin,
                         canonical_ajio_link urljoin);
                        (walmart_get_product_links urljoin,
                         canonical_walmart_link urljoin)] ->
             g page limit = Ok urls ->
             NoDup urls /\ (Z.of_nat (List.length urls) <= limit)%Z).
  { intros g c Hin Hg. specialize (A (g, c) Hin). cbn [fst snd] in A.
    rewrite A in Hg. injection Hg as <-. apply firstn_dedup_ok. lia. }
  unfold link_discovery. cbn [In].
  intros [H|[H|[H|[H|[H|[H|[H|[H|[H|[H|[H|[H|[H|[H|[]]]]]]]]]]]]]]];
    injection H as _ <-; intros Hg.
  - eapply Cut; [|exact Hg]. cbn; eauto.
  - eapply Kept; [|exact Hg]. cbn; eauto.
  - rewrite myntra_links in Hg.
    eapply anchors_or_cards_ok; [exact limit_pos | exact Hg].
  - eapply Kept; [|exact Hg]. cbn; eauto 10.
  - eapply Can; [|exact Hg]. cbn; eauto.
  - eapply Kept; [|exact Hg]. cbn; eauto.
  - eapply Kept; [|exact Hg]. cbn; eauto.
  - eapply Kept; [|exact Hg]. cbn; eauto 10.
  - eapply Kept; [|exact Hg]. cbn; eauto 10.
  - rewrite nykaa_links in Hg.
    eapply anchors_or_cards_ok; [exact limit_pos | exact Hg].
  - eapply Cut; [|exact Hg]. cbn; eauto.
  - eapply Cut; [|exact Hg]. cbn; eauto.
  - eapply Can; [|exact Hg]. cbn; eauto.
  - rewrite (generic_links_are_tiers page hs limit page_hrefs limit_pos)
      in Hg.
    injection Hg as <-. apply tiers_ok. lia.
Qed.

(** Every registered extractor returns a list when the script of the
    product cards does not raise. *)
Lemma registered_links_return key get found :
  In (key, get) (link_discovery urljoin patterns) ->
  card_hrefs page = Ok found ->
  exists urls, get page limit = Ok urls.
Proof.
  pose proof cut_links as C. pose proof kept_links as K.
  pose proof canonical_links as A.
  rewrite Forall_forall in C, K, A.
  intros Hin Hf.
  assert (Cards : forall keep domain selectors,
             exists urls,
               anchors_or_cards keep domain selectors page hs limit
               = Ok urls).
  { intros keep domain selectors. unfold anchors_or_cards. rewrite Hf.
    destruct (first_distinct (fun h => h) keep hs limit); eauto. }
  assert (Cut : forall g k,
             In (g, k) [(Amazon.get_product_links, Amazon.is_product_link);
                        (tatacliq_get_product_links,
                         fun h => nonempty h && tatacliq_link h);
                        (indiamart_get_product_links patterns,
                         fun h => nonempty h && any_in patterns h)] ->
             exists urls, g page limit = Ok urls).
  { intros g k Hg. eexists. exact (C (g, k) Hg). }
  assert (Kept : forall g k,
             In (g, k) [(flipkart_get_product_links, flipkart_link);
                        (ebay_get_product_links, ebay_link);
                        (redbubble_get_product_links, redbubble_link);
                        (snapdeal_get_product_links, snapdeal_link);
                        (shopsy_get_product_links, snapdeal_link);
                        (meesho_get_product_links, meesho_link)] ->
             exists urls, g page limit = Ok urls).
  { intros g k Hg. eexists. exact (K (g, k) Hg). }
  assert (Can : forall g c,
             In (g, c) [(ajio_get_product_links urljoin,
                         canonical_ajio_link urljoin);
                        (walmart_get_product_links urljoin,
                         canonical_walmart_link urljoin)] ->
             exists urls, g page limit = Ok urls).
  { intros g c Hg. eexists. exact (A (g, c) Hg). }
  revert Hin. unfold link_discovery. cbn [In].
  intros [H|[H|[H|[H|[H|[H|[H|[H|[H|[H|[H|[H|[H|[H|[]]]]]]]]]]]]]]];
    injection H as _ <-.
  - eapply Cut. cbn; eauto.
  - eapply Kept. cbn; eauto.
  - rewrite myntra_links. apply Cards.
  - eapply Kept. cbn; eauto 10.
  - eapply Can. cbn; eauto.
  - eapply Kept. cbn; eauto.
  - eapply Kept. cbn; eauto.
  - eapply Kept. cbn; eauto 10.
  - eapply Kept. cbn; eauto 10.
  - rewrite nykaa_links. apply Cards.
  - eapply Cut. cbn; eauto.
  - eapply Cut. cbn; eauto.
  - eapply Can. cbn; eauto.
  - eexists. exact (generic_links_are_tiers page hs limit page_hrefs limit_pos).
Qed.

End Registered.

(** C7, as the code has it.  For a limit of at least one, the link
    discovery of every registered extractor returns at most [limit] links
    and no link twice.  The Amazon, Tata CLiQ and IndiaMART extractors cut
    off query string and fragment, so no two of their links are equal once
    cut, and list the links in the order in which the document first shows
    them.  The AJIO and Walmart extractors cut off the query string only.
    The Flipkart, eBay, Redbubble, Snapdeal, Shopsy and Meesho extractors
    keep the links as they stand, in document order; so do the Myntra and
    Nykaa extractors, which return the links of their product cards, in the
    order of their selectors, when no anchor passes their test.  The
    Generic fallback keeps the links as they stand and lists the matches of
    its primary patterns first, then, when these are fewer than half the
    limit, those of the secondary patterns, then, when there are fewer than
    a quarter of the limit, those of the tertiary patterns. *)
Theorem get_product_links_contract :
  forall (urljoin : pystr -> pystr -> pystr) (patterns : list pystr)
         (page : Page) (hs : list pystr) (limit : Z),
    hrefs page = Ok hs ->
    (1 <= limit)%Z ->
    map fst (link_discovery urljoin patterns)
      = map fst Registry.PLATFORM_EXTRACTORS
    /\ (forall key get urls,
           In (key, get) (link_discovery urljoin patterns) ->
           get page limit = Ok urls ->
           NoDup urls /\ (Z.of_nat (List.length urls) <= limit)%Z)
    /\ (forall key get found,
           In (key, get) (link_discovery urljoin patterns) ->
           card_hrefs page = Ok found ->
           exists urls, get page limit = Ok urls)
    /\ Forall (fun gk : (Page -> Z -> outcome (list pystr))
                        * (pystr -> bool) =>
                 fst gk page limit
                 = Ok (first_distinct strip_query_fragment (snd gk) hs limit))
         [(Amazon.get_product_links, Amazon.is_product_link);
          (tatacliq_get_product_links,
           fun h => nonempty h && tatacliq_link h);
          (indiamart_get_product_links patterns,
           fun h => nonempty h && any_in patterns h)]
    /\ (forall keep,
           NoDup (map strip_query_fragment
                      (first_distinct strip_query_fragment keep hs limit)))
    /\ Forall (fun gc : (Page -> Z -> outcome (list pystr))
                        * (pystr -> pystr -> option pystr) =>
                 fst gc page limit
                 = Ok (firstn (Z.to_nat limit)
                         (dedup_first []
                            (canonical_of (fun h => snd gc h (url page))
                                          hs))))
         [(ajio_get_product_links urljoin, canonical_ajio_link urljoin);
          (walmart_get_product_links urljoin,
           canonical_walmart_link urljoin)]
    /\ (forall marker domain href base can,
           canonical_link urljoin marker domain href base = Some can ->
           ~ In 63%N can)
    /\ Forall (fun gk : (Page -> Z -> outcome (list pystr))
                        * (pystr -> bool) =>
                 fst gk page limit
                 = Ok (first_distinct (fun h => h) (snd gk) hs limit))
         [(flipkart_get_product_links, flipkart_link);
          (ebay_get_product_links, ebay_link);
          (redbubble_get_product_links, redbubble_link);
          (snapdeal_get_product_links, snapdeal_link);
          (shopsy_get_product_links, snapdeal_link);
          (meesho_get_product_links, meesho_link)]
    /\ myntra_get_product_links page limit
       = anchors_or_cards myntra_link (py "myntra.com")
                          myntra_card_selectors page hs limit
    /\ nykaa_get_product_links page limit
       = anchors_or_cards nykaa_link (py "nykaa.com")
                          nykaa_card_selectors page hs limit
    /\ Generic.get_product_links page limit = Ok (tiers limit hs).
Proof.
  intros urljoin patterns page hs limit Hh Hl.
  split; [reflexivity|].
  split; [intros key get urls; now apply registered_links_ok with (hs := hs)|].
  split; [intros key get found;
          now apply registered_links_return with (hs := hs)|].
  split; [now apply cut_links|].
  split; [intros keep; apply first_distinct_cut|].
  split; [now apply canonical_links|].
  split; [apply canonical_link_cut|].
  split; [now apply kept_links|].
  split; [now apply myntra_links|].
  split; [now apply nykaa_links|].
  now apply generic_links_are_tiers.
Qed.

(** A listing with one product under two tracking parameters, a limit of
    fifty: the Amazon extractor returns it once, cut; the Generic fallback
    returns both links. *)
Lemma get_product_links_contract_witness :
  Amazon.get_product_links
    (page_with_links [py "https://www.amazon.in/a/dp/B0ABCDEFGH?ref=1";
                      py "https://www.amazon.in/a/dp/B0ABCDEFGH?ref=2"]) 50
  = Ok [py "https://www.amazon.in/a/dp/B0ABCDEFGH"]
  /\ Generic.get_product_links
       (page_with_links [py "https://www.amazon.in/a/dp/B0ABCDEFGH?ref=1";
                         py "https://www.amazon.in/a/dp/B0ABCDEFGH?ref=2"]) 50
     = Ok [py "https://www.amazon.in/a/dp/B0ABCDEFGH?ref=1";
           py "https://www.amazon.in/a/dp/B0ABCDEFGH?ref=2"].
Proof.
  destruct (get_product_links_contract (fun _ h => h) []
              (page_with_links
                 [py "https://www.amazon.in/a/dp/B0ABCDEFGH?ref=1";
                  py "https://www.amazon.in/a/dp/B0ABCDEFGH?ref=2"])
              _ 50%Z eq_refl ltac:(lia))
    as (_ & _ & _ & Hcut & _ & _ & _ & _ & _ & _ & Hgen).
  split.
  - inversion Hcut as [|? ? Ha _]. cbn [fst snd] in Ha. rewrite Ha.
    vm_compute. reflexivity.
  - rewrite Hgen. vm_compute. reflexivity.
Defined.

(** C7 as worded fails.  The Generic fallback keeps one product twice when
    its links differ in the query string; it lists a primary-pattern link
    before a secondary-pattern link that the document shows first; the
    Flipkart extractor keeps one product twice as well; the AJIO extractor
    keeps it twice when the links differ in the fragment; and with a limit
    of zero the Amazon extractor returns one link. *)
Lemma get_product_links_contract_fails :
  (exists hs urls,
      hs = [py "https://s.com/product/1?a=1"; py "https://s.com/product/1?a=2"]
      /\ Generic.get_product_links (page_with_links hs) 50 = Ok urls
      /\ ~ discover_links_contract Generic.is_product_link hs 50 urls)
  /\ (exists hs urls,
         hs = [py "https://s.com/sku/1"; py "https://s.com/product/2"]
         /\ Generic.get_product_links (page_with_links hs) 50 = Ok urls
         /\ ~ discover_links_contract Generic.is_product_link hs 50 urls)
  /\ (exists hs urls,
         hs = [py "https://www.flipkart.com/a/p/1?pid=1";
               py "https://www.flipkart.com/a/p/1?pid=2"]
         /\ flipkart_get_product_links (page_with_links hs) 50 = Ok urls
         /\ ~ NoDup (map strip_query_fragment urls))
  /\ (exists hs urls,
         hs = [py "https://www.ajio.com/a/p/1#x"; py "https://www.ajio.com/a/p/1#y"]
         /\ ajio_get_product_links (fun _ h => h) (page_with_links hs) 50
            = Ok urls
         /\ ~ NoDup (map strip_query_fragment urls))
  /\ (exists hs urls,
         hs = [py "https://www.amazon.in/a/dp/B0ABCDEFGH"]
         /\ Amazon.get_product_links (page_with_links hs) 0 = Ok urls
         /\ ~ discover_links_contract Amazon.is_product_link hs 0 urls).
Proof.
  split; [|split; [|split; [|split]]].
  - eexists. eexists. split; [reflexivity|]. split; [vm_compute; reflexivity|].
    intros [H _]. vm_compute in H.
    inversion H as [|? ? Hn _]. apply Hn. now left.
  - eexists. eexists. split; [reflexivity|]. split; [vm_compute; reflexivity|].
    intros (_ & _ & n & H). vm_compute in H.
    destruct n as [|[|[|n]]]; discriminate.
  - eexists. eexists. split; [reflexivity|]. split; [vm_compute; reflexivity|].
    intros H. vm_compute in H.
    inversion H as [|? ? Hn _]. apply Hn. now left.
  - eexists. eexists. split; [reflexivity|]. split; [vm_compute; reflexivity|].
    intros H. vm_compute in H.
    inversion H as [|? ? Hn _]. apply Hn. now left.
  - eexists. eexists. split; [reflexivity|]. split; [vm_compute; reflexivity|].
    intros (_ & H & _). vm_compute in H. now apply H.
Qed.

End RegisteredLinkFacts.

(** ** Invariants of the session *)

Module SessionInvariantFacts.
Import Base App SessionInvariants SessionFacts.

Section Session.
Variable lower : pystr -> pystr.
Variable whitelisted_sellers : list pystr.
Variable w : world.

Local Abbreviation save_product_if_any :=
  (save_product_if_any lower whitelisted_sellers w).
Local Abbreviation save_variants := (save_variants lower whitelisted_sellers w).
Local Abbreviation process_product :=
  (process_product lower whitelisted_sellers w).
Local Abbreviation products_loop := (products_loop lower whitelisted_sellers w).
Local Abbreviation pages_loop := (pages_loop lower whitelisted_sellers w).

Section Kept.
Variable P : session -> Prop.
Hypothesis P_product : forall d, stable P (save_product_if_any d).
Hypothesis P_variants : forall vs, stable P (save_variants vs).
Hypothesis P_record : forall e s, P s -> P (record e s).

Lemma kept_by_process_product v : stable P (process_product v).
Proof.
  unfold App.process_product. apply stable_try; [|intros; apply stable_ret].
  unfold App.product_body.
  apply stable_bind; [apply stable_lift|]. intros _.
  apply stable_bind; [apply stable_lift|]. intros d.
  apply stable_bind; [apply P_product|]. intros _.
  apply stable_bind; [apply stable_lift|]. intros vs.
  apply stable_bind; [apply P_variants|]. intros _.
  apply stable_lift.
Qed.

Lemma kept_by_products_loop p links :
  forall i, stable P (products_loop p i links).
Proof.
  induction links as [|u rest IH]; intros i; [apply stable_ret|].
  cbn [App.products_loop]. apply stable_bind.
  - intros s H. cbn [snd]. now apply P_record.
  - intros _. apply stable_bind; [apply kept_by_process_product|].
    intros _. apply IH.
Qed.

Lemma kept_by_pages_loop fuel :
  forall max_pages cp s r s',
    P s -> pages_loop fuel max_pages cp s = Some (r, s') -> P s'.
Proof.
  induction fuel as [|fuel IH]; intros max_pages cp s r s' Hs; [discriminate|].
  rewrite pages_loop_step.
  destruct (keep_going max_pages cp); [|now intros [= _ <-]]. cbv zeta.
  apply (P_record (GetLinks cp)) in Hs.
  destruct (links_on w cp) as [[|u l]|e];
    [now intros [= _ <-] | | now intros [= _ <-]].
  pose proof (kept_by_products_loop cp (u :: l) 0 _ Hs) as H1.
  destruct (products_loop cp 0 (u :: l) _) as [[[]|e] s1]; cbn [snd] in H1;
    [|now intros [= _ <-]].
  destruct ((max_pages =? 0) || (cp <? max_pages)); [|now intros [= _ <-]].
  apply (P_record (NextPage cp)) in H1.
  destruct (next_page w cp) as [[|]|e];
    [|now intros [= _ <-] | now intros [= _ <-]].
  destruct (settle w cp) as [[]|e]; [|now intros [= _ <-]].
  now apply IH.
Qed.

Lemma kept_by_listing fuel max_pages r s' :
  P fresh ->
  scrape_platform_products_with_browser lower whitelisted_sellers w
    fuel max_pages = Some (r, s') ->
  P s'.
Proof.
  intros F H. apply scrape_some in H.
  destruct H as [(e & _ & _ & ->)|(_ & r0 & Hrun & _)]; [exact F|].
  eapply kept_by_pages_loop; [exact F | exact Hrun].
Qed.

Lemma kept_by_single url platform :
  P fresh ->
  P (snd (scrape_single_product lower whitelisted_sellers w url platform)).
Proof.
  unfold scrape_single_product.
  destruct (Registry.instantiate _); [|auto].
  generalize fresh.
  apply stable_bind; [apply stable_lift|]. intros _.
  apply stable_bind; [apply stable_lift|]. intros d.
  apply stable_bind; [apply P_product|]. intros _.
  apply stable_bind; [apply stable_lift|]. intros vs.
  apply stable_bind; [apply P_variants|]. intros _.
  apply stable_lift.
Qed.

End Kept.

(** *** Counters and row shapes *)






Lemma well_kept_record e s : well_kept s -> well_kept (record e s).
Proof. intros H. exact H. Qed.

(** *** Where the lines and the fragments come from *)





(** *** Rows are only ever added *)

Lemma extends_refl s : extends s s.
Proof. split; exists []; now rewrite app_nil_r. Qed.

Lemma extends_product s0 d : stable (extends s0) (save_product_if_any d).
Proof.
  intros s [[ps Hp] Hv]. rewrite save_product_if_any_snd.
  destruct (truthy (title d) || truthy (price d)); [|now split; [exists ps|]].
  cbv zeta. rewrite save_product_to_csv_eq. cbn [snd].
  assert (K : exists rows,
             products_csv s ++ [fst (append w
                (product_row d (classify lower whitelisted_sellers
                                  (seller_name d) (manufacturer_name d)))
                (appends s))]
             = products_csv s0 ++ rows)
    by (eexists; rewrite Hp, <- app_assoc; reflexivity).
  destruct (snd (append w _ (appends s))); split; cbn; assumption.
Qed.

Lemma extends_variants s0 vs : stable (extends s0) (save_variants vs).
Proof.
  induction vs as [|v rest IH]; [apply stable_ret|].
  intros s [Hp [rows Hv]]. cbn [App.save_variants].
  unfold bind at 1. rewrite save_variant_to_csv_eq.
  assert (K : exists rows0,
             variants_csv s ++ [fst (append w
                (variant_row v (classify lower whitelisted_sellers
                                  (seller_name (v_product v))
                                  (manufacturer_name (v_product v))))
                (appends s))]
             = variants_csv s0 ++ rows0)
    by (eexists; rewrite Hv, <- app_assoc; reflexivity).
  destruct (snd (append w _ (appends s))) as [[]|e];
    [|split; [exact Hp | exact K]].
  unfold bind at 1. unfold count_variant at 1. apply IH.
  split; [exact Hp | exact K].
Qed.

End Session.


(** X16.  The two files only grow: whatever happens while the loop over
    the pages runs from a session [s], the rows of [s] are still there, in
    their order, at the start of the files when it ends; and one product
    link adds at most one row to the products file. *)
Theorem files_only_grow :
  forall (lower : pystr -> pystr) (L : list pystr) (w : world),
    (forall fuel max_pages cp s r s',
        pages_loop lower L w fuel max_pages cp s = Some (r, s') ->
        extends s s')
    /\ (forall v s,
           let s' := snd (process_product lower L w v s) in
           extends s s'
           /\ List.length (products_csv s') <= S (List.length (products_csv s)))
    /\ (forall p i links s,
           List.length (products_csv (snd (products_loop lower L w p i links s)))
           <= List.length (products_csv s) + List.length links).
Proof.
  intros lower L w.
  assert (One : forall v s,
             List.length (products_csv (snd (process_product lower L w v s)))
             <= S (List.length (products_csv s))).
  { intros v s.
    assert (V : forall vs s0,
               products_csv (snd (save_variants lower L w vs s0))
               = products_csv s0).
    { induction vs as [|x rest IH]; intros s0; [reflexivity|].
      cbn [save_variants]. unfold bind at 1. rewrite save_variant_to_csv_eq.
      destruct (snd (append w _ (appends s0))) as [[]|e]; [|reflexivity].
      unfold bind at 1. unfold count_variant at 1. now rewrite IH. }
    unfold process_product, try_except, product_body, bind, lift.
    destruct (v_open v) as [[]|e]; [|cbn; lia].
    destruct (v_data v) as [d|e]; [|cbn; lia].
    assert (D : List.length
                  (products_csv (snd (save_product_if_any lower L w d s)))
                <= S (List.length (products_csv s))).
    { rewrite save_product_if_any_snd.
      destruct (truthy (title d) || truthy (price d)); [|cbn; lia].
      cbv zeta. rewrite save_product_to_csv_eq. cbn [snd].
      destruct (snd (append w _ (appends s))); cbn; rewrite length_app;
        cbn; lia. }
    destruct (save_product_if_any lower L w d s) as [[[]|e] s1];
      cbn [snd] in D; [|cbn; lia].
    destruct (v_variants v) as [vs|e]; [|cbn; lia].
    specialize (V vs s1).
    destruct (save_variants lower L w vs s1) as [[[]|e] s2];
      cbn [snd] in V; [|cbn; rewrite V; lia].
    destruct (v_close v) as [[]|e]; cbn; rewrite V; lia. }
  split; [|split].
  - intros fuel max_pages cp s r s'.
    apply (kept_by_pages_loop lower L w (extends s)).
    + apply extends_product.
    + apply extends_variants.
    + intros e s0 H. exact H.
    + apply extends_refl.
  - intros v s. cbv zeta. split; [|apply One].
    apply (kept_by_process_product lower L w (extends s)).
    + apply extends_product.
    + apply extends_variants.
    + apply extends_refl.
  - intros p i links. revert i.
    induction links as [|u rest IH]; intros i s; [cbn; lia|].
    rewrite products_loop_step.
    pose proof (One (visit_of w p i u) (record (Visit p i u) s)) as H1.
    specialize (IH (S i)
                   (snd (process_product lower L w (visit_of w p i u)
                                         (record (Visit p i u) s)))).
    cbn [record products_csv] in H1. cbn [List.length]. lia.
Qed.



End SessionInvariantFacts.

(** ** The next page and the detected dimensions of the Amazon extractor *)

Module AmazonMoreFacts.
Import Base Amazon AmazonNav VariantInvariants.

Section Live.
Variable B : Browser.

Lemma try_next_absent d sel :
  absent B d sel -> try_next B d sel = Continues B d.
Proof.
  unfold try_next. intros [H|[e H]]; now rewrite H.
Qed.

Lemma try_next_disabled d sel :
  disabled B d sel -> try_next B d sel = Returns B d false.
Proof.
  unfold try_next. intros [(n & Hn & Hpos) Ha]. rewrite Hn.
  apply Nat.ltb_lt in Hpos. rewrite Hpos, Ha. now rewrite pystr_eqb_refl.
Qed.

Lemma click_and_wait_true d sel d' :
  click_and_wait B d sel = Returns B d' true ->
  exists d1, click B d sel = (d1, Ok tt)
             /\ wait_for_timeout B d1 5000 = (d', Ok tt).
Proof.
  unfold click_and_wait.
  destruct (click B d sel) as [d0 [[]|e]]; [|discriminate].
  destruct (wait_for_timeout B d0 5000) as [d2 [[]|e]] eqn:Ew; [|discriminate].
  intros [= <-]. exists d0. split; [reflexivity | exact Ew].
Qed.

Lemma try_next_true d sel d' :
  try_next B d sel = Returns B d' true ->
  exists d1, click B d sel = (d1, Ok tt)
             /\ wait_for_timeout B d1 5000 = (d', Ok tt)
             /\ ~ disabled B d sel.
Proof.
  unfold try_next.
  destruct (count (view B d) sel) as [n|e]; [|discriminate].
  destruct (0 <? n); [|discriminate].
  destruct (get_attribute (view B d) sel (py "aria-disabled")) as [a|e] eqn:Ea;
    [|discriminate].
  destruct a as [a|].
  - destruct (pystr_eqb a (py "true")) eqn:Et; [discriminate|].
    intros H. destruct (click_and_wait_true _ _ _ H) as (d1 & Hc & Hd).
    exists d1. repeat split; auto. intros [_ Hdis]. rewrite Ea in Hdis.
    injection Hdis as ->. now rewrite pystr_eqb_refl in Et.
  - intros H. destruct (click_and_wait_true _ _ _ H) as (d1 & Hc & Hd).
    exists d1. repeat split; auto. intros [_ Hdis]. congruence.
Qed.

Lemma next_loop_true sels :
  forall d d',
    next_loop B d sels = (d', true) ->
    exists d0 d1 sel,
      In sel sels /\ click B d0 sel = (d1, Ok tt)
      /\ wait_for_timeout B d1 5000 = (d', Ok tt) /\ ~ disabled B d0 sel.
Proof.
  induction sels as [|s rest IH]; intros d d'; [discriminate|].
  cbn [next_loop]. destruct (try_next B d s) as [d2 adv|d2] eqn:E.
  - intros [= -> ->]. apply try_next_true in E.
    destruct E as (d1 & Hc & Hd & Hn). exists d, d1, s.
    repeat split; auto. now left.
  - intros H. destruct (IH d2 d' H) as (d0 & d1 & sel & Hin & Hrest).
    exists d0, d1, sel. split; [now right | exact Hrest].
Qed.

Lemma next_loop_absent pre :
  forall d rest,
    Forall (absent B d) pre ->
    next_loop B d (pre ++ rest) = next_loop B d rest.
Proof.
  induction pre as [|s pre IH]; intros d rest H; [reflexivity|].
  inversion H as [|? ? Hs Hpre]; subst.
  cbn [app next_loop]. rewrite (try_next_absent d s Hs). now apply IH.
Qed.

End Live.

(** X18.  [go_to_next_page] returns true only after a click that did not
    raise, on a control of its selector list that is not marked
    [aria-disabled="true"], followed by the wait, which returned.  When the first selector
    that finds anything finds a disabled control, it returns false and the
    page is left as it was, and so it does when no selector finds
    anything. *)
Theorem go_to_next_page_clicks_enabled_control :
  forall (B : Browser) (d : dom B),
    (forall d',
        go_to_next_page B d = (d', true) ->
        exists d0 d1 sel,
          In sel next_selectors /\ click B d0 sel = (d1, Ok tt)
          /\ wait_for_timeout B d1 5000 = (d', Ok tt)
          /\ ~ disabled B d0 sel)
    /\ (forall pre sel post,
           next_selectors = pre ++ sel :: post ->
           Forall (absent B d) pre -> disabled B d sel ->
           go_to_next_page B d = (d, false))
    /\ (Forall (absent B d) next_selectors ->
        go_to_next_page B d = (d, false)).
Proof.
  intros B d. unfold go_to_next_page. split; [|split].
  - intros d'. apply next_loop_true.
  - intros pre sel post -> Hpre Hdis.
    rewrite (next_loop_absent B pre d (sel :: post) Hpre).
    cbn [next_loop]. now rewrite (try_next_disabled B d sel Hdis).
  - intros H. rewrite <- (app_nil_r next_selectors).
    now rewrite (next_loop_absent B next_selectors d [] H).
Qed.

(** *** The detected dimensions *)

Lemma dict_set_keys k v d :
  map fst (dict_set k v d)
  = if mem k (map fst d) then map fst d else map fst d ++ [k].
Proof.
  induction d as [|[k0 v0] r IH]; [reflexivity|].
  cbn [dict_set map fst mem existsb].
  change (existsb (pystr_eqb k) (map fst r)) with (mem k (map fst r)).
  destruct (pystr_eqb k k0) eqn:E.
  - apply pystr_eqb_eq in E. subst k0. reflexivity.
  - cbn [map fst orb]. rewrite IH. now destruct (mem k (map fst r)).
Qed.

Lemma dict_set_values k v d :
  v <> [] -> Forall (fun e : pystr * list choice => snd e <> []) d ->
  Forall (fun e => snd e <> []) (dict_set k v d).
Proof.
  intros Hv. induction 1 as [|[k0 v0] r H0 Hr IH]; cbn [dict_set].
  - now repeat constructor.
  - destruct (pystr_eqb k k0); constructor; assumption.
Qed.

Lemma add_dimension_tidy d name options :
  tidy d -> tidy (add_dimension d name options).
Proof.
  intros [Hk Hv]. unfold add_dimension.
  destruct options as [|o rest]; [now split|]. split.
  - rewrite dict_set_keys. destruct (mem name (map fst d)) eqn:E; [exact Hk|].
    apply LinkFacts.mem_false_In in E.
    apply NoDup_app; [exact Hk | repeat constructor; tauto |].
    intros x Hx [<-|[]]. contradiction.
  - apply dict_set_values; [discriminate | exact Hv].
Qed.

Lemma tidy_perm d d' : Permutation d' d -> tidy d -> tidy d'.
Proof.
  intros Hp [Hk Hv]. split.
  - eapply Permutation_NoDup; [|exact Hk].
    apply Permutation_map. now symmetry.
  - eapply Permutation_Forall; [|exact Hv]. now symmetry.
Qed.

Lemma js_or_nonempty a b : b <> [] -> js_or a b <> [].
Proof.
  intros Hb. unfold js_or. destruct a as [s|]; [|exact Hb].
  destruct (nonempty s) eqn:E; [now apply nonempty_true | exact Hb].
Qed.

(** X19.  In the dictionary [_detect_amazon_variants] returns no dimension
    name occurs twice and no dimension has an empty list of options; an
    option taken from a twister row always has a non-empty name
    ("Unknown" when the swatch shows none) and its value is its ASIN. *)
Theorem detected_dimensions_are_tidy :
  forall (page : Page),
    NoDup (map fst (_detect_amazon_variants page))
    /\ (forall k v, In (k, v) (_detect_amazon_variants page) -> v <> [])
    /\ (forall row o, In o (row_choices row) ->
                      o_name o <> [] /\ o_value o = o_asin o).
Proof.
  intros page.
  assert (T : tidy (_detect_amazon_variants page)).
  { unfold _detect_amazon_variants.
    destruct (twister page) as [[rows sels]|e];
      [|split; constructor].
    unfold detect_script. cbn [fst snd].
    assert (R : forall rs d0, tidy d0 ->
               tidy (fold_left
                       (fun d row => add_dimension d (row_dim_name row)
                                                   (row_choices row))
                       rs d0)).
    { induction rs as [|r rs IH]; intros d0 H; [exact H|].
      cbn [fold_left]. apply IH. now apply add_dimension_tidy. }
    assert (S : forall ss d0, tidy d0 ->
               tidy (fold_left
                       (fun d sel => add_dimension d (select_dim_name sel)
                                                   (select_choices sel))
                       ss d0)).
    { induction ss as [|x ss IH]; intros d0 H; [exact H|].
      cbn [fold_left]. apply IH. now apply add_dimension_tidy. }
    apply (tidy_perm _ _ (VariantFacts.own_keys_order_perm _)).
    apply S, R. split; constructor. }
  destruct T as [Hk Hv]. split; [exact Hk|]. split.
  - intros k v Hin. rewrite Forall_forall in Hv. exact (Hv (k, v) Hin).
  - intros row o Ho. unfold row_choices in Ho.
    apply in_map_iff in Ho. destruct Ho as (sw & <- & _).
    split; [|reflexivity]. cbn [choice_of_swatch o_name].
    unfold swatch_name. repeat apply js_or_nonempty. discriminate.
Qed.

End AmazonMoreFacts.

(** ** The whitelist column of the files *)

Module FlagFacts.
Import Base App SessionInvariants SessionFacts.

Section Session.
Variable lower : pystr -> pystr.
Variable whitelisted_sellers : list pystr.
Variable w : world.

Lemma classify_flag a b : flag_ok (classify lower whitelisted_sellers a b).
Proof. apply AllowListFacts.check_option_two_valued. Qed.

Lemma flags_product d :
  stable flags_ok (save_product_if_any lower whitelisted_sellers w d).
Proof.
  intros s [F1 F2]. rewrite save_product_if_any_snd.
  destruct (truthy (title d) || truthy (price d)); [|now split].
  cbv zeta. rewrite save_product_to_csv_eq. cbn [snd].
  assert (K : Forall (fun c => flag_ok (nth 6 (chunk_row c) []))
                (products_csv s ++
                 [fst (append w
                    (product_row d (classify lower whitelisted_sellers
                                      (seller_name d) (manufacturer_name d)))
                    (appends s))])).
  { apply Forall_app. split; [exact F1|]. constructor; [|constructor].
    rewrite append_row. cbn [product_row nth]. apply classify_flag. }
  destruct (snd (append w _ (appends s))); split; cbn; assumption.
Qed.

Lemma flags_variants vs :
  stable flags_ok (save_variants lower whitelisted_sellers w vs).
Proof.
  induction vs as [|v rest IH]; [apply stable_ret|].
  intros s [F1 F2]. cbn [save_variants].
  unfold bind at 1. rewrite save_variant_to_csv_eq.
  assert (K : Forall (fun c => flag_ok (nth 7 (chunk_row c) []))
                (variants_csv s ++
                 [fst (append w
                    (variant_row v (classify lower whitelisted_sellers
                                      (seller_name (v_product v))
                                      (manufacturer_name (v_product v))))
                    (appends s))])).
  { apply Forall_app. split; [exact F2|]. constructor; [|constructor].
    rewrite append_row. cbn [variant_row nth]. apply classify_flag. }
  destruct (snd (append w _ (appends s))) as [[]|e]; [|now split].
  unfold bind at 1. unfold count_variant at 1. apply IH. now split.
Qed.

End Session.

(** X20.  In both files, after every run, listing or single product, the
    cell of the column "is_whitelisted" of every row handed to a writer is
    "Whitelisted" or "False", whatever the extractor returned for seller
    and manufacturer, [None] included. *)
Theorem whitelist_column_is_two_valued :
  forall (lower : pystr -> pystr) (L : list pystr) (w : world),
    (forall fuel max_pages r s',
        scrape_platform_products_with_browser lower L w fuel max_pages
          = Some (r, s') ->
        flags_ok s')
    /\ (forall url platform,
           flags_ok (snd (scrape_single_product lower L w url platform))).
Proof.
  intros lower L w.
  assert (F : flags_ok fresh) by (split; constructor).
  split.
  - intros fuel max_pages r s' H.
    eapply (SessionInvariantFacts.kept_by_listing lower L w flags_ok); eauto.
    + apply flags_product.
    + apply flags_variants.
  - intros url platform.
    apply (SessionInvariantFacts.kept_by_single lower L w flags_ok); auto.
    + apply flags_product.
    + apply flags_variants.
Qed.

End FlagFacts.

(** ** Selection and the variant records *)

Module SelectionFacts.
Import Base Amazon VariantInvariants.

Section Live.
Variable B : Browser.

Lemma try_selector_true d sel option d' :
  try_selector B d sel option = (d', true) -> acted B d'.
Proof.
  unfold try_selector.
  destruct (count (view B d) sel) as [n|e]; [|discriminate].
  destruct (0 <? n); [|discriminate].
  destruct (tag_name B d sel) as [tag|e]; [|discriminate].
  destruct (pystr_eqb tag (py "select")).
  - destruct (select_option B d sel (o_value option)) as [d1 [[]|e]] eqn:E;
      [|discriminate].
    intros [= <-]. exists d, sel. right. now exists (o_value option).
  - destruct (click B d sel) as [d1 [[]|e]] eqn:E; [|discriminate].
    intros [= <-]. exists d, sel. now left.
Qed.

Lemma try_selectors_true sels :
  forall d option d',
    try_selectors B d sels option = (d', true) -> acted B d'.
Proof.
  induction sels as [|s rest IH]; intros d option d'; [discriminate|].
  cbn [try_selectors].
  destruct (try_selector B d s option) as [d1 [|]] eqn:E.
  - intros [= <-]. now apply try_selector_true in E.
  - apply IH.
Qed.

Lemma try_selectors_nothing sels :
  forall d option,
    (forall sel, count (view B d) sel = Ok 0) ->
    try_selectors B d sels option = (d, false).
Proof.
  induction sels as [|s rest IH]; intros d option H; [reflexivity|].
  cbn [try_selectors]. unfold try_selector. rewrite H. cbn. now apply IH.
Qed.

End Live.

(** X21.  [_select_amazon_variant] reports a selection only when a click or
    a [select_option] call returned without raising, and the page is then
    in the state that call left it in; when nothing on the page answers to
    any selector, the page is left as it was and no selection is
    reported. *)
Theorem select_amazon_variant_acts_or_leaves :
  forall (B : Browser) (d : dom B) (dim_name : pystr) (option : choice),
    (forall d',
        _select_amazon_variant B d dim_name option = (d', true) ->
        acted B d')
    /\ ((forall sel, count (view B d) sel = Ok 0) ->
        _select_amazon_variant B d dim_name option = (d, false)).
Proof.
  intros B d dim_name option. unfold _select_amazon_variant. cbv zeta.
  split.
  - intros d'.
    destruct (try_selectors B d _ option) as [d1 [|]] eqn:E.
    + intros [= <-]. now apply try_selectors_true in E.
    + destruct (count (view B d1) _) as [n|e]; [|discriminate].
      destruct (0 <? n); [|discriminate].
      destruct (click B d1 _) as [d2 [[]|e]] eqn:Ec; [|discriminate].
      intros [= <-]. eexists. eexists. left. exact Ec.
  - intros H. rewrite (try_selectors_nothing B _ d option H).
    now rewrite H.
Qed.

Section Loop.
Variable lower : pystr -> pystr.
Variable is_digit : N -> bool.
Hypothesis dollar_is_no_digit : is_digit 36%N = false.
Variable B : Browser.
Variable main_url : pystr.

Lemma option_body_well_formed dim_name o (st : loop_state B) :
  Forall (well_formed is_digit main_url) (variants st) ->
  Forall (well_formed is_digit main_url)
         (variants (option_body lower is_digit B main_url dim_name o st)).
Proof.
  intros H. unfold option_body.
  destruct (_select_amazon_variant B (page_state st) dim_name o) as [d1 sel].
  destruct (wait_for_timeout B d1 3000) as [d2 [[]|e]]; [|exact H].
  unfold _extract_amazon_variant_data, await_extract_product_data.
  destruct (wait_for_selector B d2 _ 10000) as [d3 r].
  cbn [variants]. apply Forall_app. split; [exact H|].
  constructor; [|constructor]. unfold well_formed.
  cbn [main_product_url v_product variant_price].
  split; [reflexivity|]. split; [|split; [reflexivity|]].
  - apply ExtractFacts.extract_product_data_field_types.
  - now apply ExtractFacts.extract_product_data_price.
Qed.

Lemma pass_well_formed (todo : list (pystr * choice)) :
  forall st : loop_state B,
    Forall (well_formed is_digit main_url) (variants st) ->
    Forall (well_formed is_digit main_url)
      (variants (fold_left (fun st a => option_body lower is_digit B main_url
                                                    (fst a) (snd a) st)
                           todo st)).
Proof.
  induction todo as [|[k o] rest IH]; intros st H; [exact H|].
  cbn [fold_left fst snd]. now apply IH, option_body_well_formed.
Qed.

End Loop.

(** X22.  Every variant record the Amazon extractor returns names the main
    product it was asked for, holds a string, never [None], in each of the
    five fields of its product, and has as variant price the price of that
    product as it was read after the selection: empty, "Out of stock", or
    digits, commas, periods and rupee signs with a rupee sign among them. *)
Theorem variant_records_are_well_formed :
  forall (lower : pystr -> pystr) (is_digit : N -> bool) (B : Browser)
         (d : dom B) (main_url : pystr) (v : variant_data),
    is_digit 36%N = false ->
    In v (variants (extract_variants lower is_digit B d main_url)) ->
    well_formed is_digit main_url v.
Proof.
  intros lower is_digit B d main_url v Hd Hin.
  rewrite VariantFacts.extract_variants_pass in Hin.
  destruct (snd (wait_for_timeout B d 2000)) as [[]|e]; [|destruct Hin].
  pose proof (pass_well_formed lower is_digit Hd B main_url
                (all_options
                   (_detect_amazon_variants
                      (view B (fst (wait_for_timeout B d 2000)))))
                (at_start B (fst (wait_for_timeout B d 2000)))
                (Forall_nil _)) as H.
  rewrite Forall_forall in H. now apply H.
Qed.

(** The four records of the shop whose swatch of Blue cannot be clicked:
    each names the main product and has the price of the page, the rupee
    sign and 499. *)
Lemma variant_records_are_well_formed_witness :
  Forall (well_formed is_ascii_digit (py "https://www.amazon.in/a/dp/B0000000R1"))
         (variants (extract_variants ascii_lower is_ascii_digit
                      VariantSample.blue_stuck VariantSample.opened
                      (py "https://www.amazon.in/a/dp/B0000000R1")))
  /\ map variant_price
         (variants (extract_variants ascii_lower is_ascii_digit
                      VariantSample.blue_stuck VariantSample.opened
                      (py "https://www.amazon.in/a/dp/B0000000R1")))
     = [Some (rupee :: py "499"); Some (rupee :: py "499");
        Some (rupee :: py "499"); Some (rupee :: py "499")].
Proof.
  split; [|vm_compute; reflexivity]. apply Forall_forall. intros v Hv.
  exact (variant_records_are_well_formed ascii_lower is_ascii_digit
           VariantSample.blue_stuck VariantSample.opened
           (py "https://www.amazon.in/a/dp/B0000000R1") v eq_refl Hv).
Defined.

End SelectionFacts.

(** ** Attributes by XPath *)

Module AttributeFacts.
Import Base BaseAttributes.

Lemma attribute_of_shape page attribute xp v :
  attribute_of page attribute xp = Some v ->
  v <> [] /\ strip v = v
  /\ exists raw,
       get_attribute page (py "xpath=" ++ clean_xpath attribute xp) attribute
         = Ok (Some raw)
       /\ v = strip raw.
Proof.
  unfold attribute_of. cbv zeta.
  destruct (count page _) as [n|e]; [|discriminate].
  destruct (0 <? n); [|discriminate].
  destruct (get_attribute page _ attribute) as [[raw|]|e]; try discriminate.
  destruct (nonempty raw && nonempty (strip raw)) eqn:C; [|discriminate].
  intros [= <-]. apply andb_true_iff in C. destruct C as [_ C].
  split; [now apply nonempty_true|]. split; [apply strip_idem|].
  now exists raw.
Qed.

(** X23.  A value [get_attribute_by_xpath] returns is never empty, has no
    white space at either end, and is the trimmed value of the attribute at
    the first XPath of the list, with "/@attribute" taken out of it, for
    which the lookup gives a non-blank value; when every XPath of the list
    gives nothing, the function returns [None]. *)
Theorem get_attribute_by_xpath_first_value :
  forall (page : Page) (xpaths : list pystr) (attribute : pystr),
    (forall v,
        get_attribute_by_xpath page xpaths attribute = Some v ->
        v <> [] /\ strip v = v
        /\ exists pre xp post raw,
             xpaths = pre ++ xp :: post
             /\ Forall (fun x => attribute_of page attribute x = None) pre
             /\ get_attribute page (py "xpath=" ++ clean_xpath attribute xp)
                              attribute = Ok (Some raw)
             /\ v = strip raw)
    /\ (get_attribute_by_xpath page xpaths attribute = None <->
        Forall (fun x => attribute_of page attribute x = None) xpaths).
Proof.
  intros page xpaths attribute.
  induction xpaths as [|xp rest [IH1 IH2]].
  - split; [discriminate|]. split; [constructor | reflexivity].
  - cbn [get_attribute_by_xpath].
    destruct (attribute_of page attribute xp) as [x|] eqn:E.
    + split.
      * intros v [= <-]. apply attribute_of_shape in E.
        destruct E as (H1 & H2 & raw & Hr & Hv).
        split; [exact H1|]. split; [exact H2|].
        exists [], xp, rest, raw. repeat split; auto.
      * split; [discriminate|]. inversion 1; congruence.
    + split.
      * intros v Hv. destruct (IH1 v Hv)
          as (H1 & H2 & pre & y & post & raw & -> & Hpre & Hr & Hs).
        split; [exact H1|]. split; [exact H2|].
        exists (xp :: pre), y, post, raw. repeat split; auto.
      * rewrite IH2. split; [now constructor | now inversion 1].
Qed.

End AttributeFacts.
